(** * Solar K2 Bootstrapper: the progression and economy engine

    A shallow embedding of the game core (js/core/StateManager.js,
    systems/ResourceSystem.js, systems/ConstructionSystem.js,
    systems/ProgressionSystem.js, systems/IdleAccumulator.js, the offline
    calculation of js/core/TimeManager.js and the static catalogs under
    js/data) together with the properties of its specification.

    Conventions of the embedding.
    - JavaScript numbers are exact rationals ([Q]); counters that the code
      only ever moves by whole units (structure counts, slots, eras,
      millisecond timestamps) are integers ([Z]).  Equalities between
      quantities are therefore stated with [==].
    - A JavaScript object used as a string-keyed map is an association list
      in insertion order ([Obj]); [Object.entries] is the list itself.
    - The singletons (StateManager, ResourceSystem, ConstructionSystem,
      ProgressionSystem, IdleAccumulator) are the fields of one [Game]
      value that every method takes and returns.
    - [emit] appends to an event log (newest first).  The subscribers that
      belong to the core, registered by [ResourceSystem.init] and
      [ProgressionSystem.init], are called where the event is emitted.
    - [Date.now()] is an argument ([now]).  Console output, the display
      fields of catalog entries (names, icons, descriptions) and the
      identifier and position of queue items are left out: nothing in the
      engine reads them. *)

From Stdlib Require Import QArith ZArith List String Bool Lia.
From Stdlib Require Import Qround.
Import ListNotations.
Open Scope string_scope.
Open Scope list_scope.
Open Scope Z_scope.
Open Scope Q_scope.

(** ** JavaScript values *)

Module JS.

(** [a < b] on numbers. *)
Definition ltb (a b : Q) : bool := negb (Qle_bool b a).
(** [a >= b], [a > b], [a <= b] on numbers. *)
Definition geb (a b : Q) : bool := Qle_bool b a.
Definition gtb (a b : Q) : bool := negb (Qle_bool a b).
Definition leb (a b : Q) : bool := Qle_bool a b.

(** Truthiness of a number: [0] is falsy. *)
Definition truthy (q : Q) : bool := negb (Qeq_bool q 0).

(** [x || d] where [x] is a number or [undefined]. *)
Definition orQ (x : option Q) (d : Q) : Q :=
  match x with
  | Some q => if truthy q then q else d
  | None => d
  end.

Definition orZ (x : option Z) (d : Z) : Z :=
  match x with
  | Some 0%Z | None => d
  | Some z => z
  end.

(** [Math.floor], [Math.min], [Math.max]. *)
Definition floor (q : Q) : Q := inject_Z (Qfloor q).
Definition min (a b : Q) : Q := if Qle_bool a b then a else b.
Definition max (a b : Q) : Q := if Qle_bool a b then b else a.

(** [xs.includes(x)] on arrays of strings. *)
Definition includes (xs : list string) (x : string) : bool :=
  existsb (String.eqb x) xs.

(** [xs.splice(i, 1)]: the array without its [i]-th element. *)
Fixpoint splice1 {A} (i : nat) (xs : list A) : list A :=
  match xs, i with
  | [], _ => []
  | _ :: t, O => t
  | x :: t, S j => x :: splice1 j t
  end.

(** Removal of the first occurrence, as
    [i = xs.indexOf(x); if (i > -1) xs.splice(i, 1)]. *)
Fixpoint remove_first (x : string) (xs : list string) : list string :=
  match xs with
  | [] => []
  | y :: t => if String.eqb x y then t else y :: remove_first x t
  end.

(** Objects as maps from property names to values. *)
Definition Obj (A : Type) := list (string * A).

Fixpoint get {A} (o : Obj A) (k : string) : option A :=
  match o with
  | [] => None
  | (k', v) :: t => if String.eqb k k' then Some v else get t k
  end.

(** [o[k] = v]: an existing property keeps its place, a new one goes last. *)
Fixpoint set {A} (k : string) (v : A) (o : Obj A) : Obj A :=
  match o with
  | [] => [(k, v)]
  | (k', v') :: t => if String.eqb k k' then (k, v) :: t else (k', v') :: set k v t
  end.

(** [delete o[k]]. *)
Fixpoint delete {A} (k : string) (o : Obj A) : Obj A :=
  match o with
  | [] => []
  | (k', v') :: t => if String.eqb k k' then t else (k', v') :: delete k t
  end.

Definition keys {A} (o : Obj A) : list string := map fst o.
Definition values {A} (o : Obj A) : list A := map snd o.

End JS.

Import JS.

(** Rates per simulated second for the three resource kinds. *)
Record Rates := { energy : Q; materials : Q; research : Q }.

(** ** config.js *)

Module CONFIG.
Definition MAX_OFFLINE_HOURS : Z := 24.
Definition OFFLINE_EFFICIENCY : Q := 1 # 2.

Definition STARTING_RESOURCES : Obj Q :=
  [("energy", 100); ("materials", 50); ("research", 0)].

Definition BASE_PRODUCTION : Rates :=
  {| energy := 1; materials := 1 # 2; research := 1 # 5 |}.

(** [ERAS]: era number and solar-capture threshold, in the order of
    [Object.entries] (ascending integer keys). *)
Definition ERAS : list (Z * Q) :=
  [(1%Z, 0); (2%Z, 1 # 1000); (3%Z, 1 # 100); (4%Z, 1 # 10)].
End CONFIG.

(** [CONFIG.ERAS[n]], as the threshold of era [n]. *)
Definition get_era (n : Z) : option Q :=
  option_map snd (find (fun e => Z.eqb n (fst e)) CONFIG.ERAS).

(** ** Static catalogs (data/structures.js, data/techTree.js, data/milestones.js) *)

(** The [production] bundle of a structure; an absent field is [0], which the
    code cannot tell from a missing one (it tests fields for truthiness). *)
Record ProductionDef := {
  pd_energy : Q; pd_materials : Q; pd_research : Q; pd_buildSpeedBonus : Q;
  pd_solarCapture : Q; pd_launchCapacity : Q; pd_cargoCapacity : Q;
  pd_population : Q; pd_autoConstruction : Q; pd_energyEfficiency : Q;
  pd_dysonBonus : Q; pd_exoticMaterials : Q; pd_antimatter : Q;
  pd_energyStorage : Q; pd_solarMatter : Q; pd_computation : Q
}.

Record Structure := {
  s_id : string;
  s_cost : Obj Q;
  s_buildTime : Q;
  s_production : option ProductionDef;
  s_limit : option Z;
  s_requiresTech : string;
  s_placement : string
}.

(** The fields of a technology's [effects] bundle that the engine reads. *)
Record Effects := {
  energyGeneration : Q; energyProduction : Q; solarEfficiency : Q;
  materialProduction : Q; researchEfficiency : Q; productionMultiplier : Q;
  buildSpeed : Q; constructionEfficiency : Q; dysonEfficiency : Q;
  researchSlots : nat
}.

Record Tech := {
  t_id : string;
  t_era : Z;
  t_cost : Q;                 (* cost.research *)
  t_unlocked : bool;
  t_unlocks : list string;
  t_prerequisites : list string;
  t_effects : option Effects
}.

Inductive Condition :=
| structure_count (structureId : string) (count : Z)
| total_structures (count : Z)
| solar_capture (percent : Q)
| research_count (count : Z)
| all_research
| era (n : Z)
| unknown_condition.

Record Milestone := {
  m_id : string;
  m_condition : Condition;
  m_reward : option (Obj Q);
  m_isVictory : bool
}.

Record Catalog := {
  STRUCTURES : list Structure;
  TECH_TREE : list Tech;
  MILESTONES : list Milestone
}.

(** [STRUCTURES[id]], [TECH_TREE[id]]: every catalog entry is stored under
    its own [id]. *)
Definition structure_of (c : Catalog) (id : string) : option Structure :=
  find (fun s => String.eqb id (s_id s)) (STRUCTURES c).

Definition tech_of (c : Catalog) (id : string) : option Tech :=
  find (fun t => String.eqb id (t_id t)) (TECH_TREE c).

(** ** The mutable state (StateManager.getDefaultState) *)

Record QueueItem := {
  structureId : string;
  buildTime : Q;
  progress : Q;
  placement : string
}.

Record Stats := {
  totalEnergyGenerated : Q;
  totalMaterialsMined : Q;
  totalResearchCompleted : Z;
  totalStructuresBuilt : Z;
  dysonSatellites : Z
}.

Record Flags := { victoryAchieved : bool; sandboxMode : bool }.

Record State := {
  lastSaveAt : option Z;
  resources : Obj Q;
  production : Rates;
  structures : Obj Z;
  constructionQueue : list QueueItem;
  completedResearch : list string;
  currentResearch : option string;      (* legacy *)
  researchProgress : Q;                 (* legacy *)
  researchQueue : list string;
  researchProgressMap : Obj Q;
  maxResearchSlots : Z;
  autoResearch : bool;
  currentEra : Z;
  solarCapture : Q;
  claimedMilestones : list string;
  stats : Stats;
  flags : Flags
}.

(** ResourceSystem.modifiers and ResourceSystem.logistics. *)
Record Modifiers := {
  mod_energy : Q; mod_materials : Q; mod_research : Q; mod_buildSpeed : Q
}.

Record Logistics := {
  launchCapacity : Q; cargoCapacity : Q; population : Q; autoConstruction : Q;
  energyEfficiency : Q; dysonBonus : Q; exoticMaterials : Q; antimatter : Q;
  energyStorage : Q; solarMatter : Q; computation : Q
}.

(** The offline-progress report of IdleAccumulator. *)
Record OfflineReport := {
  offlineSeconds : Q;
  effectiveSeconds : Q;
  gains : Obj Q;
  wasMaxed : bool
}.

(** The [notification] payloads the core emits, by their title. *)
Inductive Notice :=
| ConstructionComplete (structureId : string)
| ResearchQueueFull (maxSlots : Z)
| ResearchCapacityIncreased (slots : Z)
| TechCompleteUnlocked (techId : string) (displayUnlocks : list string)
| TechCompleteDescription (techId : string)
| MilestoneAchieved (milestoneId : string)
| EraReached (n : Z).

(** Emitted events, named after the event strings of the source.
    [offline_progress_plain] is [offline:progress] as TimeManager emits it,
    without the [wasMaxed] field. *)
Inductive Event :=
| resource_change (type : string) (amount total : Q)
| structure_built (structureId : string) (count total : Z)
| research_complete (techId : string)
| research_start (techId : string)
| research_progress (techId : string) (progress total : Q)
| research_cancel (techId : string)
| milestone_claimed (milestoneId : string)
| era_change (oldEra newEra : Z)
| solar_capture_event (percent : Q)
| game_victory
| offline_progress (report : OfflineReport)
| offline_progress_plain (offlineSeconds effectiveSeconds : Q) (gains : Obj Q)
| production_update (energy materials research solarCapture : Q)
| construction_progress (item : QueueItem)
| construction_complete (item : QueueItem)
| construction_start (item : QueueItem)
| construction_cancel (item : QueueItem) (index : Z)
| queue_add (item : QueueItem)
| queue_remove (item : QueueItem) (index : Z)
| state_change (path : string)
| state_path (path : string)
| setting_change (key : string)
| notification (n : Notice).

(** The singletons of the core, as one value. *)
Record Game := {
  state : State;                          (* StateManager.state *)
  events : list Event;                    (* everything emitted, newest first *)
  modifiers : Modifiers;                  (* ResourceSystem *)
  logistics : Logistics;                  (* ResourceSystem *)
  autoBuildProgress : Q;                  (* ConstructionSystem *)
  ps_researchQueue : list string;         (* ProgressionSystem.researchQueue *)
  ps_researchProgressMap : Obj Q;         (* ProgressionSystem.researchProgressMap *)
  offlineProgress : option OfflineReport  (* IdleAccumulator *)
}.

(** Field assignments. *)


Definition set_resources (v : Obj Q) (s : State) : State :=
  {| lastSaveAt := lastSaveAt s; resources := v; production := production s;
     structures := structures s; constructionQueue := constructionQueue s;
     completedResearch := completedResearch s; currentResearch := currentResearch s;
     researchProgress := researchProgress s; researchQueue := researchQueue s;
     researchProgressMap := researchProgressMap s;
     maxResearchSlots := maxResearchSlots s; autoResearch := autoResearch s;
     currentEra := currentEra s; solarCapture := solarCapture s;
     claimedMilestones := claimedMilestones s; stats := stats s; flags := flags s |}.

Definition set_production (v : Rates) (s : State) : State :=
  {| lastSaveAt := lastSaveAt s; resources := resources s; production := v;
     structures := structures s; constructionQueue := constructionQueue s;
     completedResearch := completedResearch s; currentResearch := currentResearch s;
     researchProgress := researchProgress s; researchQueue := researchQueue s;
     researchProgressMap := researchProgressMap s;
     maxResearchSlots := maxResearchSlots s; autoResearch := autoResearch s;
     currentEra := currentEra s; solarCapture := solarCapture s;
     claimedMilestones := claimedMilestones s; stats := stats s; flags := flags s |}.

Definition set_structures (v : Obj Z) (s : State) : State :=
  {| lastSaveAt := lastSaveAt s; resources := resources s; production := production s;
     structures := v; constructionQueue := constructionQueue s;
     completedResearch := completedResearch s; currentResearch := currentResearch s;
     researchProgress := researchProgress s; researchQueue := researchQueue s;
     researchProgressMap := researchProgressMap s;
     maxResearchSlots := maxResearchSlots s; autoResearch := autoResearch s;
     currentEra := currentEra s; solarCapture := solarCapture s;
     claimedMilestones := claimedMilestones s; stats := stats s; flags := flags s |}.

Definition set_constructionQueue (v : list QueueItem) (s : State) : State :=
  {| lastSaveAt := lastSaveAt s; resources := resources s; production := production s;
     structures := structures s; constructionQueue := v;
     completedResearch := completedResearch s; currentResearch := currentResearch s;
     researchProgress := researchProgress s; researchQueue := researchQueue s;
     researchProgressMap := researchProgressMap s;
     maxResearchSlots := maxResearchSlots s; autoResearch := autoResearch s;
     currentEra := currentEra s; solarCapture := solarCapture s;
     claimedMilestones := claimedMilestones s; stats := stats s; flags := flags s |}.

Definition set_completedResearch (v : list string) (s : State) : State :=
  {| lastSaveAt := lastSaveAt s; resources := resources s; production := production s;
     structures := structures s; constructionQueue := constructionQueue s;
     completedResearch := v; currentResearch := currentResearch s;
     researchProgress := researchProgress s; researchQueue := researchQueue s;
     researchProgressMap := researchProgressMap s;
     maxResearchSlots := maxResearchSlots s; autoResearch := autoResearch s;
     currentEra := currentEra s; solarCapture := solarCapture s;
     claimedMilestones := claimedMilestones s; stats := stats s; flags := flags s |}.

Definition set_maxResearchSlots (v : Z) (s : State) : State :=
  {| lastSaveAt := lastSaveAt s; resources := resources s; production := production s;
     structures := structures s; constructionQueue := constructionQueue s;
     completedResearch := completedResearch s; currentResearch := currentResearch s;
     researchProgress := researchProgress s; researchQueue := researchQueue s;
     researchProgressMap := researchProgressMap s; maxResearchSlots := v;
     autoResearch := autoResearch s; currentEra := currentEra s;
     solarCapture := solarCapture s; claimedMilestones := claimedMilestones s;
     stats := stats s; flags := flags s |}.

Definition set_autoResearch (v : bool) (s : State) : State :=
  {| lastSaveAt := lastSaveAt s; resources := resources s; production := production s;
     structures := structures s; constructionQueue := constructionQueue s;
     completedResearch := completedResearch s; currentResearch := currentResearch s;
     researchProgress := researchProgress s; researchQueue := researchQueue s;
     researchProgressMap := researchProgressMap s;
     maxResearchSlots := maxResearchSlots s; autoResearch := v;
     currentEra := currentEra s; solarCapture := solarCapture s;
     claimedMilestones := claimedMilestones s; stats := stats s; flags := flags s |}.

Definition set_currentEra (v : Z) (s : State) : State :=
  {| lastSaveAt := lastSaveAt s; resources := resources s; production := production s;
     structures := structures s; constructionQueue := constructionQueue s;
     completedResearch := completedResearch s; currentResearch := currentResearch s;
     researchProgress := researchProgress s; researchQueue := researchQueue s;
     researchProgressMap := researchProgressMap s;
     maxResearchSlots := maxResearchSlots s; autoResearch := autoResearch s;
     currentEra := v; solarCapture := solarCapture s;
     claimedMilestones := claimedMilestones s; stats := stats s; flags := flags s |}.

Definition set_solarCapture (v : Q) (s : State) : State :=
  {| lastSaveAt := lastSaveAt s; resources := resources s; production := production s;
     structures := structures s; constructionQueue := constructionQueue s;
     completedResearch := completedResearch s; currentResearch := currentResearch s;
     researchProgress := researchProgress s; researchQueue := researchQueue s;
     researchProgressMap := researchProgressMap s;
     maxResearchSlots := maxResearchSlots s; autoResearch := autoResearch s;
     currentEra := currentEra s; solarCapture := v;
     claimedMilestones := claimedMilestones s; stats := stats s; flags := flags s |}.

Definition set_claimedMilestones (v : list string) (s : State) : State :=
  {| lastSaveAt := lastSaveAt s; resources := resources s; production := production s;
     structures := structures s; constructionQueue := constructionQueue s;
     completedResearch := completedResearch s; currentResearch := currentResearch s;
     researchProgress := researchProgress s; researchQueue := researchQueue s;
     researchProgressMap := researchProgressMap s;
     maxResearchSlots := maxResearchSlots s; autoResearch := autoResearch s;
     currentEra := currentEra s; solarCapture := solarCapture s; claimedMilestones := v;
     stats := stats s; flags := flags s |}.

Definition set_stats (v : Stats) (s : State) : State :=
  {| lastSaveAt := lastSaveAt s; resources := resources s; production := production s;
     structures := structures s; constructionQueue := constructionQueue s;
     completedResearch := completedResearch s; currentResearch := currentResearch s;
     researchProgress := researchProgress s; researchQueue := researchQueue s;
     researchProgressMap := researchProgressMap s;
     maxResearchSlots := maxResearchSlots s; autoResearch := autoResearch s;
     currentEra := currentEra s; solarCapture := solarCapture s;
     claimedMilestones := claimedMilestones s; stats := v; flags := flags s |}.

Definition set_flags (v : Flags) (s : State) : State :=
  {| lastSaveAt := lastSaveAt s; resources := resources s; production := production s;
     structures := structures s; constructionQueue := constructionQueue s;
     completedResearch := completedResearch s; currentResearch := currentResearch s;
     researchProgress := researchProgress s; researchQueue := researchQueue s;
     researchProgressMap := researchProgressMap s;
     maxResearchSlots := maxResearchSlots s; autoResearch := autoResearch s;
     currentEra := currentEra s; solarCapture := solarCapture s;
     claimedMilestones := claimedMilestones s; stats := stats s; flags := v |}.

Definition set_state (v : State) (s : Game) : Game :=
  {| state := v; events := events s; modifiers := modifiers s; logistics := logistics s;
     autoBuildProgress := autoBuildProgress s; ps_researchQueue := ps_researchQueue s;
     ps_researchProgressMap := ps_researchProgressMap s;
     offlineProgress := offlineProgress s |}.

Definition set_events (v : list Event) (s : Game) : Game :=
  {| state := state s; events := v; modifiers := modifiers s; logistics := logistics s;
     autoBuildProgress := autoBuildProgress s; ps_researchQueue := ps_researchQueue s;
     ps_researchProgressMap := ps_researchProgressMap s;
     offlineProgress := offlineProgress s |}.

Definition set_modifiers (v : Modifiers) (s : Game) : Game :=
  {| state := state s; events := events s; modifiers := v; logistics := logistics s;
     autoBuildProgress := autoBuildProgress s; ps_researchQueue := ps_researchQueue s;
     ps_researchProgressMap := ps_researchProgressMap s;
     offlineProgress := offlineProgress s |}.

Definition set_logistics (v : Logistics) (s : Game) : Game :=
  {| state := state s; events := events s; modifiers := modifiers s; logistics := v;
     autoBuildProgress := autoBuildProgress s; ps_researchQueue := ps_researchQueue s;
     ps_researchProgressMap := ps_researchProgressMap s;
     offlineProgress := offlineProgress s |}.

Definition set_autoBuildProgress (v : Q) (s : Game) : Game :=
  {| state := state s; events := events s; modifiers := modifiers s;
     logistics := logistics s; autoBuildProgress := v;
     ps_researchQueue := ps_researchQueue s;
     ps_researchProgressMap := ps_researchProgressMap s;
     offlineProgress := offlineProgress s |}.

Definition set_ps_researchQueue (v : list string) (s : Game) : Game :=
  {| state := state s; events := events s; modifiers := modifiers s;
     logistics := logistics s; autoBuildProgress := autoBuildProgress s;
     ps_researchQueue := v; ps_researchProgressMap := ps_researchProgressMap s;
     offlineProgress := offlineProgress s |}.

Definition set_ps_researchProgressMap (v : Obj Q) (s : Game) : Game :=
  {| state := state s; events := events s; modifiers := modifiers s;
     logistics := logistics s; autoBuildProgress := autoBuildProgress s;
     ps_researchQueue := ps_researchQueue s; ps_researchProgressMap := v;
     offlineProgress := offlineProgress s |}.

Definition set_offlineProgress (v : option OfflineReport) (s : Game) : Game :=
  {| state := state s; events := events s; modifiers := modifiers s;
     logistics := logistics s; autoBuildProgress := autoBuildProgress s;
     ps_researchQueue := ps_researchQueue s;
     ps_researchProgressMap := ps_researchProgressMap s; offlineProgress := v |}.

Definition upd_state (f : State -> State) (g : Game) : Game := set_state (f (state g)) g.

(** [syncStateWithQueue]'s four assignments to the state. *)
Definition set_research_mirror (q : list string) (m : Obj Q) (s : State) : State :=
  {| lastSaveAt := lastSaveAt s; resources := resources s; production := production s;
     structures := structures s; constructionQueue := constructionQueue s;
     completedResearch := completedResearch s;
     currentResearch := hd_error q;
     researchProgress := orQ (match hd_error q with Some t => get m t | None => None end) 0;
     researchQueue := q; researchProgressMap := m;
     maxResearchSlots := maxResearchSlots s; autoResearch := autoResearch s;
     currentEra := currentEra s; solarCapture := solarCapture s;
     claimedMilestones := claimedMilestones s; stats := stats s; flags := flags s |}.

(** [StateManager.completeResearch]'s assignments to the legacy fields. *)
Definition clear_currentResearch (s : State) : State :=
  {| lastSaveAt := lastSaveAt s; resources := resources s; production := production s;
     structures := structures s; constructionQueue := constructionQueue s;
     completedResearch := completedResearch s;
     currentResearch := None; researchProgress := 0;
     researchQueue := researchQueue s; researchProgressMap := researchProgressMap s;
     maxResearchSlots := maxResearchSlots s; autoResearch := autoResearch s;
     currentEra := currentEra s; solarCapture := solarCapture s;
     claimedMilestones := claimedMilestones s; stats := stats s; flags := flags s |}.

(** ** The engine

    Methods are named [<class>_<method>] with SM for StateManager, RS for
    ResourceSystem, CS for ConstructionSystem, PS for ProgressionSystem and
    IA for IdleAccumulator. *)

Section Engine.

Variable cat : Catalog.

(** *** StateManager *)

(** [emit] for the events whose subscribers are all outside the core
    (interface, scene, persistence): they read the state and do not feed
    back into it. *)
Definition SM_emit (e : Event) (g : Game) : Game := set_events (e :: events g) g.

Definition SM_getResource (type : string) (g : Game) : Q :=
  orQ (get (resources (state g)) type) 0.

Definition SM_addResource (type : string) (amount : Q) (g : Game) : Game :=
  let current := SM_getResource type g in
  let g1 := upd_state (set_resources (set type (current + amount) (resources (state g)))) g in
  SM_emit (resource_change type amount (current + amount)) g1.

Definition SM_spendResource (type : string) (amount : Q) (g : Game) : bool * Game :=
  let current := SM_getResource type g in
  if ltb current amount then (false, g)
  else
    let g1 := upd_state (set_resources (set type (current - amount) (resources (state g)))) g in
    (true, SM_emit (resource_change type (- amount) (current - amount)) g1).

Fixpoint SM_canAfford (costs : Obj Q) (g : Game) : bool :=
  match costs with
  | [] => true
  | (type, amount) :: rest =>
      if ltb (SM_getResource type g) amount then false else SM_canAfford rest g
  end.

Definition SM_getStructureCount (id : string) (g : Game) : Z :=
  orZ (get (structures (state g)) id) 0.

Definition SM_getTotalStructures (g : Game) : Z :=
  fold_left Z.add (values (structures (state g))) 0%Z.

Definition SM_isResearched (techId : string) (g : Game) : bool :=
  includes (completedResearch (state g)) techId.

Definition SM_canResearch (techId : string) (g : Game) : bool :=
  match tech_of cat techId with
  | None => false
  | Some tech =>
      if SM_isResearched techId g then false
      else forallb (fun prereq => SM_isResearched prereq g) (t_prerequisites tech)
  end.

Definition SM_setEra (n : Z) (g : Game) : Game :=
  let oldEra := currentEra (state g) in
  if (n >? oldEra)%Z
  then SM_emit (era_change oldEra n) (upd_state (set_currentEra n) g)
  else g.

Definition SM_claimMilestone (milestoneId : string) (g : Game) : bool * Game :=
  if includes (claimedMilestones (state g)) milestoneId then (false, g)
  else
    let g1 := upd_state (set_claimedMilestones (claimedMilestones (state g) ++ [milestoneId])) g in
    (true, SM_emit (milestone_claimed milestoneId) g1).

Definition SM_isMilestoneClaimed (milestoneId : string) (g : Game) : bool :=
  includes (claimedMilestones (state g)) milestoneId.

Definition SM_getQueue (g : Game) : list QueueItem := constructionQueue (state g).

Definition SM_addToQueue (item : QueueItem) (g : Game) : Game :=
  SM_emit (queue_add item) (upd_state (set_constructionQueue (SM_getQueue g ++ [item])) g).

Definition SM_removeFromQueue (index : nat) (g : Game) : Game :=
  let g1 := upd_state (set_constructionQueue (splice1 index (SM_getQueue g))) g in
  match nth_error (SM_getQueue g) index with
  | Some removed => SM_emit (queue_remove removed (Z.of_nat index)) g1
  | None => g1
  end.

(** [set('flags.sandboxMode', true)] and [set('flags.victoryAchieved', true)]. *)
Definition SM_set_flag (path : string) (f : Flags -> Flags) (g : Game) : Game :=
  SM_emit (state_path path) (SM_emit (state_change path) (upd_state (fun s => set_flags (f (flags s)) s) g)).

Definition SM_set_sandboxMode : Game -> Game :=
  SM_set_flag "flags.sandboxMode"
    (fun f => {| victoryAchieved := victoryAchieved f; sandboxMode := true |}).

Definition SM_set_victoryAchieved : Game -> Game :=
  SM_set_flag "flags.victoryAchieved"
    (fun f => {| victoryAchieved := true; sandboxMode := sandboxMode f |}).

(** *** data/milestones.js *)

Definition checkMilestoneCondition (milestone : Milestone) (s : State) : bool :=
  match m_condition milestone with
  | structure_count id n => (orZ (get (structures s) id) 0 >=? n)%Z
  | total_structures n => (fold_left Z.add (values (structures s)) 0 >=? n)%Z
  | solar_capture percent => geb (solarCapture s) percent
  | research_count n => (Z.of_nat (List.length (completedResearch s)) >=? n)%Z
  | all_research =>
      (Z.of_nat (List.length (completedResearch s)) >=? Z.of_nat (List.length (TECH_TREE cat)))%Z
  | era n => (currentEra s >=? n)%Z
  | unknown_condition => false
  end.

Definition getNewlyAchievedMilestones (s : State) (claimed : list string) : list Milestone :=
  filter (fun milestone =>
            if includes claimed (m_id milestone) then false
            else checkMilestoneCondition milestone s)
         (MILESTONES cat).

(** *** ProgressionSystem: milestones and victory *)

Definition PS_triggerVictory (g : Game) : Game :=
  SM_emit game_victory (SM_set_victoryAchieved g).

Definition grant_reward (g : Game) (entry : string * Q) : Game :=
  let (resource, amount) := entry in
  if String.eqb resource "sandbox_mode" then SM_set_sandboxMode g
  else SM_addResource resource amount g.

Definition PS_claimMilestone (milestone : Milestone) (g : Game) : Game :=
  let (claimed, g1) := SM_claimMilestone (m_id milestone) g in
  if negb claimed then g1
  else
    let g2 := match m_reward milestone with
              | Some reward => fold_left grant_reward reward g1
              | None => g1
              end in
    let g3 := SM_emit (notification (MilestoneAchieved (m_id milestone))) g2 in
    if m_isVictory milestone then PS_triggerVictory g3 else g3.

Definition PS_checkMilestones (g : Game) : Game :=
  let newMilestones :=
    getNewlyAchievedMilestones (state g) (claimedMilestones (state g)) in
  fold_left (fun g milestone => PS_claimMilestone milestone g) newMilestones g.

(** [solar:capture] has one core subscriber: [checkMilestones]
    (ProgressionSystem.init). *)
Definition emit_solar_capture (percent : Q) (g : Game) : Game :=
  PS_checkMilestones (SM_emit (solar_capture_event percent) g).

Definition SM_setSolarCapture (percent : Q) (g : Game) : Game :=
  let oldCapture := solarCapture (state g) in
  let newCapture := JS.min 1 (JS.max 0 percent) in
  let g1 := upd_state (set_solarCapture newCapture) g in
  if negb (Qeq_bool newCapture oldCapture) then emit_solar_capture newCapture g1 else g1.

(** *** ResourceSystem *)

Record TechModifiers := {
  tm_energy : Q; tm_materials : Q; tm_research : Q;
  tm_buildSpeed : Q; tm_dysonEfficiency : Q
}.

(** [if (x) m *= x]. *)
Definition times_if (m x : Q) : Q := if truthy x then m * x else m.

Definition apply_effects (m : TechModifiers) (techId : string) : TechModifiers :=
  match tech_of cat techId with
  | Some {| t_effects := Some e |} =>
      let energy1 := times_if (times_if (times_if (tm_energy m) (energyGeneration e))
                                        (energyProduction e)) (solarEfficiency e) in
      let materials1 := times_if (tm_materials m) (materialProduction e) in
      let research1 := times_if (tm_research m) (researchEfficiency e) in
      {| tm_energy := times_if energy1 (productionMultiplier e);
         tm_materials := times_if materials1 (productionMultiplier e);
         tm_research := times_if research1 (productionMultiplier e);
         tm_buildSpeed := times_if (times_if (tm_buildSpeed m) (buildSpeed e))
                                   (constructionEfficiency e);
         tm_dysonEfficiency := times_if (tm_dysonEfficiency m) (dysonEfficiency e) |}
  | _ => m
  end.

Definition RS_getTechModifiers (completed : list string) : TechModifiers :=
  fold_left apply_effects completed
    {| tm_energy := 1; tm_materials := 1; tm_research := 1;
       tm_buildSpeed := 1; tm_dysonEfficiency := 1 |}.

(** The running totals of [recalculateProduction]'s loop. *)
Record Totals := {
  tot_energy : Q; tot_materials : Q; tot_research : Q;
  tot_buildSpeedBonus : Q; tot_solarCapture : Q; tot_energyFromDyson : Q;
  tot_logistics : Logistics
}.

Definition totals0 : Totals :=
  {| tot_energy := energy CONFIG.BASE_PRODUCTION;
     tot_materials := materials CONFIG.BASE_PRODUCTION;
     tot_research := research CONFIG.BASE_PRODUCTION;
     tot_buildSpeedBonus := 0; tot_solarCapture := 0; tot_energyFromDyson := 0;
     tot_logistics :=
       {| launchCapacity := 0; cargoCapacity := 0; population := 0;
          autoConstruction := 0; energyEfficiency := 0; dysonBonus := 1;
          exoticMaterials := 0; antimatter := 0; energyStorage := 0;
          solarMatter := 0; computation := 0 |} |}.

(** [if (x) total += x * count]. *)
Definition plus_if (total x : Q) (count : Z) : Q :=
  if truthy x then total + x * inject_Z count else total.

Definition add_structure_production (t : Totals) (entry : string * Z) : Totals :=
  let (id, count) := entry in
  if (count <=? 0)%Z then t
  else
    match structure_of cat id with
    | Some {| s_production := Some prod |} =>
        let l := tot_logistics t in
        let dyson := truthy (pd_energy prod) && truthy (pd_solarCapture prod) in
        {| tot_energy :=
             if dyson then tot_energy t else plus_if (tot_energy t) (pd_energy prod) count;
           tot_materials := plus_if (tot_materials t) (pd_materials prod) count;
           tot_research := plus_if (tot_research t) (pd_research prod) count;
           tot_buildSpeedBonus :=
             plus_if (tot_buildSpeedBonus t) (pd_buildSpeedBonus prod) count;
           tot_solarCapture := plus_if (tot_solarCapture t) (pd_solarCapture prod) count;
           tot_energyFromDyson :=
             if dyson then tot_energyFromDyson t + pd_energy prod * inject_Z count
             else tot_energyFromDyson t;
           tot_logistics :=
             {| launchCapacity := plus_if (launchCapacity l) (pd_launchCapacity prod) count;
                cargoCapacity := plus_if (cargoCapacity l) (pd_cargoCapacity prod) count;
                population := plus_if (population l) (pd_population prod) count;
                autoConstruction :=
                  plus_if (autoConstruction l) (pd_autoConstruction prod) count;
                energyEfficiency :=
                  plus_if (energyEfficiency l) (pd_energyEfficiency prod) count;
                dysonBonus :=
                  if truthy (pd_dysonBonus prod)
                  then dysonBonus l + (pd_dysonBonus prod - 1) * inject_Z count
                  else dysonBonus l;
                exoticMaterials :=
                  plus_if (exoticMaterials l) (pd_exoticMaterials prod) count;
                antimatter := plus_if (antimatter l) (pd_antimatter prod) count;
                energyStorage := plus_if (energyStorage l) (pd_energyStorage prod) count;
                solarMatter := plus_if (solarMatter l) (pd_solarMatter prod) count;
                computation := plus_if (computation l) (pd_computation prod) count |} |}
    | _ => t
    end.

Definition RS_recalculateProduction (g : Game) : Game :=
  let s := state g in
  let t := fold_left add_structure_production (structures s) totals0 in
  let l := tot_logistics t in
  let techModifiers := RS_getTechModifiers (completedResearch s) in
  let cargoMultiplier := 1 + cargoCapacity l / 1000 in
  let populationMultiplier := 1 + population l / 10000 in
  let energyEfficiencyMultiplier := 1 + energyEfficiency l in
  let exoticMaterialMultiplier := 1 + exoticMaterials l * (1 # 50) in
  let antimatterMultiplier := 1 + antimatter l * (1 # 10) in
  let storageMultiplier := 1 + energyStorage l / 100000 in
  let solarMatterMultiplier := 1 + solarMatter l * (1 # 200) in
  let computationMultiplier := 1 + computation l / 1000000 * (1 # 4) in
  let energyModifier :=
    mod_energy (modifiers g) * tm_energy techModifiers * energyEfficiencyMultiplier
    * antimatterMultiplier * storageMultiplier in
  let materialsModifier :=
    mod_materials (modifiers g) * tm_materials techModifiers * cargoMultiplier
    * exoticMaterialMultiplier * solarMatterMultiplier in
  let researchModifier :=
    mod_research (modifiers g) * tm_research techModifiers * populationMultiplier
    * computationMultiplier in
  let energyFromDyson :=
    tot_energyFromDyson t
    * (energyModifier * dysonBonus l * tm_dysonEfficiency techModifiers) in
  let solarCapture1 :=
    tot_solarCapture t * (dysonBonus l * tm_dysonEfficiency techModifiers) in
  let energy1 := tot_energy t * energyModifier + energyFromDyson in
  let materials1 := tot_materials t * materialsModifier in
  let research1 := tot_research t * researchModifier in
  let g1 :=
    set_modifiers
      {| mod_energy := mod_energy (modifiers g);
         mod_materials := mod_materials (modifiers g);
         mod_research := mod_research (modifiers g);
         mod_buildSpeed :=
           (1 + tot_buildSpeedBonus t + launchCapacity l * (1 # 50))
           * tm_buildSpeed techModifiers |} g in
  let g2 :=
    upd_state (set_production
                 {| energy := energy1; materials := materials1; research := research1 |})
              g1 in
  let g3 := SM_setSolarCapture solarCapture1 g2 in
  let g4 := set_logistics l g3 in
  SM_emit (production_update energy1 materials1 research1 solarCapture1) g4.

Definition add_generated (f : Stats -> Stats) (g : Game) : Game :=
  upd_state (fun s => set_stats (f (stats s)) s) g.

Definition RS_update (deltaTime : Q) (g : Game) : Game :=
  let p := production (state g) in
  let g1 :=
    if gtb (energy p) 0 then
      add_generated
        (fun st =>
           {| totalEnergyGenerated := totalEnergyGenerated st + energy p * deltaTime;
              totalMaterialsMined := totalMaterialsMined st;
              totalResearchCompleted := totalResearchCompleted st;
              totalStructuresBuilt := totalStructuresBuilt st;
              dysonSatellites := dysonSatellites st |})
        (SM_addResource "energy" (energy p * deltaTime) g)
    else g in
  let g2 :=
    if gtb (materials p) 0 then
      add_generated
        (fun st =>
           {| totalEnergyGenerated := totalEnergyGenerated st;
              totalMaterialsMined := totalMaterialsMined st + materials p * deltaTime;
              totalResearchCompleted := totalResearchCompleted st;
              totalStructuresBuilt := totalStructuresBuilt st;
              dysonSatellites := dysonSatellites st |})
        (SM_addResource "materials" (materials p * deltaTime) g1)
    else g1 in
  if gtb (research p) 0
  then SM_addResource "research" (research p * deltaTime) g2
  else g2.

Definition RS_canAfford (costs : Obj Q) (g : Game) : bool := SM_canAfford costs g.

Fixpoint RS_spend (costs : Obj Q) (g : Game) : bool * Game :=
  match costs with
  | [] => (true, g)
  | (type, amount) :: rest =>
      let (ok, g1) := SM_spendResource type amount g in
      if negb ok then (false, g1) else RS_spend rest g1
  end.

Definition RS_add (type : string) (amount : Q) (g : Game) : Game :=
  SM_addResource type amount g.

Definition RS_getBuildSpeed (g : Game) : Q := mod_buildSpeed (modifiers g).
Definition RS_getAutoConstructionRate (g : Game) : Q := autoConstruction (logistics g).

Definition RS_setModifier (f : Modifiers -> Modifiers) (g : Game) : Game :=
  RS_recalculateProduction (set_modifiers (f (modifiers g)) g).

(** *** ProgressionSystem: research *)

Definition PS_syncStateWithQueue (g : Game) : Game :=
  upd_state (set_research_mirror (ps_researchQueue g) (ps_researchProgressMap g)) g.

(** data/techTree.js *)
Definition getAvailableTechs (researchedTechs : list string) : list Tech :=
  filter (fun tech =>
            if includes researchedTechs (t_id tech) then false
            else if t_unlocked tech then true
            else forallb (includes researchedTechs) (t_prerequisites tech))
         (TECH_TREE cat).

Definition PS_getAvailableTechs (g : Game) : list Tech :=
  getAvailableTechs (completedResearch (state g)).

Definition PS_startResearch (techId : string) (g : Game) : bool * Game :=
  match tech_of cat techId with
  | None => (false, g)
  | Some tech =>
      if SM_isResearched techId g then (false, g)
      else if includes (ps_researchQueue g) techId then (false, g)
      else if negb (SM_canResearch techId g) then (false, g)
      else
        let maxSlots := orZ (Some (maxResearchSlots (state g))) 1 in
        if (Z.of_nat (List.length (ps_researchQueue g)) >=? maxSlots)%Z
        then (false, SM_emit (notification (ResearchQueueFull maxSlots)) g)
        else
          let g1 := set_ps_researchQueue (ps_researchQueue g ++ [techId]) g in
          let g2 := set_ps_researchProgressMap (set techId 0 (ps_researchProgressMap g1)) g1 in
          (true, SM_emit (research_start techId) (PS_syncStateWithQueue g2))
  end.

Definition PS_tryAutoResearch (g : Game) : Game :=
  if negb (autoResearch (state g)) then g
  else
    let maxSlots := orZ (Some (maxResearchSlots (state g))) 1 in
    if (Z.of_nat (List.length (ps_researchQueue g)) >=? maxSlots)%Z then g
    else
      let availableTechs :=
        filter (fun tech => negb (includes (ps_researchQueue g) (t_id tech)))
               (PS_getAvailableTechs g) in
      match availableTechs with
      | [] => g
      | nextTech :: _ => snd (PS_startResearch (t_id nextTech) g)
      end.

Definition PS_setAutoResearch (enabled : bool) (g : Game) : Game :=
  let g1 := SM_emit (setting_change "autoResearch") (upd_state (set_autoResearch enabled) g) in
  if enabled then PS_tryAutoResearch g1 else g1.

Definition PS_addResearchSlot (g : Game) : Game :=
  let slots := (orZ (Some (maxResearchSlots (state g))) 1 + 1)%Z in
  SM_emit (notification (ResearchCapacityIncreased slots))
          (upd_state (set_maxResearchSlots slots) g).

Definition PS_cancelResearch (techId : string) (g : Game) : bool * Game :=
  if negb (includes (ps_researchQueue g) techId) then (false, g)
  else
    let g1 := set_ps_researchQueue (remove_first techId (ps_researchQueue g)) g in
    let g2 := set_ps_researchProgressMap (delete techId (ps_researchProgressMap g1)) g1 in
    (true, SM_emit (research_cancel techId) (PS_syncStateWithQueue g2)).

(** [research:complete] is delivered, in subscription order, to
    [ResourceSystem.recalculateProduction] (ResourceSystem.init) and then to
    ProgressionSystem.init's callback, which runs [checkMilestones] and
    [tryAutoResearch].  [before_autoResearch] is the state in which that
    callback reaches [tryAutoResearch]. *)
Definition before_autoResearch (techId : string) (g : Game) : Game :=
  PS_checkMilestones (RS_recalculateProduction (SM_emit (research_complete techId) g)).

Definition emit_research_complete (techId : string) (g : Game) : Game :=
  PS_tryAutoResearch (before_autoResearch techId g).

(** The assignments of [StateManager.completeResearch]. *)
Definition mark_completed (techId : string) (g : Game) : Game :=
  let g1 := upd_state (set_completedResearch (completedResearch (state g) ++ [techId])) g in
  let g2 := upd_state clear_currentResearch g1 in
  upd_state (fun s =>
    set_stats
      {| totalEnergyGenerated := totalEnergyGenerated (stats s);
         totalMaterialsMined := totalMaterialsMined (stats s);
         totalResearchCompleted := (totalResearchCompleted (stats s) + 1)%Z;
         totalStructuresBuilt := totalStructuresBuilt (stats s);
         dysonSatellites := dysonSatellites (stats s) |} s) g2.

Definition SM_completeResearch (techId : string) (g : Game) : Game :=
  if includes (completedResearch (state g)) techId then g
  else emit_research_complete techId (mark_completed techId g).

(** [u.startsWith('research_')]. *)
Definition is_internal_unlock (u : string) : bool := String.prefix "research_" u.

Definition unlock_notice (tech : Tech) (g : Game) : Game :=
  match t_unlocks tech with
  | [] => g
  | _ =>
      match filter (fun u => negb (is_internal_unlock u)) (t_unlocks tech) with
      | [] => SM_emit (notification (TechCompleteDescription (t_id tech))) g
      | displayUnlocks =>
          SM_emit (notification (TechCompleteUnlocked (t_id tech) displayUnlocks)) g
      end
  end.

(** [completeResearch] up to its call of [StateManager.completeResearch]:
    the entry leaves the queue and the progress map. *)
Definition leave_queue (techId : string) (g : Game) : Game :=
  let g1 := set_ps_researchQueue (remove_first techId (ps_researchQueue g)) g in
  set_ps_researchProgressMap (delete techId (ps_researchProgressMap g1)) g1.

(** The first half of [completeResearch]: the queue entry is dropped and the
    completion is recorded, which delivers [research:complete]. *)
Definition PS_completeResearch_record (techId : string) (g : Game) : Game :=
  PS_syncStateWithQueue (SM_completeResearch techId (leave_queue techId g)).

(** [for (i = 0; i < tech.effects.researchSlots; i++) addResearchSlot()]. *)
Definition PS_grantResearchSlots (tech : Tech) (g : Game) : Game :=
  match t_effects tech with
  | Some e => Nat.iter (researchSlots e) PS_addResearchSlot g
  | None => g
  end.

Definition PS_completeResearch (techId : string) (g : Game) : Game :=
  match tech_of cat techId with
  | None => g
  | Some tech =>
      unlock_notice tech (PS_grantResearchSlots tech (PS_completeResearch_record techId g))
  end.

(** The first loop of [progressAllResearch]: every queued technology gains
    [perItemRate * deltaTime]; the finished ones are collected in order. *)
Fixpoint accrue_progress (queue : list string) (perItemRate deltaTime : Q)
         (completed : list string) (g : Game) : list string * Game :=
  match queue with
  | [] => (completed, g)
  | techId :: rest =>
      match tech_of cat techId with
      | None => accrue_progress rest perItemRate deltaTime completed g
      | Some tech =>
          let p := orQ (get (ps_researchProgressMap g) techId) 0 + perItemRate * deltaTime in
          let g1 := set_ps_researchProgressMap (set techId p (ps_researchProgressMap g)) g in
          if geb p (t_cost tech)
          then accrue_progress rest perItemRate deltaTime (completed ++ [techId]) g1
          else accrue_progress rest perItemRate deltaTime completed
                               (SM_emit (research_progress techId p (t_cost tech)) g1)
      end
  end.

Definition perItemRate (g : Game) : Q :=
  research (production (state g)) / inject_Z (Z.of_nat (List.length (ps_researchQueue g))).

Definition PS_progressAllResearch (deltaTime : Q) (g : Game) : Game :=
  match ps_researchQueue g with
  | [] => g
  | _ =>
      if leb (research (production (state g))) 0 then g
      else
        let (completed, g1) :=
          accrue_progress (ps_researchQueue g) (perItemRate g) deltaTime [] g in
        PS_syncStateWithQueue
          (fold_left (fun g techId => PS_completeResearch techId g) completed g1)
  end.

(** *** ProgressionSystem: eras *)

Definition PS_advanceToEra (n : Z) (g : Game) : Game :=
  match get_era n with
  | None => g
  | Some _ => SM_emit (notification (EraReached n)) (SM_setEra n g)
  end.

Definition PS_checkEraProgression (g : Game) : Game :=
  let currentEra0 := currentEra (state g) in
  let solarCapture0 := solarCapture (state g) in
  fold_left (fun g (entry : Z * Q) =>
               let (eraNum, threshold) := entry in
               if (eraNum >? currentEra0)%Z && geb solarCapture0 threshold
               then PS_advanceToEra eraNum g else g)
            CONFIG.ERAS g.

Definition PS_update (deltaTime : Q) (g : Game) : Game :=
  let g1 := match ps_researchQueue g with
            | [] => g
            | _ => PS_progressAllResearch deltaTime g
            end in
  PS_tryAutoResearch (PS_checkEraProgression g1).

(** *** ConstructionSystem *)

(** [structure:built] is delivered, in subscription order, to
    [ResourceSystem.recalculateProduction] and to
    [ProgressionSystem.checkMilestones]. *)
Definition emit_structure_built (id : string) (count total : Z) (g : Game) : Game :=
  PS_checkMilestones (RS_recalculateProduction (SM_emit (structure_built id count total) g)).

Definition SM_addStructure (id : string) (count : Z) (g : Game) : Game :=
  let total := (SM_getStructureCount id g + count)%Z in
  let g1 := upd_state (set_structures (set id total (structures (state g)))) g in
  let g2 :=
    upd_state (fun s =>
      set_stats
        {| totalEnergyGenerated := totalEnergyGenerated (stats s);
           totalMaterialsMined := totalMaterialsMined (stats s);
           totalResearchCompleted := totalResearchCompleted (stats s);
           totalStructuresBuilt := (totalStructuresBuilt (stats s) + count)%Z;
           dysonSatellites :=
             if String.eqb id "dyson_satellite" then total else dysonSatellites (stats s) |}
        s) g1 in
  emit_structure_built id count total g2.

Inductive Reason :=
| unknown_structure | tech_not_unlocked | limit_reached | cannot_afford | queue_full.

(** The result object of [build]: [{success: true, item}] or
    [{success: false, reason}]. *)
Inductive BuildResult :=
| Success (item : QueueItem)
| Failure (reason : Reason).

Definition success (r : BuildResult) : bool :=
  match r with Success _ => true | Failure _ => false end.

Definition CS_baseQueueSize : Z := 10.

Definition CS_getMaxQueueSize (g : Game) : Z :=
  (CS_baseQueueSize + Qfloor (orQ (Some (launchCapacity (logistics g))) 0))%Z.

Definition CS_getQueuedCount (id : string) (g : Game) : Z :=
  Z.of_nat (List.length (filter (fun item => String.eqb (structureId item) id) (SM_getQueue g))).

Definition CS_isTechUnlocked (techId : string) (g : Game) : bool := SM_isResearched techId g.

Definition CS_build (id : string) (placementOption : option string) (g : Game)
  : BuildResult * Game :=
  match structure_of cat id with
  | None => (Failure unknown_structure, g)
  | Some structure =>
      if negb (CS_isTechUnlocked (s_requiresTech structure) g)
      then (Failure tech_not_unlocked, g)
      else if match s_limit structure with
              | Some limit => (SM_getStructureCount id g + CS_getQueuedCount id g >=? limit)%Z
              | None => false
              end
      then (Failure limit_reached, g)
      else if negb (RS_canAfford (s_cost structure) g)
      then (Failure cannot_afford, g)
      else if (Z.of_nat (List.length (SM_getQueue g)) >=? CS_getMaxQueueSize g)%Z
      then (Failure queue_full, g)
      else
        let g1 := snd (RS_spend (s_cost structure) g) in
        let queueItem :=
          {| structureId := id;
             buildTime := s_buildTime structure;
             progress := 0;
             placement := match placementOption with
                          | Some p => if String.eqb p "" then s_placement structure else p
                          | None => s_placement structure
                          end |} in
        (Success queueItem, SM_emit (construction_start queueItem) (SM_addToQueue queueItem g1))
  end.

Definition CS_completeConstruction (item : QueueItem) (g : Game) : Game :=
  let g1 := SM_removeFromQueue 0 g in
  let g2 := SM_addStructure (structureId item) 1 g1 in
  SM_emit (notification (ConstructionComplete (structureId item)))
          (SM_emit (construction_complete item) g2).

(** The [while] loop of [applyAutoConstruction].  Each round takes the head
    of the queue off, so the length of the queue on entry bounds the number
    of rounds; [bound] is instantiated with it. *)
Fixpoint auto_complete (bound : nat) (g : Game) : Game :=
  match bound with
  | O => g
  | S n =>
      match SM_getQueue g with
      | item :: _ =>
          if geb (autoBuildProgress g) 1
          then
            let g1 := CS_completeConstruction item g in
            auto_complete n (set_autoBuildProgress (autoBuildProgress g1 - 1) g1)
          else g
      | [] => g
      end
  end.

Definition CS_applyAutoConstruction (deltaTime : Q) (g : Game) : Game :=
  match SM_getQueue g with
  | [] => g
  | _ =>
      let autoConstructionRate := orQ (Some (RS_getAutoConstructionRate g)) 0 in
      if leb autoConstructionRate 0 then g
      else
        let g1 :=
          set_autoBuildProgress
            (autoBuildProgress g + autoConstructionRate / 60 * deltaTime) g in
        auto_complete (List.length (SM_getQueue g1)) g1
  end.

Definition CS_update (deltaTime : Q) (g : Game) : Game :=
  match SM_getQueue g with
  | [] => CS_applyAutoConstruction deltaTime g
  | item :: rest =>
      let item1 :=
        {| structureId := structureId item;
           buildTime := buildTime item;
           progress := progress item + deltaTime * RS_getBuildSpeed g;
           placement := placement item |} in
      let g1 := upd_state (set_constructionQueue (item1 :: rest)) g in
      let g2 := SM_emit (construction_progress item1) g1 in
      let g3 := if geb (progress item1) (buildTime item1)
                then CS_completeConstruction item1 g2 else g2 in
      CS_applyAutoConstruction deltaTime g3
  end.

(** [cancel]'s refund loop. *)
Definition refund (refundMultiplier : Q) (g : Game) (entry : string * Q) : Game :=
  let (resource, amount) := entry in
  RS_add resource (JS.floor (amount * refundMultiplier)) g.

(** Queue items are created by [build] from catalog entries; for an item
    outside the catalog the source raises a TypeError, rendered here as a
    rejected call. *)
Definition CS_cancel (index : Z) (g : Game) : bool * Game :=
  let queue := SM_getQueue g in
  if (index <? 0)%Z || (index >=? Z.of_nat (List.length queue))%Z then (false, g)
  else
    match nth_error queue (Z.to_nat index) with
    | None => (false, g)
    | Some item =>
        match structure_of cat (structureId item) with
        | None => (false, g)
        | Some structure =>
            let refundMultiplier := if gtb (progress item) 0 then 1 # 2 else 1 in
            let g1 := fold_left (refund refundMultiplier) (s_cost structure) g in
            let g2 := SM_removeFromQueue (Z.to_nat index) g1 in
            (true, SM_emit (construction_cancel item index) g2)
        end
    end.

Fixpoint CS_bulkBuild (id : string) (count : nat) (g : Game) : list BuildResult * Game :=
  match count with
  | O => ([], g)
  | S n =>
      let (result, g1) := CS_build id None g in
      if success result
      then let (results, g2) := CS_bulkBuild id n g1 in (result :: results, g2)
      else ([result], g1)
  end.

(** *** IdleAccumulator *)

Definition maxOfflineMs : Z := (CONFIG.MAX_OFFLINE_HOURS * 60 * 60 * 1000)%Z.

Definition apply_gain (g : Game) (entry : string * Q) : Game :=
  let (resource, amount) := entry in
  if gtb amount 0 then SM_addResource resource amount g else g.

(** [now] is the value of [Date.now()]. *)
Definition IA_calculateOfflineProgress (now : Z) (g : Game) : option OfflineReport * Game :=
  match lastSaveAt (state g) with
  | None | Some 0%Z => (None, set_offlineProgress None g)
  | Some saved =>
      let offlineMs := (now - saved)%Z in
      if (offlineMs <? 60000)%Z then (None, set_offlineProgress None g)
      else
        let offlineMs1 := Z.min offlineMs maxOfflineMs in
        let offlineSeconds1 := inject_Z offlineMs1 / 1000 in
        let effectiveSeconds1 := offlineSeconds1 * CONFIG.OFFLINE_EFFICIENCY in
        let p := production (state g) in
        let gains1 :=
          [("energy", JS.floor (energy p * effectiveSeconds1));
           ("materials", JS.floor (materials p * effectiveSeconds1));
           ("research", JS.floor (research p * effectiveSeconds1))] in
        let g1 := fold_left apply_gain gains1 g in
        let report :=
          {| offlineSeconds := offlineSeconds1;
             effectiveSeconds := effectiveSeconds1;
             gains := gains1;
             wasMaxed := (offlineMs1 >=? maxOfflineMs)%Z |} in
        (Some report, SM_emit (offline_progress report) (set_offlineProgress (Some report) g1))
  end.

(** *** TimeManager

    [TimeManager.init] runs its own offline calculation when the saved state
    is loaded, before the game systems start. *)

Definition TM_calculateOfflineProgress (now : Z) (g : Game) : Game :=
  match lastSaveAt (state g) with
  | None | Some 0%Z => g
  | Some saved =>
      let maxOfflineSeconds := inject_Z (CONFIG.MAX_OFFLINE_HOURS * 60 * 60) in
      let offlineSeconds1 := JS.min (inject_Z (now - saved) / 1000) maxOfflineSeconds in
      if ltb offlineSeconds1 60 then g
      else
        let effectiveSeconds1 := offlineSeconds1 * CONFIG.OFFLINE_EFFICIENCY in
        let p := production (state g) in
        let gains1 :=
          [("energy", energy p * effectiveSeconds1);
           ("materials", materials p * effectiveSeconds1);
           ("research", research p * effectiveSeconds1)] in
        SM_emit (offline_progress_plain offlineSeconds1 effectiveSeconds1 gains1)
                (fold_left apply_gain gains1 g)
  end.

(** *** One simulation step (Game.update in main.js) and the inbound commands *)

Definition tick (deltaTime : Q) (g : Game) : Game :=
  PS_update deltaTime (CS_update deltaTime (RS_update deltaTime g)).

Inductive Command :=
| requestBuild (structureId : string) (placementOption : option string)
| bulkBuild (structureId : string) (count : nat)
| cancelBuild (index : Z)
| startResearch (techId : string)
| cancelResearch (techId : string)
| setAutoResearch (enabled : bool)
| advance (deltaTime : Q)
| applyOfflineReconciliation (now : Z).

Definition exec (g : Game) (c : Command) : Game :=
  match c with
  | requestBuild id p => snd (CS_build id p g)
  | bulkBuild id n => snd (CS_bulkBuild id n g)
  | cancelBuild i => snd (CS_cancel i g)
  | startResearch t => snd (PS_startResearch t g)
  | cancelResearch t => snd (PS_cancelResearch t g)
  | setAutoResearch b => PS_setAutoResearch b g
  | advance dt => tick dt g
  | applyOfflineReconciliation now => snd (IA_calculateOfflineProgress now g)
  end.

Definition run (cs : list Command) (g : Game) : Game := fold_left exec cs g.

End Engine.

(** ** The catalogs of the game *)

(** Builders from the object literals of the data files.  A field that is
    missing reads as [0]. *)
Definition field (o : Obj Q) (k : string) : Q :=
  match get o k with Some v => v | None => 0 end.

Definition productionDef (o : Obj Q) : option ProductionDef :=
  Some {| pd_energy := field o "energy"; pd_materials := field o "materials";
          pd_research := field o "research";
          pd_buildSpeedBonus := field o "buildSpeedBonus";
          pd_solarCapture := field o "solarCapture";
          pd_launchCapacity := field o "launchCapacity";
          pd_cargoCapacity := field o "cargoCapacity";
          pd_population := field o "population";
          pd_autoConstruction := field o "autoConstruction";
          pd_energyEfficiency := field o "energyEfficiency";
          pd_dysonBonus := field o "dysonBonus";
          pd_exoticMaterials := field o "exoticMaterials";
          pd_antimatter := field o "antimatter";
          pd_energyStorage := field o "energyStorage";
          pd_solarMatter := field o "solarMatter";
          pd_computation := field o "computation" |}.

Definition structure (id : string) (cost : Obj Q) (time : Q) (prod : option ProductionDef)
           (limit : option Z) (requiresTech place : string) : Structure :=
  {| s_id := id; s_cost := cost; s_buildTime := time; s_production := prod;
     s_limit := limit; s_requiresTech := requiresTech; s_placement := place |}.

Definition effects (slots : nat) (o : Obj Q) : option Effects :=
  Some {| energyGeneration := field o "energyGeneration";
          energyProduction := field o "energyProduction";
          solarEfficiency := field o "solarEfficiency";
          materialProduction := field o "materialProduction";
          researchEfficiency := field o "researchEfficiency";
          productionMultiplier := field o "productionMultiplier";
          buildSpeed := field o "buildSpeed";
          constructionEfficiency := field o "constructionEfficiency";
          dysonEfficiency := field o "dysonEfficiency";
          researchSlots := slots |}.

Definition tech (id : string) (n : Z) (cost : Q) (unlocked : bool)
           (unlocks prerequisites : list string) (e : option Effects) : Tech :=
  {| t_id := id; t_era := n; t_cost := cost; t_unlocked := unlocked;
     t_unlocks := unlocks; t_prerequisites := prerequisites; t_effects := e |}.

Definition milestone (id : string) (c : Condition) (reward : Obj Q) (victory : bool)
  : Milestone :=
  {| m_id := id; m_condition := c; m_reward := Some reward; m_isVictory := victory |}.

Definition STRUCTURES_data : list Structure :=
  [ 
structure "launch_pad" [("energy", 50); ("materials", 100)] 10
      (productionDef [("launchCapacity", 1)])
      (Some 5%Z) "basic_rocketry" "earth";
    structure "solar_collector" [("energy", 20); ("materials", 50)] 5
      (productionDef [("energy", 5)])
      None "solar_panels" "orbit";
    structure "space_station" [("energy", 100); ("materials", 200)] 30
      (productionDef [("research", 1)])
      (Some 3%Z) "orbital_mechanics" "orbit";
    structure "mining_outpost" [("energy", 80); ("materials", 150)] 20
      (productionDef [("materials", 3)])
      (Some 10%Z) "material_science" "surface";
    structure "habitat_module" [("energy", 60); ("materials", 120)] 15
      (productionDef [("population", 10)])
      (Some 20%Z) "life_support" "orbit";
    structure "cargo_ship" [("energy", 200); ("materials", 300)] 25
      (productionDef [("cargoCapacity", 100)])
      (Some 20%Z) "ion_propulsion" "fleet";
    structure "asteroid_miner" [("energy", 300); ("materials", 400)] 35
      (productionDef [("materials", 15)])
      (Some 50%Z) "asteroid_mining" "asteroid_belt";
    structure "oneill_cylinder" [("energy", 1000); ("materials", 2000)] 120
      (productionDef [("population", 1000); ("research", 2)])
      (Some 10%Z) "rotating_habitats" "orbit";
    structure "construction_hub" [("energy", 500); ("materials", 800)] 60
      (productionDef [("buildSpeedBonus", 1 # 10)])
      (Some 5%Z) "automated_construction" "orbit";
    structure "mercury_base" [("energy", 800); ("materials", 1500)] 90
      (productionDef [("energy", 20); ("materials", 5)])
      (Some 3%Z) "mercury_operations" "mercury";
    structure "orbital_solar_array" [("energy", 2000); ("materials", 3000)] 60
      (productionDef [("energy", 100)])
      (Some 100%Z) "solar_collectors_orbital" "solar_orbit";
    structure "dyson_satellite" [("energy", 100); ("materials", 200)] 2
      (productionDef [("solarCapture", 1 # 10000); ("energy", 50)])
      None "dyson_swarm_basics" "dyson_swarm";
    structure "replicator_hub" [("energy", 5000); ("materials", 8000)] 180
      (productionDef [("materials", 50); ("autoConstruction", 1)])
      (Some 10%Z) "self_replication" "orbit";
    structure "energy_relay" [("energy", 3000); ("materials", 2000)] 45
      (productionDef [("energyEfficiency", 1 # 20)])
      (Some 20%Z) "energy_transmission" "orbit";
    structure "stellar_forge" [("energy", 10000); ("materials", 5000)] 240
      (productionDef [("materials", 100); ("exoticMaterials", 1)])
      (Some 5%Z) "mega_engineering" "solar_orbit";
    structure "dyson_hub" [("energy", 50000); ("materials", 30000)] 300
      (productionDef [("solarCapture", 1 # 100); ("energy", 5000); ("dysonBonus", 2)])
      (Some 10%Z) "dyson_swarm_advanced" "dyson_swarm";
    structure "antimatter_factory" [("energy", 100000); ("materials", 50000)] 600
      (productionDef [("antimatter", 1); ("energyStorage", 10000)])
      (Some 5%Z) "antimatter_production" "solar_orbit";
    structure "starlifter" [("energy", 200000); ("materials", 100000)] 900
      (productionDef [("materials", 1000); ("solarMatter", 10)])
      (Some 3%Z) "stellar_engineering" "solar_surface";
    structure "computation_sphere" [("energy", 500000); ("materials", 300000)] 1200
      (productionDef [("computation", 1000000); ("research", 100)])
      (Some 3%Z) "matrioshka_brain" "dyson_swarm" ].

Definition TECH_TREE_data : list Tech :=
  [ tech "basic_rocketry" 1 0 true
      ["structures:launch_pad"]
      []
      (effects 0 []);
    tech "solar_panels" 1 50 false
      ["structures:solar_collector"]
      ["basic_rocketry"]
      (effects 0 [("energyGeneration", 1)]);
    tech "orbital_mechanics" 1 75 false
      ["structures:space_station"]
      ["basic_rocketry"]
      (effects 0 []);
    tech "material_science" 1 100 false
      ["structures:mining_outpost"]
      ["basic_rocketry"]
      (effects 0 [("constructionEfficiency", 11 # 10)]);
    tech "life_support" 1 150 false
      ["structures:habitat_module"]
      ["orbital_mechanics"]
      (effects 0 []);
    tech "ion_propulsion" 2 300 false
      ["structures:cargo_ship"]
      ["solar_panels"; "orbital_mechanics"]
      (effects 0 []);
    tech "asteroid_mining" 2 400 false
      ["structures:asteroid_miner"]
      ["material_science"; "ion_propulsion"]
      (effects 0 [("materialProduction", 2)]);
    tech "rotating_habitats" 2 500 false
      ["structures:oneill_cylinder"]
      ["life_support"; "material_science"]
      (effects 0 []);
    tech "automated_construction" 2 600 false
      ["structures:construction_hub"]
      ["asteroid_mining"]
      (effects 0 [("buildSpeed", 3 # 2)]);
    tech "parallel_research" 2 450 false
      ["research_slot"]
      ["orbital_mechanics"; "material_science"]
      (effects 1 []);
    tech "mercury_operations" 2 700 false
      ["structures:mercury_base"]
      ["ion_propulsion"; "material_science"]
      (effects 0 [("solarEfficiency", 3 # 2)]);
    tech "solar_collectors_orbital" 3 1500 false
      ["structures:orbital_solar_array"]
      ["mercury_operations"; "automated_construction"]
      (effects 0 [("energyProduction", 10)]);
    tech "dyson_swarm_basics" 3 2000 false
      ["structures:dyson_satellite"]
      ["solar_collectors_orbital"]
      (effects 0 []);
    tech "self_replication" 3 3000 false
      ["structures:replicator_hub"]
      ["automated_construction"; "dyson_swarm_basics"]
      (effects 0 [("productionMultiplier", 2)]);
    tech "energy_transmission" 3 2500 false
      ["structures:energy_relay"]
      ["solar_collectors_orbital"]
      (effects 0 []);
    tech "mega_engineering" 3 4000 false
      ["structures:stellar_forge"]
      ["self_replication"; "energy_transmission"]
      (effects 0 []);
    tech "distributed_intelligence" 3 3500 false
      ["research_slot"]
      ["self_replication"]
      (effects 1 [("researchEfficiency", 5 # 4)]);
    tech "dyson_swarm_advanced" 4 10000 false
      ["structures:dyson_hub"]
      ["mega_engineering"; "dyson_swarm_basics"]
      (effects 0 [("dysonEfficiency", 2)]);
    tech "antimatter_production" 4 15000 false
      ["structures:antimatter_factory"]
      ["dyson_swarm_advanced"]
      (effects 0 []);
    tech "stellar_engineering" 4 25000 false
      ["structures:starlifter"]
      ["antimatter_production"]
      (effects 0 []);
    tech "matrioshka_brain" 4 50000 false
      ["structures:computation_sphere"]
      ["stellar_engineering"; "dyson_swarm_advanced"]
      (effects 0 []);
    tech "k2_completion" 4 100000 false
      ["sandbox_mode"]
      ["matrioshka_brain"]
      (effects 0 []) ].

Definition MILESTONES_data : list Milestone :=
  [ milestone "first_launch" (structure_count "launch_pad" 1)
      [("energy", 100); ("materials", 50)] false;
    milestone "first_solar" (structure_count "solar_collector" 1)
      [("energy", 200)] false;
    milestone "first_station" (structure_count "space_station" 1)
      [("research", 50)] false;
    milestone "first_mining" (structure_count "mining_outpost" 1)
      [("materials", 200)] false;
    milestone "first_habitat" (structure_count "habitat_module" 1)
      [("energy", 100); ("materials", 100)] false;
    milestone "capture_0001" (solar_capture (1 # 10000))
      [("research", 100)] false;
    milestone "capture_001" (solar_capture (1 # 1000))
      [("energy", 5000); ("research", 200)] false;
    milestone "capture_01" (solar_capture (1 # 100))
      [("energy", 20000); ("materials", 10000); ("research", 500)] false;
    milestone "capture_05" (solar_capture (1 # 20))
      [("energy", 100000); ("materials", 50000)] false;
    milestone "capture_10" (solar_capture (1 # 10))
      [("energy", 500000); ("materials", 200000); ("research", 2000)] false;
    milestone "capture_25" (solar_capture (1 # 4))
      [("energy", 1000000); ("materials", 500000)] false;
    milestone "capture_50" (solar_capture (1 # 2))
      [("energy", 5000000); ("materials", 2000000); ("research", 10000)] false;
    milestone "capture_75" (solar_capture (3 # 4))
      [("energy", 10000000); ("materials", 5000000)] false;
    milestone "capture_100" (solar_capture 1)
      [("sandbox_mode", 1)] true;
    milestone "structures_10" (total_structures 10)
      [("materials", 500)] false;
    milestone "structures_50" (total_structures 50)
      [("materials", 2000); ("energy", 1000)] false;
    milestone "structures_100" (total_structures 100)
      [("materials", 5000); ("energy", 3000)] false;
    milestone "structures_500" (total_structures 500)
      [("materials", 20000); ("energy", 10000)] false;
    milestone "structures_1000" (total_structures 1000)
      [("materials", 50000); ("energy", 25000); ("research", 5000)] false;
    milestone "dyson_100" (structure_count "dyson_satellite" 100)
      [("energy", 10000)] false;
    milestone "dyson_1000" (structure_count "dyson_satellite" 1000)
      [("energy", 100000); ("materials", 50000)] false;
    milestone "dyson_5000" (structure_count "dyson_satellite" 5000)
      [("energy", 500000); ("materials", 200000)] false;
    milestone "dyson_10000" (structure_count "dyson_satellite" 10000)
      [("energy", 2000000); ("materials", 1000000); ("research", 50000)] false;
    milestone "research_5" (research_count 5)
      [("research", 200)] false;
    milestone "research_10" (research_count 10)
      [("research", 500)] false;
    milestone "research_all" all_research
      [("energy", 1000000); ("materials", 500000); ("research", 100000)] false;
    milestone "era_2" (era 2)
      [("energy", 1000); ("materials", 500); ("research", 100)] false;
    milestone "era_3" (era 3)
      [("energy", 10000); ("materials", 5000); ("research", 1000)] false;
    milestone "era_4" (era 4)
      [("energy", 100000); ("materials", 50000); ("research", 10000)] false ].

Definition catalog : Catalog :=
  {| STRUCTURES := STRUCTURES_data;
     TECH_TREE := TECH_TREE_data;
     MILESTONES := MILESTONES_data |}.

(** ** Session start *)

(** [StateManager.getDefaultState]. *)
Definition getDefaultState : State :=
  {| lastSaveAt := None;
     resources := CONFIG.STARTING_RESOURCES;
     production := CONFIG.BASE_PRODUCTION;
     structures := [];
     constructionQueue := [];
     completedResearch := ["basic_rocketry"];
     currentResearch := None;
     researchProgress := 0;
     researchQueue := [];
     researchProgressMap := [];
     maxResearchSlots := 1;
     autoResearch := false;
     currentEra := 1;
     solarCapture := 0;
     claimedMilestones := [];
     stats := {| totalEnergyGenerated := 0; totalMaterialsMined := 0;
                 totalResearchCompleted := 0; totalStructuresBuilt := 0;
                 dysonSatellites := 0 |};
     flags := {| victoryAchieved := false; sandboxMode := false |} |}.

(** The singletons as their constructors leave them, around a given state. *)
Definition newGame (s : State) : Game :=
  {| state := s;
     events := [];
     modifiers := {| mod_energy := 1; mod_materials := 1; mod_research := 1;
                     mod_buildSpeed := 1 |};
     logistics := {| launchCapacity := 0; cargoCapacity := 0; population := 0;
                     autoConstruction := 0; energyEfficiency := 0; dysonBonus := 1;
                     exoticMaterials := 0; antimatter := 0; energyStorage := 0;
                     solarMatter := 0; computation := 0 |};
     autoBuildProgress := 0;
     ps_researchQueue := [];
     ps_researchProgressMap := [];
     offlineProgress := None |}.

(** [ProgressionSystem.init]: the research queue is restored from the state
    (new or legacy format) and the milestones are checked once. *)
Definition PS_init (c : Catalog) (g : Game) : Game :=
  let s := state g in
  let g1 :=
    match researchQueue s, currentResearch s with
    | _ :: _, _ =>
        set_ps_researchProgressMap (researchProgressMap s)
          (set_ps_researchQueue (researchQueue s) g)
    | [], Some t =>
        if String.eqb t "" then g
        else set_ps_researchProgressMap [(t, orQ (Some (researchProgress s)) 0)]
               (set_ps_researchQueue [t] g)
    | [], None => g
    end in
  PS_checkMilestones c g1.

(** [Game.initGameSystems]: ResourceSystem.init, ProgressionSystem.init and
    IdleAccumulator.init, in this order. *)
Definition initGameSystems (c : Catalog) (now : Z) (g : Game) : Game :=
  snd (IA_calculateOfflineProgress now (PS_init c (RS_recalculateProduction c g))).

(** [Game.init]: the saved state is loaded and TimeManager reconciles the
    time away, then the game systems start. *)
Definition startSession (c : Catalog) (now : Z) (s : State) : Game :=
  initGameSystems c now (TM_calculateOfflineProgress now (newGame s)).

(** A new game: no save, default state. *)
Definition startingGame : Game := startSession catalog 0 getDefaultState.

(** ** Notions used by the properties *)

(** What the milestone and production subscribers leave alone: everything
    but resources, production figures, solar capture, flags, the claimed
    set and the event log. *)
Record CoreFrame (g g' : Game) : Prop := {
  cf_lastSaveAt : lastSaveAt (state g') = lastSaveAt (state g);
  cf_structures : structures (state g') = structures (state g);
  cf_constructionQueue : constructionQueue (state g') = constructionQueue (state g);
  cf_completedResearch : completedResearch (state g') = completedResearch (state g);
  cf_currentResearch : currentResearch (state g') = currentResearch (state g);
  cf_researchProgress : researchProgress (state g') = researchProgress (state g);
  cf_researchQueue : researchQueue (state g') = researchQueue (state g);
  cf_researchProgressMap : researchProgressMap (state g') = researchProgressMap (state g);
  cf_maxResearchSlots : maxResearchSlots (state g') = maxResearchSlots (state g);
  cf_autoResearch : autoResearch (state g') = autoResearch (state g);
  cf_currentEra : currentEra (state g') = currentEra (state g);
  cf_stats : stats (state g') = stats (state g);
  cf_autoBuildProgress : autoBuildProgress g' = autoBuildProgress g;
  cf_ps_researchQueue : ps_researchQueue g' = ps_researchQueue g;
  cf_ps_researchProgressMap : ps_researchProgressMap g' = ps_researchProgressMap g;
  cf_offlineProgress : offlineProgress g' = offlineProgress g
}.

(** The events that record a milestone claim or a victory. *)
Definition is_claim (id : string) (e : Event) : bool :=
  match e with milestone_claimed id' => String.eqb id id' | _ => false end.

Definition is_victory (e : Event) : bool :=
  match e with game_victory => true | _ => false end.

Definition on_ledger (e : Event) : bool :=
  match e with milestone_claimed _ | game_victory => true | _ => false end.

(** The part of the event log that records claims and victories. *)
Definition ledger (g : Game) : list Event := filter on_ledger (events g).

Definition count_events (p : Event -> bool) (l : list Event) : nat :=
  List.length (filter p l).

(** How often milestone [id] was claimed, and how often victory was
    announced, according to the log. *)
Definition claims_of (id : string) (g : Game) : nat := count_events (is_claim id) (ledger g).
Definition victories (g : Game) : nat := count_events is_victory (ledger g).

Definition occurrences (id : string) (l : list string) : nat :=
  List.length (filter (String.eqb id) l).

Definition is_victory_id (c : Catalog) (id : string) : bool :=
  existsb (fun m => String.eqb id (m_id m) && m_isVictory m) (MILESTONES c).

Definition victory_ids (c : Catalog) (l : list string) : nat :=
  List.length (filter (is_victory_id c) l).

(** An operation that does not touch eras or milestones. *)
Record Quiet (g g' : Game) : Prop := {
  q_era : currentEra (state g') = currentEra (state g);
  q_claimed : claimedMilestones (state g') = claimedMilestones (state g);
  q_ledger : ledger g' = ledger g
}.

(** What every operation of the engine respects: the era does not go down,
    the claimed set only grows, and the log gains one claim event per newly
    claimed milestone and one victory event per newly claimed victory
    milestone. *)
Record Stable (c : Catalog) (g g' : Game) : Prop := {
  st_era : (currentEra (state g) <= currentEra (state g'))%Z;
  st_claimed : exists new,
      claimedMilestones (state g') = (claimedMilestones (state g) ++ new)%list;
  st_nodup : NoDup (claimedMilestones (state g)) -> NoDup (claimedMilestones (state g'));
  st_claims : forall id,
      (claims_of id g' + occurrences id (claimedMilestones (state g)) =
       claims_of id g + occurrences id (claimedMilestones (state g')))%nat;
  st_victories :
      NoDup (map m_id (MILESTONES c)) ->
      (victories g' + victory_ids c (claimedMilestones (state g)) =
       victories g + victory_ids c (claimedMilestones (state g')))%nat
}.



(** The timed part of [ConstructionSystem.update]: progress of the head
    item and its completion when due. *)
Definition advance_head (c : Catalog) (deltaTime : Q) (g : Game) : Game :=
  match SM_getQueue g with
  | [] => g
  | item :: rest =>
      let item1 :=
        {| structureId := structureId item;
           buildTime := buildTime item;
           progress := progress item + deltaTime * RS_getBuildSpeed g;
           placement := placement item |} in
      let g2 := SM_emit (construction_progress item1)
                        (upd_state (set_constructionQueue (item1 :: rest)) g) in
      if geb (progress item1) (buildTime item1)
      then CS_completeConstruction c item1 g2 else g2
  end.

(** Accumulated progress and research cost of a technology. *)
Definition progress_of (t : string) (g : Game) : Q :=
  orQ (get (ps_researchProgressMap g) t) 0.

Definition cost_of (c : Catalog) (t : string) : Q :=
  match tech_of c t with Some tech => t_cost tech | None => 0 end.


(** The research bookkeeping that only the research operations change. *)
Record ResearchFrame (g g' : Game) : Prop := {
  rf_queue : ps_researchQueue g' = ps_researchQueue g;
  rf_slots : maxResearchSlots (state g') = maxResearchSlots (state g);
  rf_completed : completedResearch (state g') = completedResearch (state g)
}.

(** The invariants of the research queue: distinct catalog technologies,
    none of them completed, no more of them than there are slots, and at
    least one slot. *)
Record WellFormed (c : Catalog) (g : Game) : Prop := {
  wf_distinct : NoDup (ps_researchQueue g);
  wf_known : forall t, In t (ps_researchQueue g) -> tech_of c t <> None;
  wf_fresh : forall t, In t (ps_researchQueue g) -> ~ In t (completedResearch (state g));
  wf_capacity :
    (Z.of_nat (List.length (ps_researchQueue g)) <= maxResearchSlots (state g))%Z;
  wf_slots : (1 <= maxResearchSlots (state g))%Z
}.

(** ** Concrete games used as examples *)

(** A fresh game around a given state, with production recomputed. *)
Definition gameFrom (s : State) : Game :=
  RS_recalculateProduction catalog (newGame s).




(** The starting game after a grant of 50 materials: a launch pad is affordable. *)
Definition funded_start : Game := SM_addResource "materials" 50 startingGame.

(** The cost bundle of scenario A (the launch pad's). *)
Definition scenario_A_cost : Obj Q := [("energy", 50); ("materials", 100)].

Fixpoint distinct (l : list string) : bool :=
  match l with
  | [] => true
  | x :: t => negb (includes t x) && distinct t
  end.



(** The era after [checkEraProgression], computed on the numbers alone:
    [current] and [capture] are read once, before the thresholds are visited. *)
Definition era_step (current : Z) (capture : Q) (e : Z) (entry : Z * Q) : Z :=
  if (fst entry >? current)%Z && geb capture (snd entry) then Z.max e (fst entry) else e.

(** An era qualifies when the solar capture has reached its threshold. *)
Definition qualifies (capture : Q) (n : Z) : Prop :=
  exists threshold, In (n, threshold) CONFIG.ERAS /\ threshold <= capture.

(** A game in era 1 whose solar capture is 5%: the thresholds of eras 2 and 3
    are both behind it. *)
Definition leap : Game := upd_state (set_solarCapture (1 # 20)) startingGame.

(** Ten thousand Dyson satellites: solar capture is complete. *)
Definition swarm : Game :=
  gameFrom (set_structures [("dyson_satellite", 10000%Z)] getDefaultState).

(** Reached by play: the prerequisites of [parallel_research] are completed,
    [parallel_research] occupies the single research slot, and auto-research
    is on. *)
Definition researching_parallel : Game :=
  run catalog
      [startResearch "orbital_mechanics"; advance 375;
       startResearch "material_science"; advance 500;
       startResearch "parallel_research"; setAutoResearch true]
      startingGame.

(** Scenario C: two technologies costing 20 and 30 research points, two
    research slots, and a research modifier that brings the base rate of 0.2
    to 10 points per second. *)
Definition lab_catalog : Catalog :=
  {| STRUCTURES := [];
     TECH_TREE := [tech "alpha" 1 20 false [] [] None; tech "beta" 1 30 false [] [] None];
     MILESTONES := [] |}.

Definition scenario_C : Game :=
  run lab_catalog [startResearch "alpha"; startResearch "beta"]
      (RS_setModifier lab_catalog
         (fun m => {| mod_energy := mod_energy m; mod_materials := mod_materials m;
                      mod_research := 50; mod_buildSpeed := mod_buildSpeed m |})
         (newGame (set_maxResearchSlots 2 getDefaultState))).

Definition seconds (n : nat) (g : Game) : Game :=
  Nat.iter n (tick lab_catalog 1) g.

From Stdlib Require Import Permutation.

(** ** Queries of the systems and helpers of the data files *)

Section Queries.

Variable cat : Catalog.

(** [production[type] || 0]: the production object has the three resource
    kinds and nothing else. *)
Definition rate_of (p : Rates) (type : string) : Q :=
  orQ (if String.eqb type "energy" then Some (energy p)
       else if String.eqb type "materials" then Some (materials p)
       else if String.eqb type "research" then Some (research p)
       else None) 0.



(** data/structures.js: [getAvailableStructures] and [canAfford]. *)
Definition getAvailableStructures (unlockedTechs : list string) : list Structure :=
  filter (fun s => includes unlockedTechs (s_requiresTech s)) (STRUCTURES cat).

Fixpoint covers (resources0 : Obj Q) (cost : Obj Q) : bool :=
  match cost with
  | [] => true
  | (resource, amount) :: rest =>
      if ltb (orQ (get resources0 resource) 0) amount then false
      else covers resources0 rest
  end.

Definition checkCanAfford (id : string) (resources0 : Obj Q) : bool :=
  match structure_of cat id with
  | None => false
  | Some structure => covers resources0 (s_cost structure)
  end.

(** ConstructionSystem.getAvailableStructures. *)
Definition CS_getAvailableStructures (g : Game) : list Structure :=
  filter (fun structure => includes (completedResearch (state g)) (s_requiresTech structure))
         (STRUCTURES cat).

(** The object returned by [ConstructionSystem.getStructureStatus]. *)
Record StructureStatus := {
  ss_structure : Structure;
  ss_currentCount : Z;
  ss_queuedCount : Z;
  ss_totalPlanned : Z;
  ss_techUnlocked : bool;
  ss_affordable : bool;
  ss_atLimit : bool;
  ss_canBuild : bool
}.

Definition CS_getStructureStatus (id : string) (g : Game) : option StructureStatus :=
  match structure_of cat id with
  | None => None
  | Some structure =>
      let currentCount := orZ (get (structures (state g)) id) 0 in
      let queuedCount := CS_getQueuedCount id g in
      let totalPlanned := (currentCount + queuedCount)%Z in
      let techUnlocked :=
        includes (completedResearch (state g)) (s_requiresTech structure) in
      let affordable := RS_canAfford (s_cost structure) g in
      Some {| ss_structure := structure;
              ss_currentCount := currentCount;
              ss_queuedCount := queuedCount;
              ss_totalPlanned := totalPlanned;
              ss_techUnlocked := techUnlocked;
              ss_affordable := affordable;
              ss_atLimit := match s_limit structure with
                            | Some limit => (totalPlanned >=? limit)%Z
                            | None => false
                            end;
              ss_canBuild := techUnlocked && affordable &&
                             match s_limit structure with
                             | Some limit => (totalPlanned <? limit)%Z
                             | None => true
                             end |}
  end.

(** ProgressionSystem.isResearching. *)
Definition PS_isResearching (techId : string) (g : Game) : bool :=
  includes (ps_researchQueue g) techId.

End Queries.

(** ** The clock and the game loop (js/core/TimeManager.js, GameLoop, Game.update)

    [time:scale], [time:pause] and [time:resume] have no subscriber in the
    core; the clock keeps them in a log of its own.  The total play time
    that [TimeManager.update] copies into the state is the clock's
    [gameTime]. *)

Inductive TimeEvent :=
| time_scale (scale : Q)
| time_pause
| time_resume.

Record Clock := {
  gameTime : Q;
  timeScale : Q;
  isPaused : bool;
  time_events : list TimeEvent
}.

(** The TimeManager as its constructor leaves it. *)
Definition newClock : Clock :=
  {| gameTime := 0; timeScale := 1; isPaused := false; time_events := [] |}.

Definition TM_update (deltaTime : Q) (c : Clock) : Q * Clock :=
  if isPaused c then (0, c)
  else
    let scaledDelta := deltaTime * timeScale c in
    (scaledDelta,
     {| gameTime := gameTime c + scaledDelta; timeScale := timeScale c;
        isPaused := isPaused c; time_events := time_events c |}).

Definition TM_setTimeScale (scale : Q) (c : Clock) : Clock :=
  let scale1 := JS.max 0 (JS.min 10 scale) in
  {| gameTime := gameTime c; timeScale := scale1; isPaused := isPaused c;
     time_events := time_scale scale1 :: time_events c |}.

Definition TM_pause (c : Clock) : Clock :=
  {| gameTime := gameTime c; timeScale := timeScale c; isPaused := true;
     time_events := time_pause :: time_events c |}.

Definition TM_resume (c : Clock) : Clock :=
  {| gameTime := gameTime c; timeScale := timeScale c; isPaused := false;
     time_events := time_resume :: time_events c |}.

Definition TM_togglePause (c : Clock) : bool * Clock :=
  let c1 := if isPaused c then TM_resume c else TM_pause c in
  (isPaused c1, c1).

(** [Game.update]: the clock scales the step, then the three systems run,
    unless the game is paused. *)
Definition Game_update (cat : Catalog) (deltaTime : Q) (w : Clock * Game) : Clock * Game :=
  let (c, g) := w in
  let (scaledDelta, c1) := TM_update deltaTime c in
  if isPaused c1 then (c1, g) else (c1, tick cat scaledDelta g).

(** GameLoop. *)
Definition TICK_RATE : Q := 60.

Record GameLoop := {
  isRunning : bool;
  lastTime : Q;
  accumulator : Q;
  fixedDeltaTime : Q;
  fps : Z;
  frameCount : Z;
  fpsUpdateTime : Q
}.

(** The loop as its constructor leaves it. *)
Definition newGameLoop : GameLoop :=
  {| isRunning := false; lastTime := 0; accumulator := 0;
     fixedDeltaTime := 1000 / TICK_RATE; fps := 0; frameCount := 0; fpsUpdateTime := 0 |}.

(** [start]; [now] is [performance.now()]. *)
Definition GL_start (now : Q) (l : GameLoop) : GameLoop :=
  if isRunning l then l
  else {| isRunning := true; lastTime := now; accumulator := 0;
          fixedDeltaTime := fixedDeltaTime l; fps := fps l; frameCount := 0;
          fpsUpdateTime := now |}.

Definition GL_stop (l : GameLoop) : GameLoop :=
  {| isRunning := false; lastTime := lastTime l; accumulator := accumulator l;
     fixedDeltaTime := fixedDeltaTime l; fps := fps l; frameCount := frameCount l;
     fpsUpdateTime := fpsUpdateTime l |}.

(** The fixed-step [while] loop of [loop]: one update per whole step in the
    accumulator.  [bound] bounds the number of rounds; [loop] instantiates
    it with the number of whole steps the accumulator holds. *)
Fixpoint fixed_steps (cat : Catalog) (bound : nat) (step acc : Q) (w : Clock * Game)
  : Q * (Clock * Game) :=
  match bound with
  | O => (acc, w)
  | S n =>
      if geb acc step
      then fixed_steps cat n step (acc - step) (Game_update cat (step / 1000) w)
      else (acc, w)
  end.

Definition whole_steps (step acc : Q) : nat := Z.to_nat (Qfloor (acc / step)).

(** One animation frame at time [currentTime]. *)
Definition GL_loop (cat : Catalog) (currentTime : Q) (lw : GameLoop * (Clock * Game))
  : GameLoop * (Clock * Game) :=
  let (l, w) := lw in
  if negb (isRunning l) then (l, w)
  else
    let deltaTime := currentTime - lastTime l in
    let cappedDelta := JS.min deltaTime 250 in
    let acc0 := accumulator l + cappedDelta in
    let (acc1, w1) :=
      fixed_steps cat (whole_steps (fixedDeltaTime l) acc0) (fixedDeltaTime l) acc0 w in
    let frameCount1 := (frameCount l + 1)%Z in
    let due := geb (currentTime - fpsUpdateTime l) 1000 in
    ({| isRunning := isRunning l; lastTime := currentTime; accumulator := acc1;
        fixedDeltaTime := fixedDeltaTime l;
        fps := if due then frameCount1 else fps l;
        frameCount := if due then 0%Z else frameCount1;
        fpsUpdateTime := if due then currentTime else fpsUpdateTime l |},
     w1).

From Stdlib Require Import DecimalString.

(** ** Saved states: [StateManager.loadState] and [deepMerge]

    A saved state reaches [loadState] as the result of [JSON.parse], which
    can be any JSON value.  Objects are maps of their own properties, as
    everywhere in this development; the order of the properties is the
    order of insertion and is not observable through lookups. *)

#[warnings="-register-all"]
Inductive Json : Type :=
| JNull
| JBool (b : bool)
| JNum (n : Q)
| JStr (s : string)
| JArr (items : list Json)
| JObj (fields : Obj Json).

(** The property name of an array index. *)
Definition index_key (i : nat) : string := NilEmpty.string_of_uint (Nat.to_uint i).

Fixpoint indexed {A} (i : nat) (xs : list A) : Obj A :=
  match xs with
  | [] => []
  | x :: t => (index_key i, x) :: indexed (S i) t
  end.

(** The characters of a string, each as a string of length one. *)
Definition chars (s : string) : list Json :=
  map (fun c => JStr (String c "")) (list_ascii_of_string s).

(** [{ ...v }]: the own enumerable properties of [v]. *)
Definition spread (v : Json) : Obj Json :=
  match v with
  | JObj fields => fields
  | JArr items => indexed 0 items
  | JStr s => indexed 0 (chars s)
  | _ => []
  end.

(** [v[key]] on a value that is not [null]; [None] is [undefined]. *)
Definition prop (v : Json) (key : string) : option Json :=
  match v with
  | JObj fields => get fields key
  | JArr items =>
      match get (indexed 0 items) key with
      | Some x => Some x
      | None => if String.eqb key "length"
                then Some (JNum (inject_Z (Z.of_nat (List.length items)))) else None
      end
  | JStr s =>
      match get (indexed 0 (chars s)) key with
      | Some x => Some x
      | None => if String.eqb key "length"
                then Some (JNum (inject_Z (Z.of_nat (String.length s)))) else None
      end
  | _ => None
  end.

Definition truthy_json (v : Json) : bool :=
  match v with
  | JNull => false
  | JBool b => b
  | JNum n => truthy n
  | JStr s => negb (String.eqb s "")
  | JArr _ | JObj _ => true
  end.

(** [typeof v === 'object'] and [Array.isArray(v)]. *)
Definition typeof_object (v : Json) : bool :=
  match v with
  | JNull | JArr _ | JObj _ => true
  | _ => false
  end.

Definition isArray (v : Json) : bool :=
  match v with
  | JArr _ => true
  | _ => false
  end.

(** [x || {}]. *)
Definition or_empty (x : option Json) : Json :=
  match x with
  | Some v => if truthy_json v then v else JObj []
  | None => JObj []
  end.

(** [StateManager.deepMerge]; [for (const key in source)] visits the
    properties of an object, the indices of an array or of a string, and
    nothing in any other value. *)
Fixpoint deepMerge (target : Json) (source : Json) {struct source} : Obj Json :=
  let result := spread target in
  match source with
  | JObj fields =>
      (fix each (rest : Obj Json) (result : Obj Json) {struct rest} : Obj Json :=
         match rest with
         | [] => result
         | (key, v) :: rest' =>
             each rest'
               (if truthy_json v && typeof_object v && negb (isArray v)
                then set key (JObj (deepMerge (or_empty (prop target key)) v)) result
                else set key v result)
         end) fields result
  | JArr items =>
      (fix each (i : nat) (rest : list Json) (result : Obj Json) {struct rest} : Obj Json :=
         match rest with
         | [] => result
         | v :: rest' =>
             let key := index_key i in
             each (S i) rest'
               (if truthy_json v && typeof_object v && negb (isArray v)
                then set key (JObj (deepMerge (or_empty (prop target key)) v)) result
                else set key v result)
         end) 0%nat items result
  | JStr s =>
      fold_left (fun result kv => set (fst kv) (snd kv) result) (indexed 0 (chars s)) result
  | _ => result
  end.

Module Saved.

Definition VERSION : string := "1.0.0".

(** [StateManager.getDefaultState], as the object literal of the source. *)
Definition getDefaultState (now : Z) : Obj Json :=
  [ ("version", JStr VERSION);
    ("createdAt", JNum (inject_Z now));
    ("lastSaveAt", JNull);
    ("totalPlayTime", JNum 0);
    ("resources",
      JObj [("energy", JNum (orQ (get CONFIG.STARTING_RESOURCES "energy") 0));
            ("materials", JNum (orQ (get CONFIG.STARTING_RESOURCES "materials") 0));
            ("research", JNum (orQ (get CONFIG.STARTING_RESOURCES "research") 0))]);
    ("production",
      JObj [("energy", JNum (energy CONFIG.BASE_PRODUCTION));
            ("materials", JNum (materials CONFIG.BASE_PRODUCTION));
            ("research", JNum (research CONFIG.BASE_PRODUCTION))]);
    ("structures", JObj []);
    ("constructionQueue", JArr []);
    ("completedResearch", JArr [JStr "basic_rocketry"]);
    ("currentResearch", JNull);
    ("researchProgress", JNum 0);
    ("researchQueue", JArr []);
    ("researchProgressMap", JObj []);
    ("maxResearchSlots", JNum 1);
    ("autoResearch", JBool false);
    ("currentEra", JNum 1);
    ("solarCapture", JNum 0);
    ("claimedMilestones", JArr []);
    ("stats",
      JObj [("totalEnergyGenerated", JNum 0);
            ("totalMaterialsMined", JNum 0);
            ("totalResearchCompleted", JNum 0);
            ("totalStructuresBuilt", JNum 0);
            ("dysonSatellites", JNum 0)]);
    ("settings",
      JObj [("graphicsQuality", JStr "medium");
            ("musicVolume", JNum 50);
            ("sfxVolume", JNum 70);
            ("showOrbits", JBool true);
            ("autoSave", JBool true);
            ("tutorialCompleted", JBool false);
            ("tutorialStep", JNum 0)]);
    ("ui",
      JObj [("selectedObject", JNull);
            ("focusedPlanet", JNull);
            ("panelStates", JObj [("left", JBool true); ("right", JBool true)])]);
    ("flags",
      JObj [("victoryAchieved", JBool false);
            ("sandboxMode", JBool false)]) ].

(** The state manager around a state held as a JSON object, with the names
    of the events it has emitted (newest first). *)
Record Store := { held : Obj Json; emitted : list string }.

(** The constructor: the default state and nothing emitted. *)
Definition newStore (now : Z) : Store :=
  {| held := getDefaultState now; emitted := [] |}.

(** [StateManager.loadState]. *)
Definition loadState (now : Z) (savedState : Json) (m : Store) : Store :=
  let defaultState := getDefaultState now in
  let state := deepMerge (JObj defaultState) savedState in
  let state := set "version" (JStr VERSION) state in
  {| held := state; emitted := "state:loaded" :: emitted m |}.

(** [StateManager.reset]. *)
Definition reset (now : Z) (m : Store) : Store :=
  {| held := getDefaultState now; emitted := "state:reset" :: emitted m |}.

End Saved.

(** ** Further notions used by the properties *)

(** The item that [build] queues for a catalog entry. *)
Definition new_item (id : string) (placementOption : option string) (structure : Structure)
  : QueueItem :=
  {| structureId := id;
     buildTime := s_buildTime structure;
     progress := 0;
     placement := match placementOption with
                  | Some p => if String.eqb p "" then s_placement structure else p
                  | None => s_placement structure
                  end |}.


(** The assignments of [StateManager.addStructure], before [structure:built]
    is emitted. *)
Definition record_structure (id : string) (count : Z) (g : Game) : Game :=
  let total := (SM_getStructureCount id g + count)%Z in
  let g1 := upd_state (set_structures (set id total (structures (state g)))) g in
  upd_state (fun s =>
    set_stats
      {| totalEnergyGenerated := totalEnergyGenerated (stats s);
         totalMaterialsMined := totalMaterialsMined (stats s);
         totalResearchCompleted := totalResearchCompleted (stats s);
         totalStructuresBuilt := (totalStructuresBuilt (stats s) + count)%Z;
         dysonSatellites :=
           if String.eqb id "dyson_satellite" then total else dysonSatellites (stats s) |}
      s) g1.

(** The head of the construction queue with its progress overwritten, as
    [item.progress += ...] leaves it. *)
Definition with_progress (item : QueueItem) (p : Q) : QueueItem :=
  {| structureId := structureId item; buildTime := buildTime item;
     progress := p; placement := placement item |}.

(** The ticks of a command sequence all have a step in [P]. *)
Definition ticking (P : Q -> Prop) (c : Command) : Prop :=
  match c with advance deltaTime => P deltaTime | _ => True end.

(** Invariants of play. *)

(** No balance is negative. *)
Definition NonNegative (g : Game) : Prop := forall k, 0 <= SM_getResource k g.

(** The solar capture is a fraction. *)
Definition Capped (g : Game) : Prop :=
  0 <= solarCapture (state g) /\ solarCapture (state g) <= 1.

(** Built and queued copies of a limited structure stay within its limit. *)
Definition WithinLimits (c : Catalog) (g : Game) : Prop :=
  forall id structure limit,
    structure_of c id = Some structure -> s_limit structure = Some limit ->
    (SM_getStructureCount id g + CS_getQueuedCount id g <= limit)%Z.

(** No technology is recorded as completed twice. *)
Definition CompletedOnce (g : Game) : Prop := NoDup (completedResearch (state g)).

(** Cost bundles and rewards without negative amounts. *)
Definition fair_costs (c : Catalog) : Prop :=
  forall s k a, In s (STRUCTURES c) -> In (k, a) (s_cost s) -> 0 <= a.

Definition fair_rewards (c : Catalog) : Prop :=
  forall m reward k a,
    In m (MILESTONES c) -> m_reward m = Some reward -> In (k, a) reward -> 0 <= a.

(** The number of queued copies of a structure, as [getQueuedCount] counts
    them. *)
Definition queued_in (id : string) (q : list QueueItem) : Z :=
  Z.of_nat (List.length (filter (fun item => String.eqb (structureId item) id) q)).


(** What [recalculateProduction] computes before it writes anything: the
    modifiers, the production rates, the solar capture it requests and the
    logistics. *)
Definition figures (c : Catalog) (g : Game) : Modifiers * Rates * Q * Logistics :=
  let s := state g in
  let t := fold_left (add_structure_production c) (structures s) totals0 in
  let l := tot_logistics t in
  let techModifiers := RS_getTechModifiers c (completedResearch s) in
  let cargoMultiplier := 1 + cargoCapacity l / 1000 in
  let populationMultiplier := 1 + population l / 10000 in
  let energyEfficiencyMultiplier := 1 + energyEfficiency l in
  let exoticMaterialMultiplier := 1 + exoticMaterials l * (1 # 50) in
  let antimatterMultiplier := 1 + antimatter l * (1 # 10) in
  let storageMultiplier := 1 + energyStorage l / 100000 in
  let solarMatterMultiplier := 1 + solarMatter l * (1 # 200) in
  let computationMultiplier := 1 + computation l / 1000000 * (1 # 4) in
  let energyModifier :=
    mod_energy (modifiers g) * tm_energy techModifiers * energyEfficiencyMultiplier
    * antimatterMultiplier * storageMultiplier in
  let materialsModifier :=
    mod_materials (modifiers g) * tm_materials techModifiers * cargoMultiplier
    * exoticMaterialMultiplier * solarMatterMultiplier in
  let researchModifier :=
    mod_research (modifiers g) * tm_research techModifiers * populationMultiplier
    * computationMultiplier in
  let energyFromDyson :=
    tot_energyFromDyson t
    * (energyModifier * dysonBonus l * tm_dysonEfficiency techModifiers) in
  let solarCapture1 :=
    tot_solarCapture t * (dysonBonus l * tm_dysonEfficiency techModifiers) in
  ({| mod_energy := mod_energy (modifiers g);
      mod_materials := mod_materials (modifiers g);
      mod_research := mod_research (modifiers g);
      mod_buildSpeed :=
        (1 + tot_buildSpeedBonus t + launchCapacity l * (1 # 50))
        * tm_buildSpeed techModifiers |},
   {| energy := tot_energy t * energyModifier + energyFromDyson;
      materials := tot_materials t * materialsModifier;
      research := tot_research t * researchModifier |},
   solarCapture1, l).

(** A technology that [startResearch] would accept if a slot is free: it is
    researchable and not being researched. *)
Definition startable (c : Catalog) (g : Game) (tech : Tech) : bool :=
  SM_canResearch c (t_id tech) g && negb (includes (ps_researchQueue g) (t_id tech)).

(** The share of the research rate that one queued technology receives in
    a tick of length [deltaTime], and whether it reaches the cost of [t]. *)
Definition share (g : Game) (deltaTime : Q) : Q :=
  research (production (state g))
  / inject_Z (Z.of_nat (List.length (ps_researchQueue g))) * deltaTime.

Definition finishes (c : Catalog) (g : Game) (deltaTime : Q) (t : string) : bool :=
  geb (progress_of t g + share g deltaTime) (cost_of c t).

(** A technology is recorded as completed. *)
Definition recorded (x : string) (g : Game) : Prop := In x (completedResearch (state g)).




(** Technology modifiers up to equality of numbers. *)
Definition tm_eq (a b : TechModifiers) : Prop :=
  tm_energy a == tm_energy b /\ tm_materials a == tm_materials b /\
  tm_research a == tm_research b /\ tm_buildSpeed a == tm_buildSpeed b /\
  tm_dysonEfficiency a == tm_dysonEfficiency b.

(** The factor that [if (x) m *= x] contributes. *)
Definition factor (x : Q) : Q := if truthy x then x else 1.

(** The factors that one completed technology contributes to the modifiers. *)
Definition effect_factors (c : Catalog) (techId : string) : TechModifiers :=
  match tech_of c techId with
  | Some {| t_effects := Some e |} =>
      {| tm_energy := factor (energyGeneration e) * factor (energyProduction e)
                      * factor (solarEfficiency e) * factor (productionMultiplier e);
         tm_materials := factor (materialProduction e) * factor (productionMultiplier e);
         tm_research := factor (researchEfficiency e) * factor (productionMultiplier e);
         tm_buildSpeed := factor (buildSpeed e) * factor (constructionEfficiency e);
         tm_dysonEfficiency := factor (dysonEfficiency e) |}
  | _ => {| tm_energy := 1; tm_materials := 1; tm_research := 1;
            tm_buildSpeed := 1; tm_dysonEfficiency := 1 |}
  end.

Definition tm_scale (a b : TechModifiers) : TechModifiers :=
  {| tm_energy := tm_energy a * tm_energy b;
     tm_materials := tm_materials a * tm_materials b;
     tm_research := tm_research a * tm_research b;
     tm_buildSpeed := tm_buildSpeed a * tm_buildSpeed b;
     tm_dysonEfficiency := tm_dysonEfficiency a * tm_dysonEfficiency b |}.

Definition tm_one : TechModifiers :=
  {| tm_energy := 1; tm_materials := 1; tm_research := 1;
     tm_buildSpeed := 1; tm_dysonEfficiency := 1 |}.

Definition tm_product (c : Catalog) (completed : list string) : TechModifiers :=
  fold_right (fun techId acc => tm_scale (effect_factors c techId) acc) tm_one completed.

(** A clock whose time scale is within the range [setTimeScale] allows. *)
Definition Steady (c : Clock) : Prop := 0 <= timeScale c /\ timeScale c <= 10.

(** Production bundles and effect bundles without negative entries; a
    [dysonBonus], where present, is a multiplier of at least one. *)
Definition production_ok (p : ProductionDef) : bool :=
  Qle_bool 0 (pd_energy p) && Qle_bool 0 (pd_materials p) && Qle_bool 0 (pd_research p)
  && Qle_bool 0 (pd_buildSpeedBonus p) && Qle_bool 0 (pd_solarCapture p)
  && Qle_bool 0 (pd_launchCapacity p) && Qle_bool 0 (pd_cargoCapacity p)
  && Qle_bool 0 (pd_population p) && Qle_bool 0 (pd_autoConstruction p)
  && Qle_bool 0 (pd_energyEfficiency p)
  && (Qeq_bool (pd_dysonBonus p) 0 || Qle_bool 1 (pd_dysonBonus p))
  && Qle_bool 0 (pd_exoticMaterials p) && Qle_bool 0 (pd_antimatter p)
  && Qle_bool 0 (pd_energyStorage p) && Qle_bool 0 (pd_solarMatter p)
  && Qle_bool 0 (pd_computation p).

Definition effects_ok (e : Effects) : bool :=
  Qle_bool 0 (energyGeneration e) && Qle_bool 0 (energyProduction e)
  && Qle_bool 0 (solarEfficiency e) && Qle_bool 0 (materialProduction e)
  && Qle_bool 0 (researchEfficiency e) && Qle_bool 0 (productionMultiplier e)
  && Qle_bool 0 (buildSpeed e) && Qle_bool 0 (constructionEfficiency e)
  && Qle_bool 0 (dysonEfficiency e).

Definition sound_structures (c : Catalog) : Prop :=
  forall s p, In s (STRUCTURES c) -> s_production s = Some p -> production_ok p = true.

Definition sound_effects (c : Catalog) : Prop :=
  forall t e, In t (TECH_TREE c) -> t_effects t = Some e -> effects_ok e = true.

(** Running totals and modifiers without negative entries. *)
Definition totals_ok (t : Totals) : Prop :=
  0 <= tot_energy t /\ 0 <= tot_materials t /\ 0 <= tot_research t /\
  0 <= tot_buildSpeedBonus t /\ 0 <= tot_solarCapture t /\ 0 <= tot_energyFromDyson t /\
  0 <= launchCapacity (tot_logistics t) /\ 0 <= cargoCapacity (tot_logistics t) /\
  0 <= population (tot_logistics t) /\ 0 <= autoConstruction (tot_logistics t) /\
  0 <= energyEfficiency (tot_logistics t) /\ 1 <= dysonBonus (tot_logistics t) /\
  0 <= exoticMaterials (tot_logistics t) /\ 0 <= antimatter (tot_logistics t) /\
  0 <= energyStorage (tot_logistics t) /\ 0 <= solarMatter (tot_logistics t) /\
  0 <= computation (tot_logistics t).

Definition tm_ok (m : TechModifiers) : Prop :=
  0 <= tm_energy m /\ 0 <= tm_materials m /\ 0 <= tm_research m /\
  0 <= tm_buildSpeed m /\ 0 <= tm_dysonEfficiency m.

(** The value that [deepMerge] stores under [key] for the source value [v]. *)
Definition merged_value (target : Json) (key : string) (v : Json) : Json :=
  if truthy_json v && typeof_object v && negb (isArray v)
  then JObj (deepMerge (or_empty (prop target key)) v)
  else v.

(** The value found by following own properties along a path. *)
Fixpoint at_path (v : Json) (path : list string) : option Json :=
  match path with
  | [] => Some v
  | key :: rest =>
      match get (spread v) key with
      | Some v' => at_path v' rest
      | None => None
      end
  end.


(** [silent source path]: the objects of [source] along the path say
    nothing about it: one of them lacks the next key. *)
Fixpoint silent (source : Json) (path : list string) : Prop :=
  match path with
  | [] => False
  | key :: rest =>
      match source with
      | JObj fields =>
          NoDup (keys fields) /\
          match get fields key with
          | Some v => silent v rest
          | None => True
          end
      | _ => False
      end
  end.

(** The statistics agree with the state: the counter of built structures
    and the counter of completed research differ from what the state holds
    by fixed amounts, and the satellite counter is the number of
    satellites. *)
Definition Tallied (built researched : Z) (g : Game) : Prop :=
  (totalStructuresBuilt (stats (state g)) - SM_getTotalStructures g = built)%Z /\
  (totalResearchCompleted (stats (state g))
   - Z.of_nat (List.length (completedResearch (state g))) = researched)%Z /\
  dysonSatellites (stats (state g)) = SM_getStructureCount "dyson_satellite" g.

(** * Properties *)

(** ** Numbers and objects *)

Lemma ltb_true (a b : Q) : ltb a b = true <-> a < b.
Proof.
  unfold ltb. rewrite negb_true_iff. split; intro H.
  - apply Qnot_le_lt. intro Hle. apply Qle_bool_iff in Hle. congruence.
  - destruct (Qle_bool b a) eqn:E; [|reflexivity].
    apply Qle_bool_iff in E. exfalso. exact (Qlt_not_le _ _ H E).
Qed.

Lemma ltb_false (a b : Q) : ltb a b = false <-> b <= a.
Proof.
  unfold ltb. rewrite negb_false_iff. apply Qle_bool_iff.
Qed.

Lemma geb_true (a b : Q) : geb a b = true <-> b <= a.
Proof. apply Qle_bool_iff. Qed.

Lemma gtb_true (a b : Q) : gtb a b = true <-> b < a.
Proof. apply (ltb_true b a). Qed.


Lemma leb_false (a b : Q) : leb a b = false <-> b < a.
Proof.
  unfold leb. split; intro H.
  - apply Qnot_le_lt. intro Hle. apply Qle_bool_iff in Hle. congruence.
  - destruct (Qle_bool a b) eqn:E; [|reflexivity].
    apply Qle_bool_iff in E. exfalso. exact (Qlt_not_le _ _ H E).
Qed.

(** [x || 0] is the number itself. *)
Lemma orQ_Some_0 (q : Q) : orQ (Some q) 0 == q.
Proof.
  unfold orQ, truthy. destruct (Qeq_bool q 0) eqn:E; simpl.
  - apply Qeq_bool_iff in E. symmetry. exact E.
  - reflexivity.
Qed.

Lemma orZ_Some_0 (z : Z) : orZ (Some z) 0 = z.
Proof. destruct z; reflexivity. Qed.

Lemma orZ_Some_pos (z d : Z) : (z <> 0)%Z -> orZ (Some z) d = z.
Proof. destruct z; simpl; congruence. Qed.

Lemma get_set_same {A} (o : Obj A) (k : string) (v : A) : get (set k v o) k = Some v.
Proof.
  induction o as [|[k' v'] t IH]; simpl.
  - now rewrite String.eqb_refl.
  - destruct (String.eqb k k') eqn:E; simpl; rewrite ?String.eqb_refl, ?E; auto.
Qed.

Lemma get_set_other {A} (o : Obj A) (k k' : string) (v : A) :
  k <> k' -> get (set k v o) k' = get o k'.
Proof.
  intro Hne. induction o as [|[k0 v0] t IH]; simpl.
  - destruct (String.eqb k' k) eqn:E; [apply String.eqb_eq in E; congruence | reflexivity].
  - destruct (String.eqb k k0) eqn:E; simpl.
    + apply String.eqb_eq in E. subst k0.
      destruct (String.eqb k' k) eqn:E'; [apply String.eqb_eq in E'; congruence | reflexivity].
    + now rewrite IH.
Qed.

Lemma includes_In (xs : list string) (x : string) : includes xs x = true <-> In x xs.
Proof.
  unfold includes. rewrite existsb_exists. split.
  - intros (y & Hy & E). apply String.eqb_eq in E. now subst.
  - intro H. exists x. split; [assumption | apply String.eqb_refl].
Qed.

(** ** The resource ledger *)

Lemma getResource_emit (k : string) (e : Event) (g : Game) :
  SM_getResource k (SM_emit e g) = SM_getResource k g.
Proof. reflexivity. Qed.

Lemma getResource_addResource_same (k : string) (a : Q) (g : Game) :
  SM_getResource k (SM_addResource k a g) == SM_getResource k g + a.
Proof.
  unfold SM_addResource. rewrite getResource_emit.
  unfold SM_getResource at 1. simpl. rewrite get_set_same. apply orQ_Some_0.
Qed.

Lemma getResource_addResource_other (k k' : string) (a : Q) (g : Game) :
  k <> k' -> SM_getResource k' (SM_addResource k a g) = SM_getResource k' g.
Proof.
  intro Hne. unfold SM_addResource. rewrite getResource_emit.
  unfold SM_getResource at 1. simpl. now rewrite get_set_other.
Qed.

Lemma spendResource_true (k : string) (a : Q) (g g' : Game) :
  SM_spendResource k a g = (true, g') ->
  a <= SM_getResource k g /\
  SM_getResource k g' == SM_getResource k g - a /\
  (forall k', k <> k' -> SM_getResource k' g' = SM_getResource k' g).
Proof.
  unfold SM_spendResource. destruct (ltb (SM_getResource k g) a) eqn:E; [discriminate|].
  intro H. injection H as <-. apply ltb_false in E. split; [exact E|]. split.
  - rewrite getResource_emit. unfold SM_getResource at 1. simpl.
    rewrite get_set_same. apply orQ_Some_0.
  - intros k' Hne. rewrite getResource_emit. unfold SM_getResource at 1. simpl.
    now rewrite get_set_other.
Qed.

Lemma spendResource_false (k : string) (a : Q) (g g' : Game) :
  SM_spendResource k a g = (false, g') -> g' = g /\ SM_getResource k g < a.
Proof.
  unfold SM_spendResource. destruct (ltb (SM_getResource k g) a) eqn:E; [|discriminate].
  intro H. injection H as <-. split; [reflexivity | now apply ltb_true].
Qed.

Lemma spendResource_affordable (k : string) (a : Q) (g : Game) :
  a <= SM_getResource k g -> fst (SM_spendResource k a g) = true.
Proof.
  intro H. unfold SM_spendResource.
  apply ltb_false in H. now rewrite H.
Qed.

(** The sufficiency check only reads the balances of the listed kinds. *)
Lemma canAfford_ext (costs : Obj Q) (g g' : Game) :
  (forall k, In k (keys costs) -> SM_getResource k g' = SM_getResource k g) ->
  SM_canAfford costs g' = SM_canAfford costs g.
Proof.
  induction costs as [|[k a] rest IH]; intro H; simpl; [reflexivity|].
  rewrite (H k) by (left; reflexivity).
  rewrite IH; [reflexivity|]. intros k' Hk'. apply H. now right.
Qed.


(** When every listed kind is covered, [spend] succeeds and takes every
    listed amount; the other kinds keep their balance. *)
Lemma spend_affordable (costs : Obj Q) :
  NoDup (keys costs) ->
  forall g, SM_canAfford costs g = true ->
  fst (RS_spend costs g) = true /\
  (forall k a, In (k, a) costs ->
     SM_getResource k (snd (RS_spend costs g)) == SM_getResource k g - a) /\
  (forall k, ~ In k (keys costs) ->
     SM_getResource k (snd (RS_spend costs g)) = SM_getResource k g).
Proof.
  induction costs as [|[k a] rest IH]; intros Hnd g Hafford; simpl.
  - split; [reflexivity|]. split; [intros k a [] | reflexivity].
  - simpl in Hnd. inversion Hnd as [|? ? Hnotin Hnd']; subst.
    simpl in Hafford.
    destruct (ltb (SM_getResource k g) a) eqn:E; [discriminate|].
    apply ltb_false in E.
    destruct (SM_spendResource k a g) as [ok g1] eqn:Hs.
    pose proof (spendResource_affordable k a g E) as Hok. rewrite Hs in Hok.
    simpl in Hok. subst ok. simpl.
    apply spendResource_true in Hs. destruct Hs as (_ & Hsame & Hother).
    assert (Hafford1 : SM_canAfford rest g1 = true).
    { rewrite (canAfford_ext rest g g1); [exact Hafford|].
      intros k' Hk'. apply Hother. intro Heq. subst k'. contradiction. }
    destruct (IH Hnd' g1 Hafford1) as (Hfst & Hin & Hout).
    split; [exact Hfst|]. split.
    + intros k' a' [Heq | Hin'].
      * injection Heq as <- <-. rewrite (Hout k Hnotin). exact Hsame.
      * rewrite (Hin k' a' Hin'). rewrite Hother; [reflexivity|].
        intro Heq. subst k'. apply Hnotin.
        change k with (fst (k, a')). now apply in_map.
    + intros k' Hk'. rewrite Hout by (intro Hc; apply Hk'; now right).
      apply Hother. intro Heq. apply Hk'. now left.
Qed.

(** When some listed kind is short, [spend] reports failure. *)
Lemma spend_unaffordable (costs : Obj Q) :
  NoDup (keys costs) ->
  forall g, SM_canAfford costs g = false -> fst (RS_spend costs g) = false.
Proof.
  induction costs as [|[k a] rest IH]; intros Hnd g Hshort; simpl in *; [discriminate|].
  inversion Hnd as [|? ? Hnotin Hnd']; subst.
  destruct (SM_spendResource k a g) as [ok g1] eqn:Hs.
  destruct ok; simpl; [|reflexivity].
  apply spendResource_true in Hs. destruct Hs as (Hle & _ & Hother).
  apply ltb_false in Hle. rewrite Hle in Hshort.
  apply (IH Hnd'). rewrite (canAfford_ext rest g g1); [exact Hshort|].
  intros k' Hk'. apply Hother. intro Heq. subst k'. contradiction.
Qed.

(** ** Frames of the subscribers *)

Lemma CoreFrame_refl (g : Game) : CoreFrame g g.
Proof. constructor; reflexivity. Qed.

Lemma CoreFrame_trans (g1 g2 g3 : Game) :
  CoreFrame g1 g2 -> CoreFrame g2 g3 -> CoreFrame g1 g3.
Proof. intros [] []. constructor; congruence. Qed.

Lemma CoreFrame_emit (g0 g : Game) (e : Event) :
  CoreFrame g0 g -> CoreFrame g0 (SM_emit e g).
Proof. intros []. constructor; assumption. Qed.

Lemma CoreFrame_addResource (g0 g : Game) (k : string) (a : Q) :
  CoreFrame g0 g -> CoreFrame g0 (SM_addResource k a g).
Proof. intros []. constructor; assumption. Qed.

Lemma CoreFrame_set_flag (g0 g : Game) (path : string) (f : Flags -> Flags) :
  CoreFrame g0 g -> CoreFrame g0 (SM_set_flag path f g).
Proof. intros []. constructor; assumption. Qed.

Lemma CoreFrame_claim (g0 g : Game) (id : string) :
  CoreFrame g0 g -> CoreFrame g0 (snd (SM_claimMilestone id g)).
Proof.
  intros []. unfold SM_claimMilestone.
  destruct (includes _ _); constructor; assumption.
Qed.

Lemma CoreFrame_grant_rewards (reward : Obj Q) (g0 g : Game) :
  CoreFrame g0 g -> CoreFrame g0 (fold_left grant_reward reward g).
Proof.
  revert g. induction reward as [|[k a] rest IH]; intros g H; simpl; [exact H|].
  apply IH. destruct (String.eqb k "sandbox_mode").
  - now apply CoreFrame_set_flag.
  - now apply CoreFrame_addResource.
Qed.

Lemma CoreFrame_claimMilestone (m : Milestone) (g0 g : Game) :
  CoreFrame g0 g -> CoreFrame g0 (PS_claimMilestone m g).
Proof.
  intro H. unfold PS_claimMilestone.
  pose proof (CoreFrame_claim g0 g (m_id m) H) as Hc.
  destruct (SM_claimMilestone (m_id m) g) as [claimed g1]. simpl in Hc.
  destruct claimed; simpl; [|exact Hc].
  assert (H2 : CoreFrame g0 (match m_reward m with
                             | Some reward => fold_left grant_reward reward g1
                             | None => g1 end)).
  { destruct (m_reward m); [now apply CoreFrame_grant_rewards | exact Hc]. }
  destruct (m_isVictory m).
  - unfold PS_triggerVictory, SM_set_victoryAchieved.
    now apply CoreFrame_emit, CoreFrame_set_flag, CoreFrame_emit.
  - now apply CoreFrame_emit.
Qed.

Section Subscribers.

Variable cat : Catalog.

Lemma CoreFrame_claim_all (ms : list Milestone) (g0 g : Game) :
  CoreFrame g0 g ->
  CoreFrame g0 (fold_left (fun g m => PS_claimMilestone m g) ms g).
Proof.
  revert g. induction ms as [|m rest IH]; intros g H; simpl; [exact H|].
  apply IH. now apply CoreFrame_claimMilestone.
Qed.

Lemma CoreFrame_checkMilestones (g0 g : Game) :
  CoreFrame g0 g -> CoreFrame g0 (PS_checkMilestones cat g).
Proof. intro H. unfold PS_checkMilestones. now apply CoreFrame_claim_all. Qed.

Lemma CoreFrame_setSolarCapture (g0 g : Game) (p : Q) :
  CoreFrame g0 g -> CoreFrame g0 (SM_setSolarCapture cat p g).
Proof.
  intro H. unfold SM_setSolarCapture.
  assert (H1 : CoreFrame g0 (upd_state (set_solarCapture (JS.min 1 (JS.max 0 p))) g))
    by (destruct H; constructor; assumption).
  destruct (negb _); [|exact H1].
  unfold emit_solar_capture. now apply CoreFrame_checkMilestones, CoreFrame_emit.
Qed.

Lemma CoreFrame_recalculateProduction (g0 g : Game) :
  CoreFrame g0 g -> CoreFrame g0 (RS_recalculateProduction cat g).
Proof.
  intro H. unfold RS_recalculateProduction. cbv zeta.
  apply CoreFrame_emit.
  match goal with |- CoreFrame _ (set_logistics ?l ?x) =>
    assert (H1 : CoreFrame g0 x) end.
  { apply CoreFrame_setSolarCapture. destruct H. constructor; assumption. }
  destruct H1. constructor; assumption.
Qed.

End Subscribers.

(** ** Auto-construction *)

Section Construction.

Variable cat : Catalog.

Lemma CoreFrame_subscribers_structure_built (g : Game) (id : string) (n total : Z) :
  CoreFrame g (emit_structure_built cat id n total g).
Proof.
  unfold emit_structure_built.
  apply CoreFrame_checkMilestones, CoreFrame_recalculateProduction, CoreFrame_emit.
  apply CoreFrame_refl.
Qed.

Lemma completeConstruction_queue (item : QueueItem) (g : Game) :
  SM_getQueue (CS_completeConstruction cat item g) = tl (SM_getQueue g).
Proof.
  unfold CS_completeConstruction, SM_addStructure, SM_getQueue. simpl.
  rewrite (cf_constructionQueue _ _ (CoreFrame_subscribers_structure_built _ _ _ _)).
  unfold SM_removeFromQueue, SM_getQueue.
  destruct (constructionQueue (state g)); reflexivity.
Qed.








Lemma update_is_head_then_auto (deltaTime : Q) (g : Game) :
  CS_update cat deltaTime g =
  CS_applyAutoConstruction cat deltaTime (advance_head cat deltaTime g).
Proof.
  unfold CS_update, advance_head. destruct (SM_getQueue g); reflexivity.
Qed.

End Construction.






(** ** Building *)

Lemma distinct_NoDup (l : list string) : distinct l = true -> NoDup l.
Proof.
  induction l as [|x t IH]; simpl; intro H; [constructor|].
  apply andb_true_iff in H. destruct H as [Hx Ht].
  constructor; [|now apply IH].
  intro Hin. apply includes_In in Hin. rewrite Hin in Hx. discriminate.
Qed.

Lemma structure_of_In (cat : Catalog) (id : string) (s : Structure) :
  structure_of cat id = Some s -> In s (STRUCTURES cat).
Proof. intro H. apply find_some in H. tauto. Qed.

(** The cost bundles of the game's catalog are objects: no kind listed twice. *)
Lemma catalog_costs_distinct :
  forall s, In s (STRUCTURES catalog) -> NoDup (keys (s_cost s)).
Proof.
  assert (H : forallb (fun s => distinct (keys (s_cost s))) (STRUCTURES catalog) = true)
    by (vm_compute; reflexivity).
  intros s Hs. apply distinct_NoDup.
  rewrite forallb_forall in H. now apply H.
Qed.

(** What a successful [build] is made of. *)
Lemma build_success (cat : Catalog) (id : string) (p : option string)
      (g g' : Game) (item : QueueItem) :
  CS_build cat id p g = (Success item, g') ->
  exists structure,
    structure_of cat id = Some structure /\
    RS_canAfford (s_cost structure) g = true /\
    g' = SM_emit (construction_start item)
           (SM_addToQueue item (snd (RS_spend (s_cost structure) g))).
Proof.
  unfold CS_build. destruct (structure_of cat id) as [structure|]; [|discriminate].
  destruct (negb (CS_isTechUnlocked _ g)); [discriminate|].
  destruct (match s_limit structure with Some _ => _ | None => _ end); [discriminate|].
  destruct (RS_canAfford (s_cost structure) g) eqn:Hafford; [|discriminate].
  simpl. destruct (_ >=? _)%Z; [discriminate|].
  intro H. injection H as <- <-. exists structure. auto.
Qed.

(** C10: inside [build] the deduction cannot fail.  [canAfford] has just
    accepted the same cost bundle on the same state, so the [spend] of a
    successful build returns true and takes every listed amount in full. *)
Theorem C10_build_spend_cannot_fail (cat : Catalog) (id : string) (p : option string)
        (g g' : Game) (item : QueueItem) :
  (forall s, In s (STRUCTURES cat) -> NoDup (keys (s_cost s))) ->
  CS_build cat id p g = (Success item, g') ->
  exists structure,
    structure_of cat id = Some structure /\
    SM_canAfford (s_cost structure) g = true /\
    fst (RS_spend (s_cost structure) g) = true /\
    (forall k a, In (k, a) (s_cost structure) ->
       SM_getResource k g' == SM_getResource k g - a) /\
    (forall k, ~ In k (keys (s_cost structure)) ->
       SM_getResource k g' = SM_getResource k g).
Proof.
  intros Hcat Hbuild.
  destruct (build_success cat id p g g' item Hbuild) as (structure & Hs & Hafford & ->).
  exists structure. split; [exact Hs|]. split; [exact Hafford|].
  apply structure_of_In in Hs.
  destruct (spend_affordable (s_cost structure) (Hcat _ Hs) g Hafford) as (H1 & H2 & H3).
  split; [exact H1|]. split.
  - intros k a Hin. exact (H2 k a Hin).
  - intros k Hk. exact (H3 k Hk).
Qed.

Lemma C10_build_spend_cannot_fail_witness :
  SM_getResource "energy" (snd (CS_build catalog "launch_pad" None funded_start)) == 50 /\
  SM_getResource "materials" (snd (CS_build catalog "launch_pad" None funded_start)) == 0.
Proof.
  destruct (CS_build catalog "launch_pad" None funded_start) as [r g'] eqn:Hb.
  assert (Hr : exists item, r = Success item).
  { revert Hb. vm_compute. intro H. injection H as <- _. eexists. reflexivity. }
  destruct Hr as [item ->].
  destruct (C10_build_spend_cannot_fail catalog "launch_pad" None funded_start g' item
              catalog_costs_distinct Hb) as (s & Hs & _ & _ & Hin & _).
  vm_compute in Hs. injection Hs as <-. simpl.
  split.
  - rewrite (Hin "energy" 50) by (simpl; auto). vm_compute. reflexivity.
  - rewrite (Hin "materials" 100) by (simpl; auto). vm_compute. reflexivity.
Defined.

(** C5 (scenario A): with 100 energy, 50 materials and no research points,
    asking for a structure that costs 50 energy and 100 materials is
    rejected and changes nothing at all, the affordable energy included;
    when the structure's technology is unlocked and its limit is not
    reached, the reason is [cannot_afford]. *)
Theorem C5_scenario_A (cat : Catalog) (id : string) (p : option string)
        (g : Game) (structure : Structure) :
  structure_of cat id = Some structure ->
  s_cost structure = scenario_A_cost ->
  resources (state g) = CONFIG.STARTING_RESOURCES ->
  success (fst (CS_build cat id p g)) = false /\
  snd (CS_build cat id p g) = g /\
  (CS_isTechUnlocked (s_requiresTech structure) g = true ->
   match s_limit structure with
   | Some limit => (SM_getStructureCount id g + CS_getQueuedCount id g < limit)%Z
   | None => True
   end ->
   fst (CS_build cat id p g) = Failure cannot_afford).
Proof.
  intros Hs Hcost Hres.
  assert (Hafford : RS_canAfford (s_cost structure) g = false).
  { rewrite Hcost. unfold RS_canAfford, scenario_A_cost, SM_canAfford, SM_getResource.
    rewrite Hres. reflexivity. }
  unfold CS_build. rewrite Hs.
  destruct (negb (CS_isTechUnlocked (s_requiresTech structure) g)) eqn:Htech.
  { repeat split. intros Hu. rewrite Hu in Htech. discriminate. }
  destruct (match s_limit structure with Some _ => _ | None => _ end) eqn:Hlimit.
  { repeat split. intros _ Hl. destruct (s_limit structure); [|discriminate].
    apply Z.geb_le in Hlimit. lia. }
  rewrite Hafford. repeat split.
Qed.

Lemma C5_scenario_A_witness :
  CS_build catalog "launch_pad" None startingGame = (Failure cannot_afford, startingGame).
Proof.
  destruct (C5_scenario_A catalog "launch_pad" None startingGame
              (structure "launch_pad" scenario_A_cost 10
                 (productionDef [("launchCapacity", 1)]) (Some 5%Z) "basic_rocketry" "earth")
              eq_refl eq_refl eq_refl) as (_ & Hg & Hreason).
  rewrite (surjective_pairing (CS_build catalog "launch_pad" None startingGame)).
  rewrite Hg, Hreason; [reflexivity | reflexivity | vm_compute; reflexivity].
Defined.

(** C1 at the input of scenario A: [spend] reports failure, and yet the
    50 energy listed before the unaffordable materials are gone.  The
    sufficiency check [canAfford] rejects the same bundle. *)
Theorem C1_spend_deducts_before_failing :
  SM_canAfford scenario_A_cost startingGame = false /\
  fst (RS_spend scenario_A_cost startingGame) = false /\
  SM_getResource "energy" startingGame == 100 /\
  SM_getResource "energy" (snd (RS_spend scenario_A_cost startingGame)) == 50.
Proof. vm_compute. repeat split. Qed.

(** ** Offline reconciliation and rounding *)







(** The refund loop of [cancel] on the balances. *)
Lemma getResource_refund (m : Q) (cost : Obj Q) :
  NoDup (keys cost) ->
  forall g,
  (forall k a, In (k, a) cost ->
     SM_getResource k (fold_left (refund m) cost g) ==
     SM_getResource k g + JS.floor (a * m)) /\
  (forall k, ~ In k (keys cost) ->
     SM_getResource k (fold_left (refund m) cost g) = SM_getResource k g).
Proof.
  induction cost as [|[k a] rest IH]; intros Hnd g; simpl.
  - split; [intros k a [] | reflexivity].
  - inversion Hnd as [|? ? Hnotin Hnd']; subst.
    destruct (IH Hnd' (RS_add k (JS.floor (a * m)) g)) as [Hin Hout]. split.
    + intros k' a' [Heq | Hin'].
      * injection Heq as <- <-. rewrite (Hout k Hnotin).
        apply getResource_addResource_same.
      * rewrite (Hin k' a' Hin'). unfold RS_add.
        rewrite getResource_addResource_other; [reflexivity|].
        intro Heq. subst k'. apply Hnotin.
        change k with (fst (k, a')). now apply in_map.
    + intros k' Hk'. rewrite Hout by (intro Hc; apply Hk'; now right).
      unfold RS_add. apply getResource_addResource_other.
      intro Heq. apply Hk'. now left.
Qed.

Lemma getResource_removeFromQueue (k : string) (i : nat) (g : Game) :
  SM_getResource k (SM_removeFromQueue i g) = SM_getResource k g.
Proof. unfold SM_removeFromQueue. destruct (nth_error _ _); reflexivity. Qed.


Lemma getResource_update (k : string) (deltaTime : Q) (g : Game) :
  let p := production (state g) in
  let credit rate := if gtb rate 0 then rate * deltaTime else 0 in
  SM_getResource k (RS_update deltaTime g) ==
  SM_getResource k g +
  (if String.eqb k "energy" then credit (energy p)
   else if String.eqb k "materials" then credit (materials p)
   else if String.eqb k "research" then credit (research p)
   else 0).
Proof.
  intros p credit. unfold RS_update. fold p.
  set (g1 := if gtb (energy p) 0 then _ else g).
  set (g2 := if gtb (materials p) 0 then _ else g1).
  assert (H1 : SM_getResource k g1 ==
               SM_getResource k g + (if String.eqb k "energy" then credit (energy p) else 0)).
  { unfold g1, credit. destruct (gtb (energy p) 0).
    - change (SM_getResource k (add_generated ?f ?x)) with (SM_getResource k x).
      destruct (String.eqb k "energy") eqn:E.
      + apply String.eqb_eq in E. subst k. apply getResource_addResource_same.
      + apply String.eqb_neq in E.
        rewrite getResource_addResource_other by congruence. now rewrite Qplus_0_r.
    - destruct (String.eqb k "energy"); now rewrite Qplus_0_r. }
  assert (H2 : SM_getResource k g2 ==
               SM_getResource k g1 +
               (if String.eqb k "materials" then credit (materials p) else 0)).
  { unfold g2, credit. destruct (gtb (materials p) 0).
    - change (SM_getResource k (add_generated ?f ?x)) with (SM_getResource k x).
      destruct (String.eqb k "materials") eqn:E.
      + apply String.eqb_eq in E. subst k. apply getResource_addResource_same.
      + apply String.eqb_neq in E.
        rewrite getResource_addResource_other by congruence. now rewrite Qplus_0_r.
    - destruct (String.eqb k "materials"); now rewrite Qplus_0_r. }
  assert (H3 : SM_getResource k (if gtb (research p) 0
                                 then SM_addResource "research" (research p * deltaTime) g2
                                 else g2) ==
               SM_getResource k g2 +
               (if String.eqb k "research" then credit (research p) else 0)).
  { unfold credit. destruct (gtb (research p) 0).
    - destruct (String.eqb k "research") eqn:E.
      + apply String.eqb_eq in E. subst k. apply getResource_addResource_same.
      + apply String.eqb_neq in E.
        rewrite getResource_addResource_other by congruence. now rewrite Qplus_0_r.
    - destruct (String.eqb k "research"); now rewrite Qplus_0_r. }
  rewrite H3, H2, H1.
  destruct (String.eqb k "energy") eqn:E1.
  - apply String.eqb_eq in E1. subst k. simpl. ring.
  - destruct (String.eqb k "materials") eqn:E2.
    + apply String.eqb_eq in E2. subst k. simpl. ring.
    + destruct (String.eqb k "research"); ring.
Qed.





(** ** Operations that leave eras and milestones alone *)

Lemma Quiet_refl (g : Game) : Quiet g g.
Proof. constructor; reflexivity. Qed.

Lemma Quiet_trans (g1 g2 g3 : Game) : Quiet g1 g2 -> Quiet g2 g3 -> Quiet g1 g3.
Proof. intros [] []. constructor; congruence. Qed.

Lemma ledger_emit (e : Event) (g : Game) :
  ledger (SM_emit e g) = if on_ledger e then e :: ledger g else ledger g.
Proof. unfold ledger. simpl. destruct (on_ledger e); reflexivity. Qed.

Lemma Quiet_emit (g0 g : Game) (e : Event) :
  on_ledger e = false -> Quiet g0 g -> Quiet g0 (SM_emit e g).
Proof.
  intros He []. constructor; try assumption.
  rewrite ledger_emit, He. assumption.
Qed.

(** Assignments to the state that keep era and claimed set, and assignments
    to the fields of the systems. *)
Lemma Quiet_upd_state (g0 g : Game) (f : State -> State) :
  currentEra (f (state g)) = currentEra (state g) ->
  claimedMilestones (f (state g)) = claimedMilestones (state g) ->
  Quiet g0 g -> Quiet g0 (upd_state f g).
Proof.
  intros He Hc [He0 Hc0 Hl0]. constructor.
  - simpl. congruence.
  - simpl. congruence.
  - exact Hl0.
Qed.

Lemma Quiet_systems (g0 g g' : Game) :
  state g' = state g -> events g' = events g -> Quiet g0 g -> Quiet g0 g'.
Proof.
  intros Hs He []. constructor; unfold ledger; rewrite ?Hs, ?He; assumption.
Qed.

Create HintDb quiet.

#[local] Hint Resolve Quiet_refl : quiet.
#[local] Hint Extern 1 (Quiet _ (SM_emit _ _)) =>
  apply Quiet_emit; [reflexivity|] : quiet.
#[local] Hint Extern 1 (Quiet _ (upd_state _ _)) =>
  apply Quiet_upd_state; [reflexivity|reflexivity|] : quiet.
Lemma Quiet_set_modifiers (g0 g : Game) (v : Modifiers) :
  Quiet g0 g -> Quiet g0 (set_modifiers v g).
Proof. apply Quiet_systems; reflexivity. Qed.
#[local] Hint Resolve Quiet_set_modifiers : quiet.

Lemma Quiet_set_logistics (g0 g : Game) (v : Logistics) :
  Quiet g0 g -> Quiet g0 (set_logistics v g).
Proof. apply Quiet_systems; reflexivity. Qed.
#[local] Hint Resolve Quiet_set_logistics : quiet.

Lemma Quiet_set_autoBuildProgress (g0 g : Game) (v : Q) :
  Quiet g0 g -> Quiet g0 (set_autoBuildProgress v g).
Proof. apply Quiet_systems; reflexivity. Qed.
#[local] Hint Resolve Quiet_set_autoBuildProgress : quiet.

Lemma Quiet_set_ps_researchQueue (g0 g : Game) (v : list string) :
  Quiet g0 g -> Quiet g0 (set_ps_researchQueue v g).
Proof. apply Quiet_systems; reflexivity. Qed.
#[local] Hint Resolve Quiet_set_ps_researchQueue : quiet.

Lemma Quiet_set_ps_researchProgressMap (g0 g : Game) (v : Obj Q) :
  Quiet g0 g -> Quiet g0 (set_ps_researchProgressMap v g).
Proof. apply Quiet_systems; reflexivity. Qed.
#[local] Hint Resolve Quiet_set_ps_researchProgressMap : quiet.

Lemma Quiet_set_offlineProgress (g0 g : Game) (v : option OfflineReport) :
  Quiet g0 g -> Quiet g0 (set_offlineProgress v g).
Proof. apply Quiet_systems; reflexivity. Qed.
#[local] Hint Resolve Quiet_set_offlineProgress : quiet.

Lemma Quiet_addResource (g0 g : Game) (k : string) (a : Q) :
  Quiet g0 g -> Quiet g0 (SM_addResource k a g).
Proof. intro H. unfold SM_addResource. auto with quiet. Qed.
#[local] Hint Resolve Quiet_addResource : quiet.

Lemma Quiet_spendResource (g0 g : Game) (k : string) (a : Q) :
  Quiet g0 g -> Quiet g0 (snd (SM_spendResource k a g)).
Proof.
  intro H. unfold SM_spendResource. destruct (ltb _ _); simpl; auto with quiet.
Qed.
#[local] Hint Resolve Quiet_spendResource : quiet.

Lemma Quiet_spend (costs : Obj Q) (g0 g : Game) :
  Quiet g0 g -> Quiet g0 (snd (RS_spend costs g)).
Proof.
  revert g. induction costs as [|[k a] rest IH]; intros g H; simpl; [exact H|].
  pose proof (Quiet_spendResource g0 g k a H) as H1.
  destruct (SM_spendResource k a g) as [ok g1]. simpl in H1.
  destruct ok; simpl; auto.
Qed.
#[local] Hint Resolve Quiet_spend : quiet.

Lemma Quiet_set_flag (g0 g : Game) (path : string) (f : Flags -> Flags) :
  Quiet g0 g -> Quiet g0 (SM_set_flag path f g).
Proof. intro H. unfold SM_set_flag. auto with quiet. Qed.
#[local] Hint Resolve Quiet_set_flag : quiet.

Lemma Quiet_grant_rewards (reward : Obj Q) (g0 g : Game) :
  Quiet g0 g -> Quiet g0 (fold_left grant_reward reward g).
Proof.
  revert g. induction reward as [|[k a] rest IH]; intros g H; simpl; [exact H|].
  apply IH. destruct (String.eqb k "sandbox_mode"); unfold SM_set_sandboxMode;
    auto with quiet.
Qed.

Lemma Quiet_addToQueue (g0 g : Game) (item : QueueItem) :
  Quiet g0 g -> Quiet g0 (SM_addToQueue item g).
Proof. intro H. unfold SM_addToQueue. auto with quiet. Qed.
#[local] Hint Resolve Quiet_addToQueue : quiet.

Lemma Quiet_removeFromQueue (g0 g : Game) (i : nat) :
  Quiet g0 g -> Quiet g0 (SM_removeFromQueue i g).
Proof.
  intro H. unfold SM_removeFromQueue. destruct (nth_error _ _); auto with quiet.
Qed.
#[local] Hint Resolve Quiet_removeFromQueue : quiet.

Lemma Quiet_syncStateWithQueue (g0 g : Game) :
  Quiet g0 g -> Quiet g0 (PS_syncStateWithQueue g).
Proof. intro H. unfold PS_syncStateWithQueue. auto with quiet. Qed.
#[local] Hint Resolve Quiet_syncStateWithQueue : quiet.

Lemma Quiet_addResearchSlot (g0 g : Game) :
  Quiet g0 g -> Quiet g0 (PS_addResearchSlot g).
Proof. intro H. unfold PS_addResearchSlot. auto with quiet. Qed.
#[local] Hint Resolve Quiet_addResearchSlot : quiet.

Lemma Quiet_grantResearchSlots (t : Tech) (g0 g : Game) :
  Quiet g0 g -> Quiet g0 (PS_grantResearchSlots t g).
Proof.
  intro H. unfold PS_grantResearchSlots. destruct (t_effects t) as [e|]; [|exact H].
  induction (researchSlots e) as [|n IH]; simpl; auto with quiet.
Qed.
#[local] Hint Resolve Quiet_grantResearchSlots : quiet.

Lemma Quiet_unlock_notice (t : Tech) (g0 g : Game) :
  Quiet g0 g -> Quiet g0 (unlock_notice t g).
Proof.
  intro H. unfold unlock_notice. destruct (t_unlocks t); [exact H|].
  destruct (filter _ _); auto with quiet.
Qed.
#[local] Hint Resolve Quiet_unlock_notice : quiet.

Lemma Quiet_update (deltaTime : Q) (g0 g : Game) :
  Quiet g0 g -> Quiet g0 (RS_update deltaTime g).
Proof.
  intro H. unfold RS_update, add_generated.
  repeat match goal with |- context [if ?c then _ else _] => destruct c end;
    auto 10 with quiet.
Qed.

Lemma Quiet_apply_gains (l : Obj Q) (g0 g : Game) :
  Quiet g0 g -> Quiet g0 (fold_left apply_gain l g).
Proof.
  revert g. induction l as [|[k a] rest IH]; intros g H; simpl; [exact H|].
  apply IH. destruct (gtb a 0); auto with quiet.
Qed.

Lemma calculateOfflineProgress_cases (now : Z) (g : Game) :
  snd (IA_calculateOfflineProgress now g) = set_offlineProgress None g \/
  exists report gains1,
    snd (IA_calculateOfflineProgress now g) =
    SM_emit (offline_progress report)
            (set_offlineProgress (Some report) (fold_left apply_gain gains1 g)).
Proof.
  unfold IA_calculateOfflineProgress.
  destruct (lastSaveAt (state g)) as [[|s|s]|]; try (now left);
    (destruct (_ <? 60000)%Z; [now left | right; eexists; eexists; reflexivity]).
Qed.

Lemma Quiet_calculateOfflineProgress (now : Z) (g0 g : Game) :
  Quiet g0 g -> Quiet g0 (snd (IA_calculateOfflineProgress now g)).
Proof.
  intro H.
  destruct (calculateOfflineProgress_cases now g) as [-> | (report & gains1 & ->)].
  - now apply Quiet_set_offlineProgress.
  - apply Quiet_emit; [reflexivity|]. apply Quiet_set_offlineProgress.
    now apply Quiet_apply_gains.
Qed.

Lemma Quiet_refunds (m : Q) (cost : Obj Q) (g0 g : Game) :
  Quiet g0 g -> Quiet g0 (fold_left (refund m) cost g).
Proof.
  revert g. induction cost as [|[k a] rest IH]; intros g H; simpl; [exact H|].
  apply IH. unfold RS_add. auto with quiet.
Qed.

Section QuietEngine.

Variable cat : Catalog.

Lemma Quiet_startResearch (t : string) (g0 g : Game) :
  Quiet g0 g -> Quiet g0 (snd (PS_startResearch cat t g)).
Proof.
  intro H. unfold PS_startResearch.
  destruct (tech_of cat t); [|exact H].
  destruct (SM_isResearched t g); [exact H|].
  destruct (includes _ t); [exact H|].
  destruct (negb _); [exact H|].
  destruct (_ >=? _)%Z; simpl; auto 10 with quiet.
Qed.

Lemma Quiet_tryAutoResearch (g0 g : Game) :
  Quiet g0 g -> Quiet g0 (PS_tryAutoResearch cat g).
Proof.
  intro H. unfold PS_tryAutoResearch.
  destruct (negb _); [exact H|]. destruct (_ >=? _)%Z; [exact H|].
  destruct (filter _ _); [exact H|]. now apply Quiet_startResearch.
Qed.

Lemma Quiet_setAutoResearch (b : bool) (g0 g : Game) :
  Quiet g0 g -> Quiet g0 (PS_setAutoResearch cat b g).
Proof.
  intro H. unfold PS_setAutoResearch.
  destruct b; [apply Quiet_tryAutoResearch|]; auto with quiet.
Qed.

Lemma Quiet_cancelResearch (t : string) (g0 g : Game) :
  Quiet g0 g -> Quiet g0 (snd (PS_cancelResearch t g)).
Proof.
  intro H. unfold PS_cancelResearch. destruct (negb _); simpl; auto 10 with quiet.
Qed.

Lemma Quiet_build (id : string) (p : option string) (g0 g : Game) :
  Quiet g0 g -> Quiet g0 (snd (CS_build cat id p g)).
Proof.
  intro H. unfold CS_build.
  destruct (structure_of cat id); [|exact H].
  destruct (negb (CS_isTechUnlocked _ _)); [exact H|].
  destruct (match s_limit s with Some _ => _ | None => _ end); [exact H|].
  destruct (negb (RS_canAfford _ _)); [exact H|].
  destruct (_ >=? _)%Z; simpl; auto 10 with quiet.
Qed.

Lemma Quiet_bulkBuild (id : string) (n : nat) (g0 g : Game) :
  Quiet g0 g -> Quiet g0 (snd (CS_bulkBuild cat id n g)).
Proof.
  revert g. induction n as [|n IH]; intros g H; simpl; [exact H|].
  pose proof (Quiet_build id None g0 g H) as H1.
  destruct (CS_build cat id None g) as [r g1]. simpl in H1.
  destruct (success r); [|exact H1].
  specialize (IH g1 H1). destruct (CS_bulkBuild cat id n g1). exact IH.
Qed.

Lemma Quiet_cancel (index : Z) (g0 g : Game) :
  Quiet g0 g -> Quiet g0 (snd (CS_cancel cat index g)).
Proof.
  intro H. unfold CS_cancel. destruct (_ || _); [exact H|].
  destruct (nth_error _ _); [|exact H].
  destruct (structure_of cat _); [|exact H]. simpl.
  apply Quiet_emit; [reflexivity|]. apply Quiet_removeFromQueue.
  now apply Quiet_refunds.
Qed.

Lemma Quiet_accrue_progress (queue : list string) (rate deltaTime : Q) :
  forall (completed : list string) (g0 g : Game),
  Quiet g0 g -> Quiet g0 (snd (accrue_progress cat queue rate deltaTime completed g)).
Proof.
  induction queue as [|t rest IH]; intros completed g0 g H; simpl; [exact H|].
  destruct (tech_of cat t); [|now apply IH].
  destruct (geb _ _); apply IH; auto with quiet.
Qed.

End QuietEngine.

(** ** What every operation respects *)

Lemma occurrences_app (id : string) (l1 l2 : list string) :
  occurrences id (l1 ++ l2) = (occurrences id l1 + occurrences id l2)%nat.
Proof. unfold occurrences. now rewrite filter_app, length_app. Qed.

Lemma occurrences_absent (id : string) (l : list string) :
  includes l id = false -> occurrences id l = O.
Proof.
  unfold occurrences, includes. induction l as [|x t IH]; simpl; [reflexivity|].
  destruct (String.eqb id x); simpl; [discriminate | exact IH].
Qed.

Lemma victory_ids_app (c : Catalog) (l1 l2 : list string) :
  victory_ids c (l1 ++ l2) = (victory_ids c l1 + victory_ids c l2)%nat.
Proof. unfold victory_ids. now rewrite filter_app, length_app. Qed.

Lemma NoDup_push (l : list string) (x : string) :
  includes l x = false -> NoDup l -> NoDup (l ++ [x]).
Proof.
  intros Hx Hl. induction Hl as [|y t Hy Ht IH]; simpl.
  - constructor; [intros [] | constructor].
  - unfold includes in Hx. simpl in Hx. apply orb_false_iff in Hx. destruct Hx as [Hxy Hxt].
    constructor; [|now apply IH].
    intro Hin. apply in_app_or in Hin. destruct Hin as [Hin | [Heq | []]]; [contradiction|].
    subst y. rewrite String.eqb_refl in Hxy. discriminate.
Qed.

(** In a catalog whose milestones have distinct identifiers, an identifier
    tells whether its milestone is a victory. *)
Lemma is_victory_id_In (c : Catalog) (m : Milestone) :
  NoDup (map m_id (MILESTONES c)) -> In m (MILESTONES c) ->
  is_victory_id c (m_id m) = m_isVictory m.
Proof.
  unfold is_victory_id. induction (MILESTONES c) as [|m' rest IH]; simpl; [intros _ []|].
  intros Hnd [Heq | Hin]; inversion Hnd as [|? ? Hnotin Hnd']; subst.
  - rewrite String.eqb_refl. simpl. destruct (m_isVictory m); [reflexivity|]. simpl.
    apply not_true_is_false. intro Hex. apply existsb_exists in Hex.
    destruct Hex as (m'' & Hin & Hm''). apply andb_true_iff in Hm''.
    destruct Hm'' as [Heq _]. apply String.eqb_eq in Heq.
    apply Hnotin. rewrite Heq. now apply in_map.
  - destruct (String.eqb (m_id m) (m_id m')) eqn:E.
    + apply String.eqb_eq in E. exfalso. apply Hnotin. rewrite <- E. now apply in_map.
    + simpl. now apply IH.
Qed.

Section StableEngine.

Variable cat : Catalog.

Lemma Stable_refl (g : Game) : Stable cat g g.
Proof.
  constructor; try reflexivity; try lia; auto.
  exists []. now rewrite app_nil_r.
Qed.

Lemma Stable_trans (g1 g2 g3 : Game) :
  Stable cat g1 g2 -> Stable cat g2 g3 -> Stable cat g1 g3.
Proof.
  intros [He1 [n1 Hc1] Hn1 Hk1 Hv1] [He2 [n2 Hc2] Hn2 Hk2 Hv2]. constructor.
  - lia.
  - exists (n1 ++ n2)%list. now rewrite Hc2, Hc1, app_assoc.
  - auto.
  - intro id. specialize (Hk1 id). specialize (Hk2 id). lia.
  - intro Hd. specialize (Hv1 Hd). specialize (Hv2 Hd). lia.
Qed.

Lemma Quiet_Stable (g g' : Game) : Quiet g g' -> Stable cat g g'.
Proof.
  intros [He Hc Hl]. constructor.
  - rewrite He. lia.
  - exists []. now rewrite app_nil_r.
  - now rewrite Hc.
  - intro id. unfold claims_of. now rewrite Hl, Hc.
  - intros _. unfold victories. now rewrite Hl, Hc.
Qed.

(** Lifting of the quiet operations. *)
Lemma Stable_quiet (f : Game -> Game) (g0 g : Game) :
  (forall g, Quiet g (f g)) -> Stable cat g0 g -> Stable cat g0 (f g).
Proof.
  intros Hf H. apply (Stable_trans g0 g (f g) H). apply Quiet_Stable, Hf.
Qed.

Lemma Stable_emit (g0 g : Game) (e : Event) :
  on_ledger e = false -> Stable cat g0 g -> Stable cat g0 (SM_emit e g).
Proof.
  intros He H. apply (Stable_quiet (SM_emit e)); [|exact H].
  intro g1. apply Quiet_emit; [exact He | apply Quiet_refl].
Qed.

Lemma Stable_setEra (n : Z) (g0 g : Game) :
  Stable cat g0 g -> Stable cat g0 (SM_setEra n g).
Proof.
  intro H. apply (Stable_trans g0 g _ H). unfold SM_setEra.
  destruct (n >? currentEra (state g))%Z eqn:E; [|apply Stable_refl].
  apply Z.gtb_lt in E. constructor; simpl.
  - lia.
  - exists []. now rewrite app_nil_r.
  - auto.
  - intro id. unfold claims_of. rewrite ledger_emit. simpl. reflexivity.
  - intros _. unfold victories. rewrite ledger_emit. simpl. reflexivity.
Qed.

Lemma Stable_claimMilestone (m : Milestone) (g0 g : Game) :
  In m (MILESTONES cat) ->
  Stable cat g0 g -> Stable cat g0 (PS_claimMilestone m g).
Proof.
  intros Hm H. apply (Stable_trans g0 g _ H). clear H g0.
  unfold PS_claimMilestone, SM_claimMilestone.
  destruct (includes (claimedMilestones (state g)) (m_id m)) eqn:E; simpl;
    [apply Stable_refl|].
  set (g1 := SM_emit (milestone_claimed (m_id m)) _).
  set (g2 := match m_reward m with Some reward => _ | None => g1 end).
  set (g3 := SM_emit (notification _) g2).
  assert (Hq : Quiet g1 g3).
  { unfold g3. apply Quiet_emit; [reflexivity|]. unfold g2.
    destruct (m_reward m); [apply Quiet_grant_rewards|]; apply Quiet_refl. }
  destruct Hq as [He Hc Hl].
  change (currentEra (state g1)) with (currentEra (state g)) in He.
  change (claimedMilestones (state g1))
    with (claimedMilestones (state g) ++ [m_id m])%list in Hc.
  assert (Hl1 : ledger g1 = milestone_claimed (m_id m) :: ledger g)
    by (unfold g1; now rewrite ledger_emit).
  rewrite Hl1 in Hl.
  assert (Hfinal :
    let g' := if m_isVictory m then PS_triggerVictory g3 else g3 in
    currentEra (state g') = currentEra (state g) /\
    claimedMilestones (state g') = (claimedMilestones (state g) ++ [m_id m])%list /\
    ledger g' = (if m_isVictory m then [game_victory] else []) ++
                milestone_claimed (m_id m) :: ledger g).
  { destruct (m_isVictory m); simpl.
    - unfold PS_triggerVictory. rewrite ledger_emit. simpl.
      unfold SM_set_victoryAchieved, SM_set_flag. rewrite !ledger_emit. simpl.
      repeat split; try assumption. f_equal. exact Hl.
    - auto. }
  cbv zeta in Hfinal. destruct Hfinal as (He' & Hc' & Hl'). constructor.
  - rewrite He'. lia.
  - exists [m_id m]. exact Hc'.
  - intro Hnd. rewrite Hc'. now apply NoDup_push.
  - intro id. unfold claims_of. rewrite Hl', Hc', occurrences_app.
    unfold count_events. rewrite filter_app, length_app.
    destruct (m_isVictory m); simpl;
      unfold occurrences at 3; simpl; destruct (String.eqb id (m_id m)); simpl; lia.
  - intro Hd. pose proof (is_victory_id_In cat m Hd Hm) as Hv.
    unfold victories. rewrite Hl', Hc', victory_ids_app.
    unfold count_events. rewrite filter_app, length_app.
    unfold victory_ids at 3. simpl. rewrite Hv.
    destruct (m_isVictory m); simpl; lia.
Qed.

Lemma Stable_checkMilestones (g0 g : Game) :
  Stable cat g0 g -> Stable cat g0 (PS_checkMilestones cat g).
Proof.
  unfold PS_checkMilestones.
  generalize (claimedMilestones (state g)) at 1. generalize (state g) at 1.
  intros s claimed. unfold getNewlyAchievedMilestones.
  assert (Hin : forall m, In m (filter (fun milestone =>
                   if includes claimed (m_id milestone) then false
                   else checkMilestoneCondition cat milestone s) (MILESTONES cat)) ->
                 In m (MILESTONES cat)).
  { intros m Hm. apply filter_In in Hm. tauto. }
  revert Hin g. generalize (filter (fun milestone =>
                   if includes claimed (m_id milestone) then false
                   else checkMilestoneCondition cat milestone s) (MILESTONES cat)).
  intro ms. induction ms as [|m rest IH]; intros Hin g H; simpl; [exact H|].
  apply IH; [intros m' Hm'; apply Hin; now right|].
  apply Stable_claimMilestone; [|exact H].
  apply Hin. now left.
Qed.

Lemma Stable_setSolarCapture (p : Q) (g0 g : Game) :
  Stable cat g0 g -> Stable cat g0 (SM_setSolarCapture cat p g).
Proof.
  intro H. unfold SM_setSolarCapture.
  assert (H1 : Stable cat g0 (upd_state (set_solarCapture (JS.min 1 (JS.max 0 p))) g)).
  { apply (Stable_quiet (upd_state (set_solarCapture (JS.min 1 (JS.max 0 p)))));
      [|exact H].
    intro g1. apply Quiet_upd_state; [reflexivity|reflexivity|apply Quiet_refl]. }
  destruct (negb _); [|exact H1].
  unfold emit_solar_capture. apply Stable_checkMilestones.
  now apply Stable_emit.
Qed.

Lemma Stable_recalculateProduction (g0 g : Game) :
  Stable cat g0 g -> Stable cat g0 (RS_recalculateProduction cat g).
Proof.
  intro H. unfold RS_recalculateProduction. cbv zeta.
  apply Stable_emit; [reflexivity|].
  match goal with |- Stable _ _ (set_logistics ?l ?x) =>
    apply (Stable_quiet (set_logistics l)) end.
  { intro g1. apply Quiet_set_logistics, Quiet_refl. }
  apply Stable_setSolarCapture.
  match goal with |- Stable _ _ (upd_state ?f ?x) =>
    apply (Stable_quiet (upd_state f)) end.
  { intro g1. apply Quiet_upd_state; [reflexivity|reflexivity|apply Quiet_refl]. }
  match goal with |- Stable _ _ (set_modifiers ?m ?x) =>
    apply (Stable_quiet (set_modifiers m)) end.
  { intro g1. apply Quiet_set_modifiers, Quiet_refl. }
  exact H.
Qed.

(** A quiet operation, given as [Quiet] in continuation form, is stable. *)
Lemma Stable_lift (g0 g g' : Game) :
  (forall g1, Quiet g1 g -> Quiet g1 g') -> Stable cat g0 g -> Stable cat g0 g'.
Proof.
  intros Hq H. apply (Stable_trans g0 g g' H). apply Quiet_Stable, Hq, Quiet_refl.
Qed.

Lemma Stable_emit_research_complete (t : string) (g0 g : Game) :
  Stable cat g0 g -> Stable cat g0 (emit_research_complete cat t g).
Proof.
  intro H. unfold emit_research_complete, before_autoResearch.
  eapply Stable_lift; [intros g1; apply Quiet_tryAutoResearch|].
  apply Stable_checkMilestones, Stable_recalculateProduction.
  now apply Stable_emit.
Qed.

Lemma Stable_SM_completeResearch (t : string) (g0 g : Game) :
  Stable cat g0 g -> Stable cat g0 (SM_completeResearch cat t g).
Proof.
  intro H. unfold SM_completeResearch. destruct (includes _ t); [exact H|].
  apply Stable_emit_research_complete. unfold mark_completed.
  eapply Stable_lift; [|exact H].
  intros g1 Hq. repeat (apply Quiet_upd_state; [reflexivity|reflexivity|]). exact Hq.
Qed.

Lemma Stable_completeResearch (t : string) (g0 g : Game) :
  Stable cat g0 g -> Stable cat g0 (PS_completeResearch cat t g).
Proof.
  intro H. unfold PS_completeResearch. destruct (tech_of cat t) as [tech|]; [|exact H].
  eapply Stable_lift; [intros g1; apply Quiet_unlock_notice|].
  eapply Stable_lift; [intros g1; apply Quiet_grantResearchSlots|].
  unfold PS_completeResearch_record, leave_queue.
  eapply Stable_lift; [intros g1; apply Quiet_syncStateWithQueue|].
  apply Stable_SM_completeResearch.
  eapply Stable_lift; [|exact H].
  intros g1 Hq.
  now apply Quiet_set_ps_researchProgressMap, Quiet_set_ps_researchQueue.
Qed.

Lemma Stable_completeResearch_all (ts : list string) (g0 g : Game) :
  Stable cat g0 g ->
  Stable cat g0 (fold_left (fun g t => PS_completeResearch cat t g) ts g).
Proof.
  revert g. induction ts as [|t rest IH]; intros g H; simpl; [exact H|].
  apply IH. now apply Stable_completeResearch.
Qed.

Lemma Stable_progressAllResearch (deltaTime : Q) (g0 g : Game) :
  Stable cat g0 g -> Stable cat g0 (PS_progressAllResearch cat deltaTime g).
Proof.
  intro H. unfold PS_progressAllResearch.
  destruct (ps_researchQueue g) as [|t rest] eqn:Eq; [exact H|].
  destruct (leb _ 0); [exact H|].
  pose proof (fun g1 => Quiet_accrue_progress cat (t :: rest) (perItemRate g) deltaTime
                          [] g1 g) as Hacc.
  destruct (accrue_progress cat (t :: rest) (perItemRate g) deltaTime [] g)
    as [completed g1]. simpl in Hacc.
  eapply Stable_lift; [intros g2; apply Quiet_syncStateWithQueue|].
  apply Stable_completeResearch_all.
  eapply Stable_lift; [exact Hacc | exact H].
Qed.

Lemma Stable_addStructure (id : string) (n : Z) (g0 g : Game) :
  Stable cat g0 g -> Stable cat g0 (SM_addStructure cat id n g).
Proof.
  intro H. unfold SM_addStructure, emit_structure_built.
  apply Stable_checkMilestones, Stable_recalculateProduction.
  apply Stable_emit; [reflexivity|].
  eapply Stable_lift; [|exact H].
  intros g1 Hq. repeat (apply Quiet_upd_state; [reflexivity|reflexivity|]). exact Hq.
Qed.

Lemma Stable_completeConstruction (item : QueueItem) (g0 g : Game) :
  Stable cat g0 g -> Stable cat g0 (CS_completeConstruction cat item g).
Proof.
  intro H. unfold CS_completeConstruction.
  apply Stable_emit; [reflexivity|]. apply Stable_emit; [reflexivity|].
  apply Stable_addStructure.
  eapply Stable_lift; [intros g1; apply Quiet_removeFromQueue | exact H].
Qed.

Lemma Stable_auto_complete (n : nat) (g0 g : Game) :
  Stable cat g0 g -> Stable cat g0 (auto_complete cat n g).
Proof.
  revert g. induction n as [|n IH]; intros g H; simpl; [exact H|].
  destruct (SM_getQueue g) as [|item rest]; [exact H|].
  destruct (geb _ 1); [|exact H].
  apply IH.
  match goal with |- Stable _ _ (set_autoBuildProgress ?a ?x) =>
    apply (Stable_lift g0 x) end.
  - intros g1 Hq. now apply Quiet_set_autoBuildProgress.
  - now apply Stable_completeConstruction.
Qed.

Lemma Stable_applyAutoConstruction (deltaTime : Q) (g0 g : Game) :
  Stable cat g0 g -> Stable cat g0 (CS_applyAutoConstruction cat deltaTime g).
Proof.
  intro H. unfold CS_applyAutoConstruction.
  destruct (SM_getQueue g); [exact H|]. destruct (leb _ 0); [exact H|].
  apply Stable_auto_complete.
  eapply Stable_lift; [|exact H].
  intros g1 Hq. now apply Quiet_set_autoBuildProgress.
Qed.

Lemma Stable_CS_update (deltaTime : Q) (g0 g : Game) :
  Stable cat g0 g -> Stable cat g0 (CS_update cat deltaTime g).
Proof.
  intro H. rewrite update_is_head_then_auto.
  apply Stable_applyAutoConstruction. unfold advance_head.
  destruct (SM_getQueue g) as [|item rest]; [exact H|]. cbv zeta.
  match goal with |- Stable _ _ (if _ then CS_completeConstruction _ _ ?x else _) =>
    assert (H1 : Stable cat g0 x) end.
  { apply Stable_emit; [reflexivity|].
    eapply Stable_lift; [|exact H].
    intros g1 Hq. apply Quiet_upd_state; [reflexivity|reflexivity|exact Hq]. }
  destruct (geb _ _); [now apply Stable_completeConstruction | exact H1].
Qed.

Lemma Stable_advanceToEra (n : Z) (g0 g : Game) :
  Stable cat g0 g -> Stable cat g0 (PS_advanceToEra n g).
Proof.
  intro H. unfold PS_advanceToEra. destruct (get_era n); [|exact H].
  apply Stable_emit; [reflexivity|]. now apply Stable_setEra.
Qed.

Lemma Stable_checkEraProgression (g0 g : Game) :
  Stable cat g0 g -> Stable cat g0 (PS_checkEraProgression g).
Proof.
  unfold PS_checkEraProgression.
  generalize (currentEra (state g)) at 1. generalize (solarCapture (state g)).
  intros capture current. revert g.
  induction CONFIG.ERAS as [|[n th] rest IH]; intros g H; simpl; [exact H|].
  apply IH. destruct (_ && _); [now apply Stable_advanceToEra | exact H].
Qed.

Lemma Stable_PS_update (deltaTime : Q) (g0 g : Game) :
  Stable cat g0 g -> Stable cat g0 (PS_update cat deltaTime g).
Proof.
  intro H. unfold PS_update.
  eapply Stable_lift; [intros g1; apply Quiet_tryAutoResearch|].
  apply Stable_checkEraProgression.
  destruct (ps_researchQueue g); [exact H | now apply Stable_progressAllResearch].
Qed.

Lemma Stable_tick (deltaTime : Q) (g0 g : Game) :
  Stable cat g0 g -> Stable cat g0 (tick cat deltaTime g).
Proof.
  intro H. unfold tick. apply Stable_PS_update, Stable_CS_update.
  eapply Stable_lift; [intros g1; apply Quiet_update | exact H].
Qed.

Lemma Stable_exec (c : Command) (g0 g : Game) :
  Stable cat g0 g -> Stable cat g0 (exec cat g c).
Proof.
  intro H. destruct c; simpl.
  - eapply Stable_lift; [intros g1; apply Quiet_build | exact H].
  - eapply Stable_lift; [intros g1; apply Quiet_bulkBuild | exact H].
  - eapply Stable_lift; [intros g1; apply Quiet_cancel | exact H].
  - eapply Stable_lift; [intros g1; apply Quiet_startResearch | exact H].
  - eapply Stable_lift; [intros g1; apply Quiet_cancelResearch | exact H].
  - eapply Stable_lift; [intros g1; apply Quiet_setAutoResearch | exact H].
  - now apply Stable_tick.
  - eapply Stable_lift; [intros g1; apply Quiet_calculateOfflineProgress | exact H].
Qed.

Lemma Stable_run (cs : list Command) (g0 g : Game) :
  Stable cat g0 g -> Stable cat g0 (run cat cs g).
Proof.
  unfold run. revert g. induction cs as [|c rest IH]; intros g H; simpl; [exact H|].
  apply IH. now apply Stable_exec.
Qed.

End StableEngine.

(** ** Eras *)

Lemma currentEra_setEra (n : Z) (g : Game) :
  currentEra (state (SM_setEra n g)) = Z.max (currentEra (state g)) n.
Proof.
  unfold SM_setEra. destruct (n >? currentEra (state g))%Z eqn:E; simpl.
  - apply Z.gtb_lt in E. lia.
  - rewrite Z.gtb_ltb in E. apply Z.ltb_ge in E. lia.
Qed.

Lemma currentEra_visit_thresholds (current : Z) (capture : Q) (eras : list (Z * Q)) :
  (forall n th, In (n, th) eras -> get_era n <> None) ->
  forall g,
  currentEra (state
    (fold_left (fun g (entry : Z * Q) =>
                  let (eraNum, threshold) := entry in
                  if (eraNum >? current)%Z && geb capture threshold
                  then PS_advanceToEra eraNum g else g)
               eras g)) =
  fold_left (era_step current capture) eras (currentEra (state g)).
Proof.
  induction eras as [|[n th] rest IH]; intros Hknown g; simpl; [reflexivity|].
  rewrite IH by (intros n' th' H; apply (Hknown n' th'); now right).
  f_equal. unfold era_step. simpl.
  destruct ((n >? current)%Z && geb capture th); [|reflexivity].
  unfold PS_advanceToEra.
  destruct (get_era n) eqn:E; [|exfalso; apply (Hknown n th); [now left | exact E]].
  simpl. apply currentEra_setEra.
Qed.

Lemma currentEra_checkEraProgression (g : Game) :
  currentEra (state (PS_checkEraProgression g)) =
  fold_left (era_step (currentEra (state g)) (solarCapture (state g)))
            CONFIG.ERAS (currentEra (state g)).
Proof.
  unfold PS_checkEraProgression. apply currentEra_visit_thresholds.
  intros n th H. simpl in H.
  repeat (destruct H as [H | H]; [injection H as <- <-; discriminate|]).
  destruct H.
Qed.

Section EraFold.

Variables (current : Z) (capture : Q).

Lemma era_fold_ge (eras : list (Z * Q)) (e : Z) :
  (e <= fold_left (era_step current capture) eras e)%Z.
Proof.
  revert e. induction eras as [|entry rest IH]; intro e; simpl; [lia|].
  specialize (IH (era_step current capture e entry)).
  unfold era_step in *. destruct (_ && _); lia.
Qed.

Lemma era_fold_reaches (eras : list (Z * Q)) (e n : Z) (th : Q) :
  (current <= e)%Z -> In (n, th) eras -> th <= capture ->
  (n <= fold_left (era_step current capture) eras e)%Z.
Proof.
  revert e. induction eras as [|entry rest IH]; intros e He Hin Hth; simpl; [destruct Hin|].
  destruct Hin as [-> | Hin].
  - pose proof (era_fold_ge rest (era_step current capture e (n, th))) as Hge.
    unfold era_step in *. simpl in *.
    apply geb_true in Hth. rewrite Hth, andb_true_r in *.
    destruct (n >? current)%Z eqn:E; [lia|].
    rewrite Z.gtb_ltb in E. apply Z.ltb_ge in E. lia.
  - apply IH; [|assumption|assumption].
    unfold era_step. destruct (_ && _); lia.
Qed.

Lemma era_fold_qualifies (eras : list (Z * Q)) (e : Z) :
  let e' := fold_left (era_step current capture) eras e in
  e' = e \/ exists th, In (e', th) eras /\ th <= capture.
Proof.
  revert e. induction eras as [|[n th] rest IH]; intro e; simpl; [now left|].
  destruct (IH (era_step current capture e (n, th))) as [Heq | (th' & Hin & Hth)].
  - rewrite Heq. unfold era_step. simpl.
    destruct (n >? current)%Z; simpl; [|now left].
    destruct (geb capture th) eqn:E; [|now left].
    apply geb_true in E.
    destruct (Z.max_spec e n) as [[_ ->] | [_ ->]]; [right; exists th; auto | now left].
  - right. exists th'. auto.
Qed.

End EraFold.

(** C7: the era never goes down.  [setEra] moves it to the larger of the
    two eras; no sequence of commands lowers it; recomputing production and
    solar capture, whatever the new capture, leaves it alone; and one
    evaluation of the thresholds leaves it at the highest qualifying era
    (or where it was, if that is higher). *)
Theorem C7_era_never_decreases (cat : Catalog) :
  (forall n g, currentEra (state (SM_setEra n g)) = Z.max (currentEra (state g)) n) /\
  (forall cs g, (currentEra (state g) <= currentEra (state (run cat cs g)))%Z) /\
  (forall p g, currentEra (state (SM_setSolarCapture cat p g)) = currentEra (state g)) /\
  (forall g,
     let g' := PS_checkEraProgression g in
     (currentEra (state g) <= currentEra (state g'))%Z /\
     (forall n, qualifies (solarCapture (state g)) n -> (n <= currentEra (state g'))%Z) /\
     (currentEra (state g') = currentEra (state g) \/
      qualifies (solarCapture (state g)) (currentEra (state g')))).
Proof.
  split; [exact currentEra_setEra|]. split; [|split].
  - intros cs g. apply (st_era _ _ _ (Stable_run cat cs g g (Stable_refl cat g))).
  - intros p g.
    apply (cf_currentEra _ _ (CoreFrame_setSolarCapture cat g g p (CoreFrame_refl g))).
  - intros g g'. unfold g'. rewrite currentEra_checkEraProgression. split; [|split].
    + apply era_fold_ge.
    + intros n (th & Hin & Hth). apply (era_fold_reaches _ _ _ _ n th); [lia | exact Hin | exact Hth].
    + apply era_fold_qualifies.
Qed.

(** ** Milestones *)

Lemma claimMilestone_claimed (m : Milestone) (g : Game) :
  SM_isMilestoneClaimed (m_id m) g = true -> PS_claimMilestone m g = g.
Proof.
  unfold SM_isMilestoneClaimed, PS_claimMilestone, SM_claimMilestone.
  intro H. rewrite H. reflexivity.
Qed.

Lemma victory_ids_none (c : Catalog) (l : list string) :
  (forall id, In id l -> is_victory_id c id = false) -> victory_ids c l = O.
Proof.
  unfold victory_ids. induction l as [|x t IH]; intro H; simpl; [reflexivity|].
  rewrite (H x) by now left. apply IH. intros id Hid. apply H. now right.
Qed.

Lemma occurrences_In (id : string) (l : list string) :
  NoDup l -> In id l -> occurrences id l = 1%nat.
Proof.
  unfold occurrences. induction 1 as [|x t Hx Hnd IH]; intros Hin; [destruct Hin|].
  simpl. destruct Hin as [-> | Hin].
  - rewrite String.eqb_refl. simpl. f_equal.
    apply (occurrences_absent id t).
    apply not_true_is_false. intro Hc. apply includes_In in Hc. contradiction.
  - destruct (String.eqb id x) eqn:E; [|now apply IH].
    apply String.eqb_eq in E. subst x. contradiction.
Qed.

Lemma NoDup_app_disjoint (l1 l2 : list string) (x : string) :
  NoDup (l1 ++ l2) -> In x l1 -> In x l2 -> False.
Proof.
  induction l1 as [|y t IH]; simpl; intros Hnd H1 H2; [destruct H1|].
  inversion Hnd as [|? ? Hnotin Hnd']; subst. destruct H1 as [-> | H1].
  - apply Hnotin. apply in_or_app. now right.
  - now apply IH.
Qed.

(** C6: a milestone is claimed at most once.  Claiming a claimed milestone
    changes nothing (no reward, no event); an evaluation only ever selects
    unclaimed milestones; along any sequence of commands a claimed milestone
    stays claimed and its claim is never recorded again; and the victory
    event is emitted once for each victory milestone at the moment it is
    claimed, never again once the victory milestones are claimed. *)
Theorem C6_milestone_claimed_once (cat : Catalog) :
  NoDup (map m_id (MILESTONES cat)) ->
  (forall m g, SM_isMilestoneClaimed (m_id m) g = true -> PS_claimMilestone m g = g) /\
  (forall g m,
     In m (getNewlyAchievedMilestones cat (state g) (claimedMilestones (state g))) ->
     SM_isMilestoneClaimed (m_id m) g = false) /\
  (forall cs g, NoDup (claimedMilestones (state g)) ->
     let g' := run cat cs g in
     NoDup (claimedMilestones (state g')) /\
     (forall id, In id (claimedMilestones (state g)) ->
        In id (claimedMilestones (state g')) /\ claims_of id g' = claims_of id g) /\
     (victories g' + victory_ids cat (claimedMilestones (state g)) =
      victories g + victory_ids cat (claimedMilestones (state g')))%nat /\
     ((forall id, is_victory_id cat id = true -> In id (claimedMilestones (state g))) ->
      victories g' = victories g)).
Proof.
  intro Hd. split; [exact claimMilestone_claimed|]. split.
  - intros g m Hin. unfold getNewlyAchievedMilestones in Hin.
    apply filter_In in Hin. destruct Hin as [_ Hc]. unfold SM_isMilestoneClaimed.
    destruct (includes _ _); [discriminate | reflexivity].
  - intros cs g Hnd g'.
    destruct (Stable_run cat cs g g (Stable_refl cat g)) as [_ [new Hnew] Hnd' Hclaims Hvict].
    fold g' in Hnew, Hnd', Hclaims, Hvict.
    specialize (Hnd' Hnd). specialize (Hvict Hd).
    split; [exact Hnd'|]. split; [|split; [exact Hvict|]].
    + intros id Hin.
      assert (Hin' : In id (claimedMilestones (state g')))
        by (rewrite Hnew; apply in_or_app; now left).
      split; [exact Hin'|].
      specialize (Hclaims id).
      rewrite (occurrences_In id _ Hnd Hin), (occurrences_In id _ Hnd' Hin') in Hclaims.
      lia.
    + intro Hall. rewrite Hnew, victory_ids_app in Hvict.
      rewrite (victory_ids_none cat new) in Hvict; [lia|].
      intros id Hid. apply not_true_is_false. intro Hv.
      rewrite Hnew in Hnd'.
      apply (NoDup_app_disjoint _ _ id Hnd'); [now apply Hall | exact Hid].
Qed.

(** From era 1 with 5% solar capture, one evaluation goes straight to era 3. *)
Lemma C7_era_never_decreases_witness :
  currentEra (state (PS_checkEraProgression leap)) = 3%Z /\
  (1 <= currentEra (state (run catalog [advance 1; setAutoResearch true] leap)))%Z.
Proof.
  destruct (C7_era_never_decreases catalog) as (_ & Hrun & _ & Hcheck).
  split.
  - destruct (Hcheck leap) as (_ & Hreach & Hwhich).
    assert (H3 : (3 <= currentEra (state (PS_checkEraProgression leap)))%Z).
    { apply Hreach. exists (1 # 100). split; [simpl; auto | vm_compute; discriminate]. }
    destruct Hwhich as [Heq | (th & Hin & Hth)].
    + rewrite Heq in H3. vm_compute in H3. exfalso. now apply H3.
    + unfold CONFIG.ERAS in Hin. cbn [In] in Hin.
      destruct Hin as [Hin | [Hin | [Hin | [Hin | []]]]];
        apply pair_equal_spec in Hin; destruct Hin as [Hn Ht]; try lia.
      subst th. exfalso. vm_compute in Hth. now apply Hth.
  - apply (Hrun [advance 1; setAutoResearch true] leap).
Defined.

(** The milestones of the game's catalog have distinct identifiers, and
    [capture_100] is the only victory among them. *)
Lemma catalog_milestones_distinct : NoDup (map m_id (MILESTONES catalog)).
Proof. apply distinct_NoDup. vm_compute. reflexivity. Qed.

Lemma catalog_victory_id (id : string) :
  is_victory_id catalog id = true -> id = "capture_100".
Proof.
  unfold is_victory_id. intro H. apply existsb_exists in H.
  destruct H as (m & Hin & Hm). apply andb_true_iff in Hm. destruct Hm as [Hid Hv].
  apply String.eqb_eq in Hid. subst id. simpl in Hin.
  repeat (destruct Hin as [Hin | Hin]; [subst m; simpl in Hv |- *; congruence|]).
  destruct Hin.
Qed.

(** With the swarm complete, victory has been announced once, and further
    play does not announce it again. *)
Lemma C6_milestone_claimed_once_witness :
  victories swarm = 1%nat /\
  victories (run catalog [advance 1; requestBuild "solar_collector" None; advance 5] swarm)
  = 1%nat /\
  claims_of "capture_100"
    (run catalog [advance 1; requestBuild "solar_collector" None; advance 5] swarm)
  = 1%nat.
Proof.
  destruct (C6_milestone_claimed_once catalog catalog_milestones_distinct)
    as (_ & _ & Hrun).
  assert (Hnd : NoDup (claimedMilestones (state swarm)))
    by (apply distinct_NoDup; vm_compute; reflexivity).
  destruct (Hrun [advance 1; requestBuild "solar_collector" None; advance 5] swarm Hnd)
    as (_ & Hclaimed & _ & Hvict).
  split; [vm_compute; reflexivity|]. split.
  - rewrite Hvict; [vm_compute; reflexivity|].
    intros id Hid. apply catalog_victory_id in Hid. subst id.
    apply (proj1 (includes_In (claimedMilestones (state swarm)) "capture_100")).
    vm_compute. reflexivity.
  - destruct (Hclaimed "capture_100") as [_ ->]; [|vm_compute; reflexivity].
    apply (proj1 (includes_In (claimedMilestones (state swarm)) "capture_100")).
    vm_compute. reflexivity.
Defined.

(** ** Research slots *)

Section Slots.

Variable cat : Catalog.

Abbreviation slots g := (maxResearchSlots (state g)).

Lemma slots_startResearch (t : string) (g : Game) :
  slots (snd (PS_startResearch cat t g)) = slots g.
Proof.
  unfold PS_startResearch. destruct (tech_of cat t); [|reflexivity].
  destruct (SM_isResearched t g); [reflexivity|].
  destruct (includes _ t); [reflexivity|].
  destruct (negb _); [reflexivity|].
  destruct (_ >=? _)%Z; reflexivity.
Qed.

Lemma slots_tryAutoResearch (g : Game) : slots (PS_tryAutoResearch cat g) = slots g.
Proof.
  unfold PS_tryAutoResearch. destruct (negb _); [reflexivity|].
  destruct (_ >=? _)%Z; [reflexivity|].
  destruct (filter _ _); [reflexivity | apply slots_startResearch].
Qed.

Lemma CoreFrame_before_autoResearch (t : string) (g : Game) :
  CoreFrame g (before_autoResearch cat t g).
Proof.
  unfold before_autoResearch.
  apply CoreFrame_checkMilestones, CoreFrame_recalculateProduction, CoreFrame_emit.
  apply CoreFrame_refl.
Qed.

Lemma slots_SM_completeResearch (t : string) (g : Game) :
  slots (SM_completeResearch cat t g) = slots g.
Proof.
  unfold SM_completeResearch. destruct (includes _ t); [reflexivity|].
  unfold emit_research_complete. rewrite slots_tryAutoResearch.
  now rewrite (cf_maxResearchSlots _ _ (CoreFrame_before_autoResearch t _)).
Qed.

Lemma slots_completeResearch_record (t : string) (g : Game) :
  slots (PS_completeResearch_record cat t g) = slots g.
Proof.
  unfold PS_completeResearch_record.
  change (slots (PS_syncStateWithQueue ?x)) with (slots x).
  now rewrite slots_SM_completeResearch.
Qed.

Lemma slots_addResearchSlot (g : Game) :
  (1 <= slots g)%Z -> slots (PS_addResearchSlot g) = (slots g + 1)%Z.
Proof.
  intro H. unfold PS_addResearchSlot. rewrite orZ_Some_pos by lia. reflexivity.
Qed.

Lemma slots_grantResearchSlots (tech : Tech) (e : Effects) (g : Game) :
  t_effects tech = Some e -> (1 <= slots g)%Z ->
  slots (PS_grantResearchSlots tech g) = (slots g + Z.of_nat (researchSlots e))%Z.
Proof.
  intros He H. unfold PS_grantResearchSlots. rewrite He.
  induction (researchSlots e) as [|n IH]; [simpl; lia|].
  rewrite Nat2Z.inj_succ.
  change (Nat.iter (S n) PS_addResearchSlot g)
    with (PS_addResearchSlot (Nat.iter n PS_addResearchSlot g)).
  rewrite slots_addResearchSlot; lia.
Qed.

Lemma slots_unlock_notice (tech : Tech) (g : Game) : slots (unlock_notice tech g) = slots g.
Proof.
  unfold unlock_notice. destruct (t_unlocks tech); [reflexivity|].
  destruct (filter _ _); reflexivity.
Qed.

Lemma slots_accrue_progress (queue : list string) (rate deltaTime : Q) :
  forall completed g,
  slots (snd (accrue_progress cat queue rate deltaTime completed g)) = slots g.
Proof.
  induction queue as [|t rest IH]; intros completed g; simpl; [reflexivity|].
  destruct (tech_of cat t); [|apply IH].
  destruct (geb _ _); now rewrite IH.
Qed.

Lemma slots_checkEraProgression (g : Game) : slots (PS_checkEraProgression g) = slots g.
Proof.
  unfold PS_checkEraProgression.
  generalize (currentEra (state g)). generalize (solarCapture (state g)).
  intros capture current. revert g.
  induction CONFIG.ERAS as [|[n th] rest IH]; intro g; simpl; [reflexivity|].
  rewrite IH. destruct (_ && _); [|reflexivity].
  unfold PS_advanceToEra. destruct (get_era n); [|reflexivity].
  unfold SM_setEra. destruct (_ >? _)%Z; reflexivity.
Qed.

(** The slot test of [startResearch], once its other tests are passed. *)
Lemma startResearch_slot_test : forall (t : string) (g : Game),
  tech_of cat t <> None -> SM_isResearched t g = false ->
  includes (ps_researchQueue g) t = false -> SM_canResearch cat t g = true ->
  (1 <= slots g)%Z ->
  fst (PS_startResearch cat t g) = (Z.of_nat (List.length (ps_researchQueue g)) <? slots g)%Z.
Proof.
  intros t g Ht Hr Hq Hc Hs. unfold PS_startResearch.
  destruct (tech_of cat t); [|congruence].
  rewrite Hr, Hq, Hc. simpl negb. cbv iota. rewrite orZ_Some_pos by lia.
  rewrite Z.geb_leb, Z.ltb_antisym.
  destruct (_ <=? _)%Z; reflexivity.
Qed.

End Slots.

(** C2, as the code has it.  Completing a technology whose effects grant
    [N] research slots raises [maxResearchSlots] (at least 1 beforehand) by
    exactly [N]; starting research and accruing progress never change it.
    The increase comes after the [research:complete] event has been
    delivered: the auto-research attempt of that event's subscriber still
    runs with the old number of slots.  Every [startResearch] after
    [completeResearch] has returned is tested against the new number, and
    the era check that precedes the auto-research attempt at the end of the
    same tick keeps it. *)
Theorem C2_research_slots (cat : Catalog) (techId : string) (tech : Tech) (e : Effects)
        (g : Game) :
  tech_of cat techId = Some tech ->
  t_effects tech = Some e ->
  (1 <= maxResearchSlots (state g))%Z ->
  let N := Z.of_nat (researchSlots e) in
  let attempt :=
    before_autoResearch cat techId (mark_completed techId (leave_queue techId g)) in
  let g' := PS_completeResearch cat techId g in
  maxResearchSlots (state g') = (maxResearchSlots (state g) + N)%Z /\
  (forall t,
     maxResearchSlots (state (snd (PS_startResearch cat t g))) =
     maxResearchSlots (state g)) /\
  (forall queue rate deltaTime completed,
     maxResearchSlots (state (snd (accrue_progress cat queue rate deltaTime completed g))) =
     maxResearchSlots (state g)) /\
  (SM_isResearched techId g = false ->
     PS_completeResearch_record cat techId g =
       PS_syncStateWithQueue (PS_tryAutoResearch cat attempt) /\
     maxResearchSlots (state attempt) = maxResearchSlots (state g)) /\
  (forall t,
     tech_of cat t <> None -> SM_isResearched t g' = false ->
     includes (ps_researchQueue g') t = false -> SM_canResearch cat t g' = true ->
     fst (PS_startResearch cat t g') =
     (Z.of_nat (List.length (ps_researchQueue g')) <? maxResearchSlots (state g) + N)%Z) /\
  (forall g1,
     maxResearchSlots (state (PS_checkEraProgression g1)) = maxResearchSlots (state g1)).
Proof.
  intros Htech He Hs N attempt g'.
  assert (Hslots : maxResearchSlots (state g') = (maxResearchSlots (state g) + N)%Z).
  { unfold g', PS_completeResearch. rewrite Htech. rewrite slots_unlock_notice.
    rewrite (slots_grantResearchSlots tech e _ He);
      rewrite slots_completeResearch_record; [reflexivity | exact Hs]. }
  split; [exact Hslots|].
  split; [intro t; apply slots_startResearch|].
  split; [intros; apply slots_accrue_progress|].
  split; [|split].
  - intro Hnew. split.
    + unfold PS_completeResearch_record, SM_completeResearch.
      change (includes (completedResearch (state (leave_queue techId g))) techId)
        with (SM_isResearched techId g).
      rewrite Hnew. reflexivity.
    + unfold attempt.
      now rewrite (cf_maxResearchSlots _ _ (CoreFrame_before_autoResearch cat techId _)).
  - intros t Ht Hr Hq Hc. rewrite <- Hslots.
    apply startResearch_slot_test; try assumption.
    rewrite Hslots. lia.
  - apply slots_checkEraProgression.
Qed.

(** [parallel_research] completes while auto-research is on: the slot count
    goes from 1 to 2, and a technology started afterwards gets the new slot. *)
Lemma C2_research_slots_witness :
  maxResearchSlots (state (PS_completeResearch catalog "parallel_research"
                                               researching_parallel)) = 2%Z /\
  fst (PS_startResearch catalog "life_support"
         (PS_completeResearch catalog "parallel_research" researching_parallel)) = true.
Proof.
  destruct (C2_research_slots catalog "parallel_research"
              (tech "parallel_research" 2 450 false ["research_slot"]
                    ["orbital_mechanics"; "material_science"] (effects 1 []))
              {| energyGeneration := 0; energyProduction := 0; solarEfficiency := 0;
                 materialProduction := 0; researchEfficiency := 0;
                 productionMultiplier := 0; buildSpeed := 0; constructionEfficiency := 0;
                 dysonEfficiency := 0; researchSlots := 1 |}
              researching_parallel eq_refl eq_refl)
    as (Hslots & _ & _ & _ & Hnext & _).
  - vm_compute. discriminate.
  - split.
    + rewrite Hslots. vm_compute. reflexivity.
    + rewrite Hnext; [vm_compute; reflexivity | vm_compute; discriminate
                      | vm_compute; reflexivity ..].
Defined.

(** C2 as stated fails for the attempt made by the completion itself: when
    [parallel_research] (one slot) completes, the subscriber's auto-research
    attempt runs with 1 slot, not 2, and its [research:start] is emitted
    before the capacity notice. *)
Lemma C2_subscriber_attempt_counterexample :
  let g := researching_parallel in
  let attempt :=
    before_autoResearch catalog "parallel_research"
      (mark_completed "parallel_research" (leave_queue "parallel_research" g)) in
  PS_completeResearch_record catalog "parallel_research" g =
    PS_syncStateWithQueue (PS_tryAutoResearch catalog attempt) /\
  maxResearchSlots (state g) = 1%Z /\
  ~ (maxResearchSlots (state attempt) = (maxResearchSlots (state g) + 1)%Z) /\
  firstn 3 (events (PS_completeResearch catalog "parallel_research" g)) =
    [notification (TechCompleteDescription "parallel_research");
     notification (ResearchCapacityIncreased 2);
     research_start "solar_panels"].
Proof.
  vm_compute. split; [reflexivity|]. split; [reflexivity|].
  split; [discriminate | reflexivity].
Qed.

(** ** Research progress *)



Lemma filter_twice {A} (f h : A -> bool) (l : list A) :
  filter f (filter h l) = filter (fun x => h x && f x) l.
Proof.
  induction l as [|x t IH]; simpl; [reflexivity|].
  destruct (h x); simpl; [destruct (f x); now rewrite IH | exact IH].
Qed.

Lemma remove_first_filter (x : string) (l : list string) :
  NoDup l -> remove_first x l = filter (fun y => negb (String.eqb x y)) l.
Proof.
  induction 1 as [|z t Hz Hnd IH]; simpl; [reflexivity|].
  destruct (String.eqb x z) eqn:E; simpl; [|now rewrite IH].
  apply String.eqb_eq in E. subst z.
  symmetry. apply forallb_filter_id. apply forallb_forall. intros y Hy.
  destruct (String.eqb x y) eqn:E; [|reflexivity].
  apply String.eqb_eq in E. subst y. contradiction.
Qed.

Section Research.

Variable cat : Catalog.

(** The accrual loop: every queued technology gains [rate * deltaTime]; the
    finished ones are collected in queue order. *)
Lemma accrue_progress_spec (rate deltaTime : Q) (queue : list string) :
  NoDup queue -> (forall t, In t queue -> tech_of cat t <> None) ->
  forall completed g,
  let r := accrue_progress cat queue rate deltaTime completed g in
  (forall t, In t queue -> progress_of t (snd r) == progress_of t g + rate * deltaTime) /\
  (forall t, ~ In t queue ->
     get (ps_researchProgressMap (snd r)) t = get (ps_researchProgressMap g) t) /\
  fst r = completed ++
          filter (fun t => geb (progress_of t g + rate * deltaTime) (cost_of cat t)) queue /\
  ps_researchQueue (snd r) = ps_researchQueue g /\
  state (snd r) = state g.
Proof.
  induction 1 as [|t rest Ht Hnd IH]; intros Hknown completed g; simpl.
  - repeat split; try reflexivity; try (intros t []). now rewrite app_nil_r.
  - unfold cost_of at 1.
    destruct (tech_of cat t) as [tech|] eqn:Etech;
      [|exfalso; apply (Hknown t); [now left | exact Etech]].
    fold (progress_of t g).
    set (p := progress_of t g + rate * deltaTime).
    set (g1 := set_ps_researchProgressMap (set t p (ps_researchProgressMap g)) g).
    assert (Hother : forall t', t <> t' -> progress_of t' g1 = progress_of t' g).
    { intros t' Hne. unfold progress_of, g1. simpl. now rewrite get_set_other. }
    assert (Hrest : forall g2 completed2,
              ps_researchProgressMap g2 = ps_researchProgressMap g1 ->
              ps_researchQueue g2 = ps_researchQueue g -> state g2 = state g ->
              let r := accrue_progress cat rest rate deltaTime completed2 g2 in
              (forall t0, t = t0 \/ In t0 rest ->
                 progress_of t0 (snd r) == progress_of t0 g + rate * deltaTime) /\
              (forall t0, ~ (t = t0 \/ In t0 rest) ->
                 get (ps_researchProgressMap (snd r)) t0 = get (ps_researchProgressMap g) t0) /\
              fst r = completed2 ++
                filter (fun t0 => geb (progress_of t0 g + rate * deltaTime) (cost_of cat t0))
                       rest /\
              ps_researchQueue (snd r) = ps_researchQueue g /\
              state (snd r) = state g).
    { intros g2 completed2 Hmap Hqueue Hstate.
      destruct (IH (fun t' H' => Hknown t' (or_intror H')) completed2 g2)
        as (Hin & Hout & Hfst & Hq & Hs).
      assert (Hsame : forall t', progress_of t' g2 = progress_of t' g1)
        by (intro t'; unfold progress_of; now rewrite Hmap).
      cbv zeta. split; [|split; [|split; [|split]]].
      - intros t0 [<- | Hin0].
        + unfold progress_of at 1. rewrite (Hout t Ht), Hmap. unfold g1. simpl.
          rewrite get_set_same. apply orQ_Some_0.
        + rewrite (Hin t0 Hin0), Hsame, Hother; [reflexivity|].
          intro Heq. subst t0. contradiction.
      - intros t0 Hnot. rewrite Hout by tauto. rewrite Hmap. unfold g1. simpl.
        apply get_set_other. tauto.
      - rewrite Hfst. f_equal. apply filter_ext_in. intros t0 Hin0.
        rewrite Hsame, Hother; [reflexivity|]. intro Heq. subst t0. contradiction.
      - now rewrite Hq.
      - now rewrite Hs. }
    destruct (geb p (t_cost tech)) eqn:Ege.
    + destruct (Hrest g1 (completed ++ [t]) eq_refl eq_refl eq_refl)
        as (H1 & H2 & H3 & H4 & H5).
      repeat split; try assumption. rewrite H3, <- app_assoc. reflexivity.
    + destruct (Hrest (SM_emit (research_progress t p (t_cost tech)) g1) completed
                      eq_refl eq_refl eq_refl) as (H1 & H2 & H3 & H4 & H5).
      repeat split; assumption.
Qed.

(** *** What a completion does to the other queued technologies *)











(** *** With auto-research off, a completion only shortens the queue *)



End Research.



Lemma progressAllResearch_steps (cat : Catalog) (deltaTime : Q) (g : Game) :
  ps_researchQueue g <> [] -> 0 < research (production (state g)) ->
  PS_progressAllResearch cat deltaTime g =
  PS_syncStateWithQueue
    (fold_left (fun g t => PS_completeResearch cat t g)
       (fst (accrue_progress cat (ps_researchQueue g) (perItemRate g) deltaTime [] g))
       (snd (accrue_progress cat (ps_researchQueue g) (perItemRate g) deltaTime [] g))).
Proof.
  intros Hne Hrate. unfold PS_progressAllResearch.
  destruct (ps_researchQueue g) as [|t0 rest] eqn:Eq; [congruence|].
  apply leb_false in Hrate. rewrite Hrate.
  destruct (accrue_progress cat (t0 :: rest) (perItemRate g) deltaTime [] g).
  reflexivity.
Qed.



(** ** The research queue stays well formed *)

Lemma ResearchFrame_refl (g : Game) : ResearchFrame g g.
Proof. constructor; reflexivity. Qed.

Lemma ResearchFrame_trans (g1 g2 g3 : Game) :
  ResearchFrame g1 g2 -> ResearchFrame g2 g3 -> ResearchFrame g1 g3.
Proof. intros [] []. constructor; congruence. Qed.

Lemma ResearchFrame_CoreFrame (g0 g g' : Game) :
  CoreFrame g g' -> ResearchFrame g0 g -> ResearchFrame g0 g'.
Proof. intros [] []. constructor; congruence. Qed.

(** Any step that keeps the three fields. *)
Lemma ResearchFrame_step (g0 g g' : Game) :
  ps_researchQueue g' = ps_researchQueue g ->
  maxResearchSlots (state g') = maxResearchSlots (state g) ->
  completedResearch (state g') = completedResearch (state g) ->
  ResearchFrame g0 g -> ResearchFrame g0 g'.
Proof. intros Hq Hs Hc []. constructor; congruence. Qed.

Ltac same_research_step :=
  match goal with
  | |- ResearchFrame _ (?f ?g) =>
      apply (ResearchFrame_step _ g); [reflexivity | reflexivity | reflexivity |]
  end.

Ltac same_research := repeat same_research_step; try assumption.

Lemma ResearchFrame_spend (costs : Obj Q) (g0 g : Game) :
  ResearchFrame g0 g -> ResearchFrame g0 (snd (RS_spend costs g)).
Proof.
  revert g. induction costs as [|[k a] rest IH]; intros g H; simpl; [exact H|].
  assert (H1 : ResearchFrame g0 (snd (SM_spendResource k a g))).
  { unfold SM_spendResource. destruct (ltb _ _); simpl; [exact H | same_research]. }
  destruct (SM_spendResource k a g) as [ok g1]. simpl in H1.
  destruct ok; simpl; auto.
Qed.

Lemma ResearchFrame_refunds (m : Q) (cost : Obj Q) (g0 g : Game) :
  ResearchFrame g0 g -> ResearchFrame g0 (fold_left (refund m) cost g).
Proof.
  revert g. induction cost as [|[k a] rest IH]; intros g H; simpl; [exact H|].
  apply IH. same_research.
Qed.

Lemma ResearchFrame_apply_gains (l : Obj Q) (g0 g : Game) :
  ResearchFrame g0 g -> ResearchFrame g0 (fold_left apply_gain l g).
Proof.
  revert g. induction l as [|[k a] rest IH]; intros g H; simpl; [exact H|].
  apply IH. destruct (gtb a 0); [same_research | exact H].
Qed.

Lemma ResearchFrame_removeFromQueue (i : nat) (g0 g : Game) :
  ResearchFrame g0 g -> ResearchFrame g0 (SM_removeFromQueue i g).
Proof.
  intro H. unfold SM_removeFromQueue. destruct (nth_error _ _); same_research.
Qed.

Lemma ResearchFrame_update (deltaTime : Q) (g0 g : Game) :
  ResearchFrame g0 g -> ResearchFrame g0 (RS_update deltaTime g).
Proof.
  intro H. unfold RS_update, add_generated.
  repeat match goal with |- context [if ?c then _ else _] => destruct c end;
    same_research.
Qed.

Lemma ResearchFrame_calculateOfflineProgress (now : Z) (g0 g : Game) :
  ResearchFrame g0 g -> ResearchFrame g0 (snd (IA_calculateOfflineProgress now g)).
Proof.
  intro H.
  destruct (calculateOfflineProgress_cases now g) as [-> | (report & gains1 & ->)].
  - same_research.
  - same_research. now apply ResearchFrame_apply_gains.
Qed.

Lemma ResearchFrame_checkEraProgression (g0 g : Game) :
  ResearchFrame g0 g -> ResearchFrame g0 (PS_checkEraProgression g).
Proof.
  unfold PS_checkEraProgression.
  generalize (currentEra (state g)). generalize (solarCapture (state g)).
  intros capture current. revert g.
  induction CONFIG.ERAS as [|[n th] rest IH]; intros g H; simpl; [exact H|].
  apply IH. destruct (_ && _); [|exact H].
  unfold PS_advanceToEra. destruct (get_era n); [|exact H].
  unfold SM_setEra. destruct (_ >? _)%Z; same_research.
Qed.

Lemma ResearchFrame_unlock_notice (tech : Tech) (g0 g : Game) :
  ResearchFrame g0 g -> ResearchFrame g0 (unlock_notice tech g).
Proof.
  intro H. unfold unlock_notice. destruct (t_unlocks tech); [exact H|].
  destruct (filter _ _); same_research.
Qed.

Section WellFormedEngine.

Variable cat : Catalog.

Lemma ResearchFrame_accrue_progress (queue : list string) (rate deltaTime : Q) :
  forall completed g0 g,
  ResearchFrame g0 g ->
  ResearchFrame g0 (snd (accrue_progress cat queue rate deltaTime completed g)).
Proof.
  induction queue as [|t rest IH]; intros completed g0 g H; simpl; [exact H|].
  destruct (tech_of cat t); [|now apply IH].
  destruct (geb _ _); apply IH; same_research.
Qed.

Lemma ResearchFrame_build (id : string) (p : option string) (g0 g : Game) :
  ResearchFrame g0 g -> ResearchFrame g0 (snd (CS_build cat id p g)).
Proof.
  intro H. unfold CS_build.
  destruct (structure_of cat id); [|exact H].
  destruct (negb (CS_isTechUnlocked _ _)); [exact H|].
  destruct (match s_limit s with Some _ => _ | None => _ end); [exact H|].
  destruct (negb (RS_canAfford _ _)); [exact H|].
  destruct (_ >=? _)%Z; [exact H|]. simpl.
  same_research. now apply ResearchFrame_spend.
Qed.

Lemma ResearchFrame_bulkBuild (id : string) (n : nat) (g0 g : Game) :
  ResearchFrame g0 g -> ResearchFrame g0 (snd (CS_bulkBuild cat id n g)).
Proof.
  revert g. induction n as [|n IH]; intros g H; simpl; [exact H|].
  pose proof (ResearchFrame_build id None g0 g H) as H1.
  destruct (CS_build cat id None g) as [r g1]. simpl in H1.
  destruct (success r); [|exact H1].
  specialize (IH g1 H1). destruct (CS_bulkBuild cat id n g1). exact IH.
Qed.

Lemma ResearchFrame_cancel (index : Z) (g0 g : Game) :
  ResearchFrame g0 g -> ResearchFrame g0 (snd (CS_cancel cat index g)).
Proof.
  intro H. unfold CS_cancel. destruct (_ || _); [exact H|].
  destruct (nth_error _ _); [|exact H].
  destruct (structure_of cat _); [|exact H]. simpl.
  same_research. apply ResearchFrame_removeFromQueue. now apply ResearchFrame_refunds.
Qed.

Lemma ResearchFrame_completeConstruction (item : QueueItem) (g0 g : Game) :
  ResearchFrame g0 g -> ResearchFrame g0 (CS_completeConstruction cat item g).
Proof.
  intro H. unfold CS_completeConstruction, SM_addStructure.
  same_research.
  eapply ResearchFrame_CoreFrame; [apply CoreFrame_subscribers_structure_built|].
  same_research. now apply ResearchFrame_removeFromQueue.
Qed.

Lemma ResearchFrame_auto_complete (n : nat) (g0 g : Game) :
  ResearchFrame g0 g -> ResearchFrame g0 (auto_complete cat n g).
Proof.
  revert g. induction n as [|n IH]; intros g H; simpl; [exact H|].
  destruct (SM_getQueue g) as [|item rest]; [exact H|].
  destruct (geb _ 1); [|exact H].
  apply IH. same_research. now apply ResearchFrame_completeConstruction.
Qed.

Lemma ResearchFrame_CS_update (deltaTime : Q) (g0 g : Game) :
  ResearchFrame g0 g -> ResearchFrame g0 (CS_update cat deltaTime g).
Proof.
  intro H. rewrite update_is_head_then_auto.
  assert (H1 : ResearchFrame g0 (advance_head cat deltaTime g)).
  { unfold advance_head. destruct (SM_getQueue g) as [|item rest]; [exact H|]. cbv zeta.
    destruct (geb _ _); [apply ResearchFrame_completeConstruction|]; same_research. }
  unfold CS_applyAutoConstruction.
  destruct (SM_getQueue _); [exact H1|]. destruct (leb _ 0); [exact H1|].
  apply ResearchFrame_auto_complete. same_research.
Qed.

Lemma WellFormed_frame (g g' : Game) :
  ResearchFrame g g' -> WellFormed cat g -> WellFormed cat g'.
Proof.
  intros [Hq Hs Hc] [W1 W2 W3 W4 W5]. constructor; rewrite ?Hq, ?Hs, ?Hc; assumption.
Qed.

Lemma WellFormed_startResearch (t : string) (g : Game) :
  WellFormed cat g -> WellFormed cat (snd (PS_startResearch cat t g)).
Proof.
  intros [W1 W2 W3 W4 W5]. unfold PS_startResearch.
  destruct (tech_of cat t) as [tech|] eqn:Et; [|now constructor].
  destruct (SM_isResearched t g) eqn:Er; [now constructor|].
  destruct (includes (ps_researchQueue g) t) eqn:Eq; [now constructor|].
  destruct (negb _); [now constructor|].
  rewrite orZ_Some_pos by lia.
  destruct (_ >=? _)%Z eqn:Efull; [now constructor|]. simpl.
  rewrite Z.geb_leb in Efull. apply Z.leb_gt in Efull.
  constructor; simpl.
  - apply NoDup_push; assumption.
  - intros t' Hin. apply in_app_or in Hin. destruct Hin as [Hin | [<- | []]];
      [now apply W2 | congruence].
  - intros t' Hin. apply in_app_or in Hin. destruct Hin as [Hin | [<- | []]];
      [now apply W3|].
    intro Hc. apply includes_In in Hc. unfold SM_isResearched in Er. congruence.
  - rewrite length_app. simpl. lia.
  - exact W5.
Qed.

Lemma WellFormed_tryAutoResearch (g : Game) :
  WellFormed cat g -> WellFormed cat (PS_tryAutoResearch cat g).
Proof.
  intro H. unfold PS_tryAutoResearch. destruct (negb _); [exact H|].
  destruct (_ >=? _)%Z; [exact H|].
  destruct (filter _ _); [exact H | now apply WellFormed_startResearch].
Qed.

Lemma NoDup_remove_first (x : string) (l : list string) :
  NoDup l -> NoDup (remove_first x l) /\ ~ In x (remove_first x l) /\
             (forall y, In y (remove_first x l) -> In y l) /\
             (List.length (remove_first x l) <= List.length l)%nat.
Proof.
  intro Hnd. rewrite (remove_first_filter x l Hnd). repeat split.
  - now apply NoDup_filter.
  - intro Hin. apply filter_In in Hin. destruct Hin as [_ Hx].
    rewrite String.eqb_refl in Hx. discriminate.
  - intros y Hy. apply filter_In in Hy. tauto.
  - clear Hnd. induction l as [|y t IH]; simpl; [lia|].
    destruct (negb (String.eqb x y)); simpl; lia.
Qed.

Lemma WellFormed_leave_queue (c : string) (g : Game) :
  WellFormed cat g ->
  WellFormed cat (leave_queue c g) /\ ~ In c (ps_researchQueue (leave_queue c g)).
Proof.
  intros [W1 W2 W3 W4 W5].
  destruct (NoDup_remove_first c _ W1) as (Hnd & Hnot & Hsub & Hlen).
  split; [|exact Hnot]. constructor; simpl; auto. lia.
Qed.

Lemma WellFormed_cancelResearch (t : string) (g : Game) :
  WellFormed cat g -> WellFormed cat (snd (PS_cancelResearch t g)).
Proof.
  intro H. unfold PS_cancelResearch. destruct (negb _); [exact H|]. simpl.
  destruct (WellFormed_leave_queue t g H) as [[W1 W2 W3 W4 W5] _].
  constructor; assumption.
Qed.

Lemma WellFormed_SM_completeResearch (c : string) (g : Game) :
  ~ In c (ps_researchQueue g) ->
  WellFormed cat g -> WellFormed cat (SM_completeResearch cat c g).
Proof.
  intros Hc H. unfold SM_completeResearch. destruct (includes _ c); [exact H|].
  unfold emit_research_complete. apply WellFormed_tryAutoResearch.
  pose proof (CoreFrame_before_autoResearch cat c (mark_completed c g)) as F.
  destruct H as [W1 W2 W3 W4 W5].
  constructor;
    rewrite ?(cf_ps_researchQueue _ _ F), ?(cf_maxResearchSlots _ _ F),
            ?(cf_completedResearch _ _ F);
    simpl; try assumption.
  intros t Hin Hcompleted. apply in_app_or in Hcompleted.
  destruct Hcompleted as [Hcompleted | [<- | []]]; [now apply (W3 t) | contradiction].
Qed.

Lemma WellFormed_addResearchSlot (g : Game) :
  WellFormed cat g -> WellFormed cat (PS_addResearchSlot g).
Proof.
  intros [W1 W2 W3 W4 W5]. unfold PS_addResearchSlot. rewrite orZ_Some_pos by lia.
  constructor; simpl; try assumption; lia.
Qed.

Lemma WellFormed_completeResearch (c : string) (g : Game) :
  WellFormed cat g -> WellFormed cat (PS_completeResearch cat c g).
Proof.
  intro H. unfold PS_completeResearch. destruct (tech_of cat c) as [tech|]; [|exact H].
  apply (WellFormed_frame (PS_grantResearchSlots tech (PS_completeResearch_record cat c g)));
    [apply ResearchFrame_unlock_notice, ResearchFrame_refl|].
  assert (H1 : WellFormed cat (PS_completeResearch_record cat c g)).
  { unfold PS_completeResearch_record.
    destruct (WellFormed_leave_queue c g H) as [Hw Hnot].
    apply (WellFormed_frame (SM_completeResearch cat c (leave_queue c g)));
      [same_research; apply ResearchFrame_refl|].
    now apply WellFormed_SM_completeResearch. }
  unfold PS_grantResearchSlots. destruct (t_effects tech) as [e|]; [|exact H1].
  induction (researchSlots e) as [|n IH]; [exact H1|].
  change (Nat.iter (S n) PS_addResearchSlot (PS_completeResearch_record cat c g))
    with (PS_addResearchSlot
            (Nat.iter n PS_addResearchSlot (PS_completeResearch_record cat c g))).
  now apply WellFormed_addResearchSlot.
Qed.

Lemma WellFormed_progressAllResearch (deltaTime : Q) (g : Game) :
  WellFormed cat g -> WellFormed cat (PS_progressAllResearch cat deltaTime g).
Proof.
  intro H. unfold PS_progressAllResearch.
  destruct (ps_researchQueue g) as [|t rest] eqn:Eq; [exact H|].
  destruct (leb _ 0); [exact H|].
  pose proof (ResearchFrame_accrue_progress (t :: rest) (perItemRate g) deltaTime [] g g
                (ResearchFrame_refl g)) as Hacc.
  destruct (accrue_progress cat (t :: rest) (perItemRate g) deltaTime [] g)
    as [completed g1]. simpl in Hacc.
  apply WellFormed_frame with
    (g := fold_left (fun g t => PS_completeResearch cat t g) completed g1);
    [same_research; apply ResearchFrame_refl|].
  assert (H1 : WellFormed cat g1) by (apply (WellFormed_frame g); assumption).
  clear Hacc. revert g1 H1.
  induction completed as [|c cs IH]; intros g1 H1; simpl; [exact H1|].
  apply IH. now apply WellFormed_completeResearch.
Qed.

Lemma WellFormed_exec (c : Command) (g : Game) :
  WellFormed cat g -> WellFormed cat (exec cat g c).
Proof.
  intro H. destruct c; simpl.
  - apply (WellFormed_frame g); [apply ResearchFrame_build, ResearchFrame_refl | exact H].
  - apply (WellFormed_frame g); [apply ResearchFrame_bulkBuild, ResearchFrame_refl | exact H].
  - apply (WellFormed_frame g); [apply ResearchFrame_cancel, ResearchFrame_refl | exact H].
  - now apply WellFormed_startResearch.
  - now apply WellFormed_cancelResearch.
  - unfold PS_setAutoResearch.
    assert (H1 : WellFormed cat (SM_emit (setting_change "autoResearch")
                                   (upd_state (set_autoResearch enabled) g)))
      by (apply (WellFormed_frame g); [same_research; apply ResearchFrame_refl | exact H]).
    destruct enabled; [now apply WellFormed_tryAutoResearch | exact H1].
  - unfold tick, PS_update. apply WellFormed_tryAutoResearch.
    set (g1 := CS_update cat deltaTime (RS_update deltaTime g)).
    assert (H1 : WellFormed cat g1).
    { apply (WellFormed_frame g); [|exact H].
      apply ResearchFrame_CS_update, ResearchFrame_update, ResearchFrame_refl. }
    match goal with |- WellFormed _ (PS_checkEraProgression ?x) =>
      apply (WellFormed_frame x);
        [apply ResearchFrame_checkEraProgression, ResearchFrame_refl|] end.
    destruct (ps_researchQueue g1); [exact H1 | now apply WellFormed_progressAllResearch].
  - apply (WellFormed_frame g);
      [apply ResearchFrame_calculateOfflineProgress, ResearchFrame_refl | exact H].
Qed.

(** Play keeps the research queue well formed. *)
Lemma WellFormed_run (cs : list Command) (g : Game) :
  WellFormed cat g -> WellFormed cat (run cat cs g).
Proof.
  unfold run. revert g. induction cs as [|c rest IH]; intros g H; simpl; [exact H|].
  apply IH. now apply WellFormed_exec.
Qed.

End WellFormedEngine.

Lemma WellFormed_startingGame : WellFormed catalog startingGame.
Proof.
  constructor; simpl; try (intros t []); try lia. constructor.
Qed.

(** ** More on the resource ledger *)

Lemma gtb_false (a b : Q) : gtb a b = false <-> a <= b.
Proof. apply (ltb_false b a). Qed.

Lemma geb_false (a b : Q) : geb a b = false <-> a < b.
Proof. apply (leb_false b a). Qed.

Lemma max_ge_l (a b : Q) : a <= JS.max a b.
Proof.
  unfold JS.max. destruct (Qle_bool a b) eqn:E.
  - now apply Qle_bool_iff.
  - apply Qle_refl.
Qed.



(** X1: the verdict of [ResourceSystem.spend] is the verdict of
    [canAfford] on the same cost bundle and the same balances, as long as
    the bundle lists each kind once (it is an object): [spend] returns true
    exactly when [canAfford] does. *)
Theorem X1_spend_agrees_with_canAfford (costs : Obj Q) (g : Game) :
  NoDup (keys costs) ->
  fst (RS_spend costs g) = RS_canAfford costs g.
Proof.
  intro Hd. unfold RS_canAfford.
  destruct (SM_canAfford costs g) eqn:E.
  - apply (spend_affordable costs Hd g E).
  - apply (spend_unaffordable costs Hd g E).
Qed.

Lemma X1_spend_agrees_with_canAfford_witness :
  fst (RS_spend [("energy", 20); ("materials", 50)] startingGame) =
  RS_canAfford [("energy", 20); ("materials", 50)] startingGame.
Proof.
  apply X1_spend_agrees_with_canAfford.
  apply distinct_NoDup. reflexivity.
Defined.

(** One tick of production credits [rate * deltaTime] to a kind whose rate
    is positive and nothing to the others. *)
Lemma update_credit (k : string) (t : Q) (g : Game) :
  let rate := rate_of (production (state g)) k in
  SM_getResource k (RS_update t g) ==
  SM_getResource k g + (if gtb rate 0 then rate * t else 0).
Proof.
  intro rate. rewrite getResource_update.
  assert (H : forall r, (if gtb r 0 then r * t else 0) ==
                        (if gtb (orQ (Some r) 0) 0 then orQ (Some r) 0 * t else 0)).
  { intro r. unfold orQ. destruct (truthy r) eqn:T; [reflexivity|].
    unfold truthy in T. apply negb_false_iff, Qeq_bool_iff in T.
    assert (E : gtb r 0 = false) by (apply gtb_false; rewrite T; apply Qle_refl).
    rewrite E. reflexivity. }
  unfold rate, rate_of.
  destruct (String.eqb k "energy"); [now rewrite <- H|].
  destruct (String.eqb k "materials"); [now rewrite <- H|].
  destruct (String.eqb k "research"); [now rewrite <- H|].
  reflexivity.
Qed.




(** ** More on construction *)

Lemma getQueue_spend (costs : Obj Q) (g : Game) :
  SM_getQueue (snd (RS_spend costs g)) = SM_getQueue g.
Proof.
  revert g. induction costs as [|[k a] rest IH]; intro g; simpl; [reflexivity|].
  unfold SM_spendResource. destruct (ltb _ _); simpl; [reflexivity|].
  now rewrite IH.
Qed.

Lemma getQueue_refunds (m : Q) (cost : Obj Q) (g : Game) :
  SM_getQueue (fold_left (refund m) cost g) = SM_getQueue g.
Proof.
  revert g. induction cost as [|[k a] rest IH]; intro g; simpl; [reflexivity|].
  now rewrite IH.
Qed.

Lemma getQueue_removeFromQueue (i : nat) (g : Game) :
  SM_getQueue (SM_removeFromQueue i g) = splice1 i (SM_getQueue g).
Proof. unfold SM_removeFromQueue. destruct (nth_error _ _); reflexivity. Qed.

(** The cost bundles of the game's catalog list whole amounts. *)
Lemma catalog_costs_whole :
  forall s, In s (STRUCTURES catalog) ->
  forall k a, In (k, a) (s_cost s) -> JS.floor a == a.
Proof.
  assert (H : forallb (fun s => forallb (fun e => Qeq_bool (JS.floor (snd e)) (snd e))
                                        (s_cost s))
                      (STRUCTURES catalog) = true)
    by (vm_compute; reflexivity).
  intros s Hs k a Hin. rewrite forallb_forall in H. specialize (H s Hs).
  rewrite forallb_forall in H. apply Qeq_bool_iff. exact (H (k, a) Hin).
Qed.

Section MoreConstruction.

Variable cat : Catalog.

(** [build] either refuses, leaving everything as it was, or pays and
    queues a new item. *)
Lemma build_cases (id : string) (p : option string) (g : Game) :
  (exists reason, CS_build cat id p g = (Failure reason, g)) \/
  (exists structure,
     structure_of cat id = Some structure /\
     CS_build cat id p g =
     (Success (new_item id p structure),
      SM_emit (construction_start (new_item id p structure))
              (SM_addToQueue (new_item id p structure)
                             (snd (RS_spend (s_cost structure) g))))).
Proof.
  unfold CS_build. destruct (structure_of cat id) as [structure|]; [|left; eauto].
  destruct (negb (CS_isTechUnlocked _ g)); [left; eauto|].
  destruct (match s_limit structure with Some _ => _ | None => _ end); [left; eauto|].
  destruct (negb (RS_canAfford _ g)); [left; eauto|].
  destruct (_ >=? _)%Z; [left; eauto|].
  right. exists structure. split; reflexivity.
Qed.

(** X3: [bulkBuild] stops at the first refusal.  Its result list is a run
    of successes followed by at most one failure, it has [count] entries
    when nothing was refused, and the construction queue gains exactly the
    items of the successful results, in order. *)
Theorem X3_bulkBuild_results (id : string) (count : nat) (g : Game) :
  exists items tail,
    fst (CS_bulkBuild cat id count g) = (map Success items ++ tail)%list /\
    (tail = [] /\ List.length items = count \/
     (exists reason, tail = [Failure reason]) /\ (List.length items < count)%nat) /\
    SM_getQueue (snd (CS_bulkBuild cat id count g)) = (SM_getQueue g ++ items)%list.
Proof.
  revert g. induction count as [|n IH]; intro g; simpl.
  - exists [], []. split; [reflexivity|]. split; [now left|]. now rewrite app_nil_r.
  - destruct (build_cases id None g) as [(reason & ->) | (structure & _ & ->)]; simpl.
    + exists [], [Failure reason]. split; [reflexivity|]. split.
      * right. split; [eauto | simpl; lia].
      * now rewrite app_nil_r.
    + set (item := new_item id None structure).
      set (g1 := SM_emit (construction_start item) _).
      destruct (IH g1) as (items & tail & Hres & Hshape & Hqueue).
      destruct (CS_bulkBuild cat id n g1) as [results g2]. simpl in *.
      exists (item :: items), tail. split; [simpl; now rewrite Hres|]. split.
      * destruct Hshape as [[-> <-] | [Hfail Hlen]]; [now left|].
        right. split; [exact Hfail | simpl; lia].
      * rewrite Hqueue. unfold g1, SM_getQueue at 1. simpl.
        fold (SM_getQueue (snd (RS_spend (s_cost structure) g))).
        rewrite getQueue_spend, <- app_assoc. reflexivity.
Qed.

(** X4: the status shown for a structure predicts [build].  For an
    identifier outside the catalog there is no status and [build] refuses
    with [unknown_structure]; otherwise [build] succeeds exactly when the
    status says [canBuild] and the construction queue has room. *)
Theorem X4_status_predicts_build (id : string) (p : option string) (g : Game) :
  match CS_getStructureStatus cat id g with
  | None => CS_build cat id p g = (Failure unknown_structure, g)
  | Some st =>
      success (fst (CS_build cat id p g)) =
      ss_canBuild st &&
      (Z.of_nat (List.length (SM_getQueue g)) <? CS_getMaxQueueSize g)%Z
  end.
Proof.
  unfold CS_getStructureStatus, CS_build.
  destruct (structure_of cat id) as [structure|]; [|reflexivity].
  unfold CS_isTechUnlocked, SM_isResearched, SM_getStructureCount. simpl.
  destruct (includes (completedResearch (state g)) (s_requiresTech structure));
    simpl; [|reflexivity].
  assert (Hroom :
            forall afford : bool,
            success
              (fst (if negb afford then (Failure cannot_afford, g)
                    else if (Z.of_nat (List.length (SM_getQueue g)) >=?
                             CS_getMaxQueueSize g)%Z
                         then (Failure queue_full, g)
                         else (Success (new_item id p structure),
                               SM_emit (construction_start (new_item id p structure))
                                 (SM_addToQueue (new_item id p structure)
                                    (snd (RS_spend (s_cost structure) g)))))) =
            afford && (Z.of_nat (List.length (SM_getQueue g)) <? CS_getMaxQueueSize g)%Z).
  { intros [|]; simpl; [|reflexivity].
    rewrite Z.geb_leb, Z.ltb_antisym. destruct (_ <=? _)%Z; reflexivity. }
  destruct (s_limit structure) as [limit|].
  - rewrite Z.geb_leb, Z.ltb_antisym.
    destruct (limit <=? _)%Z; simpl.
    + now rewrite andb_false_r.
    + rewrite andb_true_r. apply Hroom.
  - rewrite andb_true_r. apply Hroom.
Qed.

Lemma splice1_last {A} (xs : list A) (x : A) :
  splice1 (List.length xs) (xs ++ [x]) = xs.
Proof. induction xs as [|y t IH]; simpl; [reflexivity | now rewrite IH]. Qed.

Lemma nth_error_last {A} (xs : list A) (x : A) :
  nth_error (xs ++ [x]) (List.length xs) = Some x.
Proof. induction xs as [|y t IH]; simpl; [reflexivity | exact IH]. Qed.

(** X5: cancelling a build right after it was accepted undoes it.  The new
    item is the last of the queue and has no progress, so the refund is
    complete: when the cost bundle lists whole amounts, each kind once,
    every balance and the queue are back where they were. *)
Theorem X5_build_then_cancel (id : string) (p : option string) (g g1 : Game)
        (item : QueueItem) (structure : Structure) :
  structure_of cat id = Some structure ->
  NoDup (keys (s_cost structure)) ->
  (forall k a, In (k, a) (s_cost structure) -> JS.floor a == a) ->
  CS_build cat id p g = (Success item, g1) ->
  let r := CS_cancel cat (Z.of_nat (List.length (SM_getQueue g))) g1 in
  fst r = true /\
  SM_getQueue (snd r) = SM_getQueue g /\
  forall k, SM_getResource k (snd r) == SM_getResource k g.
Proof.
  intros Hs Hnd Hwhole Hbuild.
  destruct (build_success cat id p g g1 item Hbuild) as (s' & Hs' & Hafford & Hg1).
  rewrite Hs in Hs'. injection Hs' as <-.
  destruct (build_cases id p g) as [(reason & E) | (s' & Hs' & E)];
    rewrite E in Hbuild; [discriminate|].
  rewrite Hs in Hs'. injection Hs' as <-.
  assert (Hitem : item = new_item id p structure) by congruence.
  assert (Hq1 : SM_getQueue g1 = (SM_getQueue g ++ [item])%list).
  { rewrite Hg1. unfold SM_getQueue at 1. simpl.
    fold (SM_getQueue (snd (RS_spend (s_cost structure) g))).
    now rewrite getQueue_spend. }
  unfold CS_cancel. rewrite Hq1.
  assert (Hneg : (Z.of_nat (List.length (SM_getQueue g)) <? 0)%Z = false)
    by (apply Z.ltb_ge; lia).
  assert (Hin : (Z.of_nat (List.length (SM_getQueue g)) >=?
                 Z.of_nat (List.length (SM_getQueue g ++ [item])))%Z = false).
  { rewrite Z.geb_leb. apply Z.leb_gt. rewrite length_app. simpl. lia. }
  rewrite Hneg, Hin, Nat2Z.id, nth_error_last. simpl orb. cbv iota.
  assert (Hsid : structureId item = id) by (rewrite Hitem; reflexivity).
  assert (Hprog : progress item = 0) by (rewrite Hitem; reflexivity).
  rewrite Hsid, Hs, Hprog.
  change (gtb 0 0) with false. cbv iota. cbv zeta. simpl fst. simpl snd.
  split; [reflexivity|]. split.
  - change (SM_getQueue (SM_emit ?e ?x)) with (SM_getQueue x).
    rewrite getQueue_removeFromQueue, getQueue_refunds, Hq1. apply splice1_last.
  - intro k. rewrite getResource_emit, getResource_removeFromQueue.
    destruct (getResource_refund 1 (s_cost structure) Hnd g1) as (Hin' & Hout').
    destruct (spend_affordable (s_cost structure) Hnd g Hafford) as (_ & Hsp & Hkeep).
    assert (Hres : forall k', SM_getResource k' g1 =
                              SM_getResource k' (snd (RS_spend (s_cost structure) g))).
    { intro k'. rewrite Hg1. reflexivity. }
    destruct (in_dec string_dec k (keys (s_cost structure))) as [Hk | Hk].
    + unfold keys in Hk. apply in_map_iff in Hk. destruct Hk as ([k' a] & Heq & Hk).
      simpl in Heq. subst k'.
      rewrite (Hin' k a Hk), Hres, (Hsp k a Hk).
      assert (Hfl : JS.floor (a * 1) == a).
      { unfold JS.floor. rewrite Qmult_1_r. exact (Hwhole k a Hk). }
      rewrite Hfl. ring.
    + rewrite (Hout' k Hk), Hres, (Hkeep k Hk). reflexivity.
Qed.

(** The sum of all structure counts after one count is overwritten. *)
Lemma sum_from (l : list Z) (a : Z) :
  fold_left Z.add l a = (a + fold_left Z.add l 0)%Z.
Proof.
  revert a. induction l as [|x t IH]; intro a; simpl; [lia|].
  rewrite (IH (a + x)%Z), (IH x). lia.
Qed.

Lemma total_set (o : Obj Z) (k : string) (v : Z) :
  fold_left Z.add (values (set k v o)) 0%Z =
  (fold_left Z.add (values o) 0 - orZ (get o k) 0 + v)%Z.
Proof.
  induction o as [|[k' v'] t IH]; [simpl; lia|].
  change (set k v ((k', v') :: t))
    with (if String.eqb k k' then (k, v) :: t else (k', v') :: set k v t).
  change (get ((k', v') :: t) k) with (if String.eqb k k' then Some v' else get t k).
  destruct (String.eqb k k').
  - rewrite orZ_Some_0. unfold values. cbn [map fold_left snd].
    rewrite (sum_from _ (0 + v)), (sum_from _ (0 + v')). lia.
  - unfold values in *. cbn [map fold_left snd].
    rewrite (sum_from _ (0 + v')), (sum_from (map snd t) (0 + v')), IH. lia.
Qed.

(** Completing the head of a non-empty queue turns one queued item into
    one structure. *)
Lemma completeConstruction_conserves (item : QueueItem) (g : Game) :
  SM_getQueue g <> [] ->
  (SM_getTotalStructures (CS_completeConstruction cat item g) +
   Z.of_nat (List.length (SM_getQueue (CS_completeConstruction cat item g))) =
   SM_getTotalStructures g + Z.of_nat (List.length (SM_getQueue g)))%Z.
Proof.
  intro Hne. rewrite completeConstruction_queue.
  unfold SM_getTotalStructures, CS_completeConstruction, SM_addStructure. simpl.
  rewrite (cf_structures _ _ (CoreFrame_subscribers_structure_built _ _ _ _ _)). simpl.
  rewrite total_set.
  assert (Hs : structures (state (SM_removeFromQueue 0 g)) = structures (state g)).
  { unfold SM_removeFromQueue. destruct (nth_error _ _); reflexivity. }
  unfold SM_getStructureCount. rewrite Hs.
  destruct (SM_getQueue g) as [|x t]; [contradiction|]. simpl List.length. simpl tl. lia.
Qed.

Lemma auto_complete_conserves (n : nat) :
  forall g,
  (SM_getTotalStructures (auto_complete cat n g) +
   Z.of_nat (List.length (SM_getQueue (auto_complete cat n g))) =
   SM_getTotalStructures g + Z.of_nat (List.length (SM_getQueue g)))%Z.
Proof.
  induction n as [|n IH]; intro g; simpl; [reflexivity|].
  destruct (SM_getQueue g) as [|item rest] eqn:Hq; [now rewrite Hq|].
  destruct (geb (autoBuildProgress g) 1); [|now rewrite Hq].
  rewrite IH. change (SM_getTotalStructures (set_autoBuildProgress ?v ?x))
    with (SM_getTotalStructures x).
  change (SM_getQueue (set_autoBuildProgress ?v ?x)) with (SM_getQueue x).
  rewrite completeConstruction_conserves by (rewrite Hq; discriminate).
  now rewrite Hq.
Qed.

(** X6: a construction tick neither loses nor invents anything.  Whatever
    leaves the queue in [ConstructionSystem.update], by reaching its build
    time or through auto-construction, becomes one structure: the total
    number of structures plus the length of the queue is unchanged. *)
Theorem X6_update_conserves_items (deltaTime : Q) (g : Game) :
  (SM_getTotalStructures (CS_update cat deltaTime g) +
   Z.of_nat (List.length (SM_getQueue (CS_update cat deltaTime g))) =
   SM_getTotalStructures g + Z.of_nat (List.length (SM_getQueue g)))%Z.
Proof.
  assert (Hauto : forall g0,
             (SM_getTotalStructures (CS_applyAutoConstruction cat deltaTime g0) +
              Z.of_nat (List.length (SM_getQueue (CS_applyAutoConstruction cat deltaTime g0))) =
              SM_getTotalStructures g0 + Z.of_nat (List.length (SM_getQueue g0)))%Z).
  { intro g0. unfold CS_applyAutoConstruction.
    destruct (SM_getQueue g0) as [|item rest] eqn:Hq; [now rewrite Hq|].
    destruct (leb _ 0); [now rewrite Hq|].
    rewrite auto_complete_conserves. now rewrite <- Hq. }
  rewrite update_is_head_then_auto, Hauto.
  unfold advance_head.
  destruct (SM_getQueue g) as [|item rest] eqn:Hq; [now rewrite Hq|].
  destruct (geb _ _); [|reflexivity].
  rewrite completeConstruction_conserves; [reflexivity | discriminate].
Qed.

End MoreConstruction.

Lemma X5_build_then_cancel_witness :
  let g1 := snd (CS_build catalog "launch_pad" None funded_start) in
  let r := CS_cancel catalog (Z.of_nat (List.length (SM_getQueue funded_start))) g1 in
  fst r = true /\
  SM_getQueue (snd r) = SM_getQueue funded_start /\
  forall k, SM_getResource k (snd r) == SM_getResource k funded_start.
Proof.
  destruct (build_cases catalog "launch_pad" None funded_start) as [(reason & E) | (s & Hs & E)].
  - exfalso.
    assert (H : success (fst (CS_build catalog "launch_pad" None funded_start)) = true)
      by (vm_compute; reflexivity).
    rewrite E in H. discriminate.
  - rewrite E. simpl snd.
    apply (X5_build_then_cancel catalog "launch_pad" None funded_start _
             (new_item "launch_pad" None s) s Hs).
    + apply catalog_costs_distinct. exact (structure_of_In _ _ _ Hs).
    + apply catalog_costs_whole. exact (structure_of_In _ _ _ Hs).
    + exact E.
Defined.


(** ** An induction principle for the engine

    Every operation of the engine is a composition of a few elementary
    writes, with the core subscribers run in between.  A property of games
    that each elementary write preserves is therefore preserved by every
    operation and every command sequence. *)

Lemma addStructure_record (cat : Catalog) (id : string) (count : Z) (g : Game) :
  SM_addStructure cat id count g =
  emit_structure_built cat id count (SM_getStructureCount id g + count)
                       (record_structure id count g).
Proof. reflexivity. Qed.

Lemma getQueue_record_structure (id : string) (count : Z) (g : Game) :
  SM_getQueue (record_structure id count g) = SM_getQueue g.
Proof. reflexivity. Qed.

Section EngineInduction.

Variable cat : Catalog.
Variable I : Game -> Prop.
Variable steps : Q -> Prop.

Hypothesis I_emit : forall e g, I g -> I (SM_emit e g).
Hypothesis I_modifiers : forall v g, I g -> I (set_modifiers v g).
Hypothesis I_logistics : forall v g, I g -> I (set_logistics v g).
Hypothesis I_production : forall v g, I g -> I (upd_state (set_production v) g).
Hypothesis I_solarCapture :
  forall p g, I g -> I (upd_state (set_solarCapture (JS.min 1 (JS.max 0 p))) g).
Hypothesis I_claimMilestone :
  forall m g, In m (MILESTONES cat) -> I g -> I (PS_claimMilestone m g).
Hypothesis I_record_structure :
  forall item rest g, SM_getQueue g = item :: rest -> I g ->
  I (record_structure (structureId item) 1 (SM_removeFromQueue 0 g)).
Hypothesis I_autoBuildProgress : forall v g, I g -> I (set_autoBuildProgress v g).
Hypothesis I_progress :
  forall item rest p g, SM_getQueue g = item :: rest -> I g ->
  I (upd_state (set_constructionQueue (with_progress item p :: rest)) g).
Hypothesis I_build : forall id p g, I g -> I (snd (CS_build cat id p g)).
Hypothesis I_cancel : forall index g, I g -> I (snd (CS_cancel cat index g)).
Hypothesis I_startResearch : forall t g, I g -> I (snd (PS_startResearch cat t g)).
Hypothesis I_cancelResearch : forall t g, I g -> I (snd (PS_cancelResearch t g)).
Hypothesis I_autoResearch : forall b g, I g -> I (upd_state (set_autoResearch b) g).
Hypothesis I_mark_completed :
  forall t g, includes (completedResearch (state g)) t = false -> I g ->
  I (mark_completed t g).
Hypothesis I_leave_queue : forall t g, I g -> I (leave_queue t g).
Hypothesis I_sync : forall g, I g -> I (PS_syncStateWithQueue g).
Hypothesis I_addResearchSlot : forall g, I g -> I (PS_addResearchSlot g).
Hypothesis I_progressMap : forall v g, I g -> I (set_ps_researchProgressMap v g).
Hypothesis I_setEra : forall n g, I g -> I (SM_setEra n g).
Hypothesis I_RS_update : forall deltaTime g, steps deltaTime -> I g -> I (RS_update deltaTime g).
Hypothesis I_offline :
  forall now g, I g -> I (snd (IA_calculateOfflineProgress now g)).

Lemma all_claimMilestone (ms : list Milestone) :
  (forall m, In m ms -> In m (MILESTONES cat)) ->
  forall g, I g -> I (fold_left (fun g m => PS_claimMilestone m g) ms g).
Proof.
  induction ms as [|m rest IH]; intros Hms g H; simpl; [exact H|].
  apply IH; [intros m' Hm'; apply Hms; now right|].
  apply I_claimMilestone; [apply Hms; now left | exact H].
Qed.

Lemma all_checkMilestones (g : Game) : I g -> I (PS_checkMilestones cat g).
Proof.
  intro H. unfold PS_checkMilestones. apply all_claimMilestone; [|exact H].
  intros m Hm. unfold getNewlyAchievedMilestones in Hm.
  apply filter_In in Hm. tauto.
Qed.

Lemma all_setSolarCapture (p : Q) (g : Game) : I g -> I (SM_setSolarCapture cat p g).
Proof.
  intro H. unfold SM_setSolarCapture. cbv zeta.
  destruct (negb _); [|now apply I_solarCapture].
  unfold emit_solar_capture. now apply all_checkMilestones, I_emit, I_solarCapture.
Qed.

Lemma all_recalculateProduction (g : Game) : I g -> I (RS_recalculateProduction cat g).
Proof.
  intro H. unfold RS_recalculateProduction. cbv zeta.
  apply I_emit, I_logistics, all_setSolarCapture, I_production, I_modifiers. exact H.
Qed.

Lemma all_emit_structure_built (id : string) (count total : Z) (g : Game) :
  I g -> I (emit_structure_built cat id count total g).
Proof.
  intro H. unfold emit_structure_built.
  now apply all_checkMilestones, all_recalculateProduction, I_emit.
Qed.

Lemma all_completeConstruction (item : QueueItem) (rest : list QueueItem) (g : Game) :
  SM_getQueue g = item :: rest -> I g -> I (CS_completeConstruction cat item g).
Proof.
  intros Hq H. unfold CS_completeConstruction. cbv zeta.
  apply I_emit, I_emit. rewrite addStructure_record.
  apply all_emit_structure_built. now apply (I_record_structure item rest).
Qed.

Lemma all_auto_complete (n : nat) : forall g, I g -> I (auto_complete cat n g).
Proof.
  induction n as [|n IH]; intros g H; simpl; [exact H|].
  destruct (SM_getQueue g) as [|item rest] eqn:Hq; [exact H|].
  destruct (geb _ 1); [|exact H].
  apply IH, I_autoBuildProgress. now apply (all_completeConstruction item rest).
Qed.

Lemma all_applyAutoConstruction (deltaTime : Q) (g : Game) :
  I g -> I (CS_applyAutoConstruction cat deltaTime g).
Proof.
  intro H. unfold CS_applyAutoConstruction.
  destruct (SM_getQueue g); [exact H|].
  destruct (leb _ 0); [exact H|].
  now apply all_auto_complete, I_autoBuildProgress.
Qed.

Lemma all_CS_update (deltaTime : Q) (g : Game) : I g -> I (CS_update cat deltaTime g).
Proof.
  intro H. rewrite update_is_head_then_auto. apply all_applyAutoConstruction.
  unfold advance_head. destruct (SM_getQueue g) as [|item rest] eqn:Hq; [exact H|].
  set (item1 := {| structureId := structureId item; buildTime := buildTime item;
                   progress := _; placement := placement item |}).
  assert (H2 : I (SM_emit (construction_progress item1)
                          (upd_state (set_constructionQueue (item1 :: rest)) g))).
  { apply I_emit. exact (I_progress item rest _ g Hq H). }
  destruct (geb _ _); [|exact H2].
  now apply (all_completeConstruction item1 rest).
Qed.

Lemma all_bulkBuild (id : string) (n : nat) :
  forall g, I g -> I (snd (CS_bulkBuild cat id n g)).
Proof.
  induction n as [|n IH]; intros g H; simpl; [exact H|].
  pose proof (I_build id None g H) as H1.
  destruct (CS_build cat id None g) as [r g1]. simpl in H1.
  destruct (success r); [|exact H1].
  specialize (IH g1 H1). destruct (CS_bulkBuild cat id n g1). exact IH.
Qed.

Lemma all_tryAutoResearch (g : Game) : I g -> I (PS_tryAutoResearch cat g).
Proof.
  intro H. unfold PS_tryAutoResearch.
  destruct (negb _); [exact H|]. cbv zeta.
  destruct (_ >=? _)%Z; [exact H|].
  destruct (filter _ _); [exact H|]. now apply I_startResearch.
Qed.

Lemma all_setAutoResearch (b : bool) (g : Game) : I g -> I (PS_setAutoResearch cat b g).
Proof.
  intro H. unfold PS_setAutoResearch. cbv zeta.
  assert (H1 : I (SM_emit (setting_change "autoResearch")
                          (upd_state (set_autoResearch b) g)))
    by now apply I_emit, I_autoResearch.
  destruct b; [now apply all_tryAutoResearch | exact H1].
Qed.

Lemma all_SM_completeResearch (t : string) (g : Game) :
  I g -> I (SM_completeResearch cat t g).
Proof.
  intro H. unfold SM_completeResearch.
  destruct (includes _ t) eqn:E; [exact H|].
  unfold emit_research_complete, before_autoResearch.
  apply all_tryAutoResearch, all_checkMilestones, all_recalculateProduction, I_emit.
  now apply I_mark_completed.
Qed.

Lemma all_grantResearchSlots (tech : Tech) (g : Game) :
  I g -> I (PS_grantResearchSlots tech g).
Proof.
  intro H. unfold PS_grantResearchSlots. destruct (t_effects tech) as [e|]; [|exact H].
  induction (researchSlots e) as [|n IH]; simpl; [exact H | now apply I_addResearchSlot].
Qed.

Lemma all_unlock_notice (tech : Tech) (g : Game) : I g -> I (unlock_notice tech g).
Proof.
  intro H. unfold unlock_notice. destruct (t_unlocks tech); [exact H|].
  destruct (filter _ _); now apply I_emit.
Qed.

Lemma all_completeResearch (t : string) (g : Game) :
  I g -> I (PS_completeResearch cat t g).
Proof.
  intro H. unfold PS_completeResearch. destruct (tech_of cat t) as [tech|]; [|exact H].
  apply all_unlock_notice, all_grantResearchSlots.
  unfold PS_completeResearch_record.
  now apply I_sync, all_SM_completeResearch, I_leave_queue.
Qed.

Lemma all_completeResearch_each (ts : list string) :
  forall g, I g -> I (fold_left (fun g t => PS_completeResearch cat t g) ts g).
Proof.
  induction ts as [|t rest IH]; intros g H; simpl; [exact H|].
  now apply IH, all_completeResearch.
Qed.

Lemma all_accrue_progress (queue : list string) (rate deltaTime : Q) :
  forall completed g, I g -> I (snd (accrue_progress cat queue rate deltaTime completed g)).
Proof.
  induction queue as [|t rest IH]; intros completed g H; simpl; [exact H|].
  destruct (tech_of cat t); [|now apply IH].
  destruct (geb _ _); apply IH; [|apply I_emit]; now apply I_progressMap.
Qed.

Lemma all_progressAllResearch (deltaTime : Q) (g : Game) :
  I g -> I (PS_progressAllResearch cat deltaTime g).
Proof.
  intro H. unfold PS_progressAllResearch.
  destruct (ps_researchQueue g) as [|t rest]; [exact H|].
  destruct (leb _ 0); [exact H|].
  pose proof (all_accrue_progress (t :: rest) (perItemRate g) deltaTime [] g H) as Hacc.
  destruct (accrue_progress cat (t :: rest) (perItemRate g) deltaTime [] g)
    as [completed g1]. simpl in Hacc.
  now apply I_sync, all_completeResearch_each.
Qed.

Lemma all_checkEraProgression (g : Game) : I g -> I (PS_checkEraProgression g).
Proof.
  unfold PS_checkEraProgression.
  generalize (currentEra (state g)). generalize (solarCapture (state g)).
  intros capture current. revert g.
  induction CONFIG.ERAS as [|[n th] rest IH]; intros g H; simpl; [exact H|].
  apply IH. destruct (_ && _); [|exact H].
  unfold PS_advanceToEra. destruct (get_era n); [|exact H].
  now apply I_emit, I_setEra.
Qed.

Lemma all_PS_update (deltaTime : Q) (g : Game) : I g -> I (PS_update cat deltaTime g).
Proof.
  intro H. unfold PS_update. cbv zeta.
  apply all_tryAutoResearch, all_checkEraProgression.
  destruct (ps_researchQueue g); [exact H | now apply all_progressAllResearch].
Qed.

Lemma all_tick (deltaTime : Q) (g : Game) :
  steps deltaTime -> I g -> I (tick cat deltaTime g).
Proof.
  intros Hs H. unfold tick.
  now apply all_PS_update, all_CS_update, I_RS_update.
Qed.

Lemma all_exec (c : Command) (g : Game) : ticking steps c -> I g -> I (exec cat g c).
Proof.
  intros Hc H. destruct c; simpl.
  - now apply I_build.
  - now apply all_bulkBuild.
  - now apply I_cancel.
  - now apply I_startResearch.
  - now apply I_cancelResearch.
  - now apply all_setAutoResearch.
  - now apply all_tick.
  - now apply I_offline.
Qed.

Lemma all_run (cs : list Command) :
  Forall (ticking steps) cs -> forall g, I g -> I (run cat cs g).
Proof.
  unfold run. induction cs as [|c rest IH]; intros Hcs g H; simpl; [exact H|].
  inversion Hcs as [|? ? Hc Hrest]; subst.
  apply IH; [exact Hrest|]. now apply all_exec.
Qed.

End EngineInduction.

(** ** What the elementary writes leave alone

    [view] is any reading of the state.  Each lemma names, as hypotheses,
    the field assignments that the reading must not see for the operation
    to leave it unchanged. *)

Section View.

Context {A : Type} (view : State -> A).

Hypothesis no_resources : forall v s, view (set_resources v s) = view s.
Hypothesis no_flags : forall v s, view (set_flags v s) = view s.
Hypothesis no_claimed : forall v s, view (set_claimedMilestones v s) = view s.
Hypothesis no_stats : forall v s, view (set_stats v s) = view s.
Hypothesis no_queue : forall v s, view (set_constructionQueue v s) = view s.
Hypothesis no_structures : forall v s, view (set_structures v s) = view s.
Hypothesis no_mirror : forall q m s, view (set_research_mirror q m s) = view s.
Hypothesis no_era : forall v s, view (set_currentEra v s) = view s.
Hypothesis no_completed : forall v s, view (set_completedResearch v s) = view s.
Hypothesis no_legacy : forall s, view (clear_currentResearch s) = view s.

Lemma view_addResource (k : string) (a : Q) (g : Game) :
  view (state (SM_addResource k a g)) = view (state g).
Proof. apply no_resources. Qed.

Lemma view_spendResource (k : string) (a : Q) (g : Game) :
  view (state (snd (SM_spendResource k a g))) = view (state g).
Proof.
  unfold SM_spendResource. destruct (ltb _ _); [reflexivity | apply no_resources].
Qed.

Lemma view_spend (costs : Obj Q) (g : Game) :
  view (state (snd (RS_spend costs g))) = view (state g).
Proof.
  revert g. induction costs as [|[k a] rest IH]; intro g; simpl; [reflexivity|].
  pose proof (view_spendResource k a g) as H.
  destruct (SM_spendResource k a g) as [ok g1]. simpl in H.
  destruct ok; simpl; [now rewrite IH | exact H].
Qed.

Lemma view_refunds (m : Q) (cost : Obj Q) (g : Game) :
  view (state (fold_left (refund m) cost g)) = view (state g).
Proof.
  revert g. induction cost as [|[k a] rest IH]; intro g; simpl; [reflexivity|].
  rewrite IH. apply view_addResource.
Qed.

Lemma view_apply_gains (l : Obj Q) (g : Game) :
  view (state (fold_left apply_gain l g)) = view (state g).
Proof.
  revert g. induction l as [|[k a] rest IH]; intro g; simpl; [reflexivity|].
  rewrite IH. destruct (gtb a 0); [apply view_addResource | reflexivity].
Qed.

Lemma view_grant_rewards (reward : Obj Q) (g : Game) :
  view (state (fold_left grant_reward reward g)) = view (state g).
Proof.
  revert g. induction reward as [|[k a] rest IH]; intro g; simpl; [reflexivity|].
  rewrite IH. destruct (String.eqb k "sandbox_mode");
    [apply no_flags | apply view_addResource].
Qed.

Lemma view_claimMilestone (m : Milestone) (g : Game) :
  view (state (PS_claimMilestone m g)) = view (state g).
Proof.
  unfold PS_claimMilestone, SM_claimMilestone.
  destruct (includes _ (m_id m)); [reflexivity|]. cbn [negb]. cbv zeta.
  assert (H : forall g1,
             view (state g1) = view (state g) ->
             view (state match m_reward m with
                         | Some reward => fold_left grant_reward reward g1
                         | None => g1
                         end) = view (state g)).
  { intros g1 H1. destruct (m_reward m); [now rewrite view_grant_rewards | exact H1]. }
  destruct (m_isVictory m).
  - unfold PS_triggerVictory, SM_set_victoryAchieved, SM_set_flag.
    cbn [state SM_emit set_events upd_state set_state].
    rewrite no_flags. apply H. apply no_claimed.
  - cbn [state SM_emit set_events]. apply H. apply no_claimed.
Qed.

Lemma view_add_generated (f : Stats -> Stats) (g : Game) :
  view (state (add_generated f g)) = view (state g).
Proof. apply no_stats. Qed.

Lemma view_RS_update (deltaTime : Q) (g : Game) :
  view (state (RS_update deltaTime g)) = view (state g).
Proof.
  unfold RS_update. cbv zeta.
  destruct (gtb (energy _) 0); destruct (gtb (materials _) 0);
    destruct (gtb (research _) 0);
    repeat first [rewrite view_addResource | rewrite view_add_generated];
    reflexivity.
Qed.

Lemma view_offline (now : Z) (g : Game) :
  view (state (snd (IA_calculateOfflineProgress now g))) = view (state g).
Proof.
  destruct (calculateOfflineProgress_cases now g) as [-> | (report & gains1 & ->)].
  - reflexivity.
  - apply view_apply_gains.
Qed.

Lemma view_removeFromQueue (i : nat) (g : Game) :
  view (state (SM_removeFromQueue i g)) = view (state g).
Proof. unfold SM_removeFromQueue. destruct (nth_error _ _); apply no_queue. Qed.

Lemma view_build (cat : Catalog) (id : string) (p : option string) (g : Game) :
  view (state (snd (CS_build cat id p g))) = view (state g).
Proof.
  destruct (build_cases cat id p g) as [(reason & ->) | (structure & _ & ->)];
    [reflexivity|].
  etransitivity; [apply no_queue | apply view_spend].
Qed.

Lemma view_cancel (cat : Catalog) (index : Z) (g : Game) :
  view (state (snd (CS_cancel cat index g))) = view (state g).
Proof.
  unfold CS_cancel. cbv zeta. destruct (_ || _); [reflexivity|].
  destruct (nth_error _ _); [|reflexivity].
  destruct (structure_of cat _); [|reflexivity].
  etransitivity; [apply view_removeFromQueue | apply view_refunds].
Qed.

Lemma view_startResearch (cat : Catalog) (t : string) (g : Game) :
  view (state (snd (PS_startResearch cat t g))) = view (state g).
Proof.
  unfold PS_startResearch. destruct (tech_of cat t); [|reflexivity].
  destruct (SM_isResearched t g); [reflexivity|].
  destruct (includes _ t); [reflexivity|].
  destruct (negb _); [reflexivity|]. cbv zeta.
  destruct (_ >=? _)%Z; [reflexivity | apply no_mirror].
Qed.

Lemma view_cancelResearch (t : string) (g : Game) :
  view (state (snd (PS_cancelResearch t g))) = view (state g).
Proof.
  unfold PS_cancelResearch. destruct (negb _); [reflexivity | apply no_mirror].
Qed.

Lemma view_setEra (n : Z) (g : Game) : view (state (SM_setEra n g)) = view (state g).
Proof. unfold SM_setEra. destruct (_ >? _)%Z; [apply no_era | reflexivity]. Qed.

Lemma view_mark_completed (t : string) (g : Game) :
  view (state (mark_completed t g)) = view (state g).
Proof.
  unfold mark_completed. cbv zeta. unfold upd_state. cbn [state set_state].
  now rewrite no_stats, no_legacy, no_completed.
Qed.

Lemma view_record_structure (id : string) (count : Z) (g : Game) :
  view (state (record_structure id count g)) = view (state g).
Proof.
  unfold record_structure. cbv zeta. unfold upd_state. cbn [state set_state].
  now rewrite no_stats, no_structures.
Qed.

End View.

(** ** Invariants of play *)

Ltac same_view v :=
  first
    [ reflexivity
    | apply (view_claimMilestone v); intros; reflexivity
    | apply (view_build v); intros; reflexivity
    | apply (view_cancel v); intros; reflexivity
    | apply (view_startResearch v); intros; reflexivity
    | apply (view_cancelResearch v); intros; reflexivity
    | apply (view_setEra v); intros; reflexivity
    | apply (view_RS_update v); intros; reflexivity
    | apply (view_offline v); intros; reflexivity
    | apply (view_mark_completed v); intros; reflexivity
    | (etransitivity;
       [ apply (view_record_structure v); intros; reflexivity
       | apply (view_removeFromQueue v); intros; reflexivity ]) ].

Lemma ticking_any (cs : list Command) : Forall (ticking (fun _ => True)) cs.
Proof. apply Forall_forall. intros c _. destruct c; exact I. Qed.

(** *** The solar capture is a fraction *)

Lemma clamp_bounds (p : Q) :
  0 <= JS.min 1 (JS.max 0 p) /\ JS.min 1 (JS.max 0 p) <= 1.
Proof.
  pose proof (max_ge_l 0 p) as Hmax.
  unfold JS.min. destruct (Qle_bool 1 (JS.max 0 p)) eqn:E.
  - split; [discriminate | apply Qle_refl].
  - split; [exact Hmax|]. apply Qlt_le_weak. now apply (leb_false 1).
Qed.

Lemma Capped_same (g g' : Game) :
  solarCapture (state g') = solarCapture (state g) -> Capped g -> Capped g'.
Proof. unfold Capped. intros ->. tauto. Qed.

(** X7: the solar capture stays a fraction.  [setSolarCapture] clamps what
    it is given to the interval from 0 to 1 and nothing else writes the
    field, so no command sequence takes a capture within the interval out
    of it. *)
Theorem X7_solar_capture_is_a_fraction (cat : Catalog) (cs : list Command) (g : Game) :
  Capped g -> Capped (run cat cs g).
Proof.
  intro H.
  apply (all_run cat Capped (fun _ => True));
    try (intros;
         match goal with
         | H0 : Capped ?g0 |- Capped _ =>
             apply (Capped_same g0); [same_view solarCapture | exact H0]
         end).
  - intros p g0 _. apply clamp_bounds.
  - apply ticking_any.
Qed.

Lemma X7_solar_capture_is_a_fraction_witness :
  Capped (run catalog [requestBuild "solar_collector" None; advance 5] startingGame).
Proof.
  apply X7_solar_capture_is_a_fraction.
  split; vm_compute; discriminate.
Defined.

(** *** Completed research has no duplicates *)

Lemma CompletedOnce_same (g g' : Game) :
  completedResearch (state g') = completedResearch (state g) ->
  CompletedOnce g -> CompletedOnce g'.
Proof. unfold CompletedOnce. now intros ->. Qed.

(** X8: a technology is recorded as completed at most once.  The guard of
    [StateManager.completeResearch] refuses a technology that is already in
    the list, and nothing else adds to it: a list of completed research
    without duplicates stays without duplicates under every command
    sequence. *)
Theorem X8_research_completed_once (cat : Catalog) (cs : list Command) (g : Game) :
  CompletedOnce g -> CompletedOnce (run cat cs g).
Proof.
  intro H.
  apply (all_run cat CompletedOnce (fun _ => True));
    try (intros;
         match goal with
         | H0 : CompletedOnce ?g0 |- CompletedOnce _ =>
             apply (CompletedOnce_same g0); [same_view completedResearch | exact H0]
         end).
  - intros t g0 Hnew H0. unfold CompletedOnce, mark_completed. simpl.
    now apply NoDup_push.
  - apply ticking_any.
Qed.

Lemma X8_research_completed_once_witness :
  CompletedOnce
    (run catalog [startResearch "orbital_mechanics"; advance 375] startingGame).
Proof.
  apply X8_research_completed_once.
  apply distinct_NoDup. vm_compute. reflexivity.
Defined.

(** *** Build limits *)

Lemma WithinLimits_same (cat : Catalog) (g g' : Game) :
  structures (state g') = structures (state g) ->
  constructionQueue (state g') = constructionQueue (state g) ->
  WithinLimits cat g -> WithinLimits cat g'.
Proof.
  unfold WithinLimits, SM_getStructureCount, CS_getQueuedCount, SM_getQueue.
  intros -> ->. tauto.
Qed.

(** Fewer queued items and the same structures. *)
Lemma WithinLimits_fewer (cat : Catalog) (g g' : Game) :
  structures (state g') = structures (state g) ->
  (forall id, queued_in id (SM_getQueue g') <= queued_in id (SM_getQueue g))%Z ->
  WithinLimits cat g -> WithinLimits cat g'.
Proof.
  intros Hs Hq H id structure limit Hid Hlim.
  specialize (H id structure limit Hid Hlim). specialize (Hq id).
  unfold SM_getStructureCount, CS_getQueuedCount in *. rewrite Hs.
  unfold queued_in in Hq. lia.
Qed.

Lemma queued_in_cons (id : string) (item : QueueItem) (q : list QueueItem) :
  queued_in id (item :: q) =
  ((if String.eqb (structureId item) id then 1 else 0) + queued_in id q)%Z.
Proof.
  unfold queued_in. cbn [filter].
  destruct (String.eqb (structureId item) id); [|lia].
  cbn [List.length]. rewrite Nat2Z.inj_succ. lia.
Qed.

Lemma queued_in_app (id : string) (q1 q2 : list QueueItem) :
  queued_in id (q1 ++ q2) = (queued_in id q1 + queued_in id q2)%Z.
Proof. unfold queued_in. rewrite filter_app, length_app. lia. Qed.

Lemma queued_in_splice1 (id : string) (i : nat) (q : list QueueItem) :
  (queued_in id (splice1 i q) <= queued_in id q)%Z.
Proof.
  revert i. induction q as [|x t IH]; intro i; [destruct i; simpl; lia|].
  destruct i as [|j]; simpl splice1.
  - rewrite queued_in_cons. destruct (String.eqb _ id); lia.
  - rewrite !queued_in_cons. specialize (IH j). lia.
Qed.

Section Limits.

Variable cat : Catalog.

(** A build is accepted only below the limit. *)
Lemma build_below_limit (id : string) (p : option string) (g g' : Game)
      (item : QueueItem) (structure : Structure) (limit : Z) :
  CS_build cat id p g = (Success item, g') ->
  structure_of cat id = Some structure -> s_limit structure = Some limit ->
  (SM_getStructureCount id g + CS_getQueuedCount id g < limit)%Z.
Proof.
  unfold CS_build. intros Hb Hs Hl. rewrite Hs in Hb.
  destruct (negb (CS_isTechUnlocked _ g)); [discriminate|].
  rewrite Hl in Hb.
  destruct (_ >=? limit)%Z eqn:E; [discriminate|].
  rewrite Z.geb_leb in E. apply Z.leb_gt in E. exact E.
Qed.

Lemma WithinLimits_build (id : string) (p : option string) (g : Game) :
  WithinLimits cat g -> WithinLimits cat (snd (CS_build cat id p g)).
Proof.
  intro H.
  destruct (build_cases cat id p g) as [(reason & E) | (structure & Hs & E)];
    rewrite E; [exact H|]. simpl snd.
  intros id' structure' limit Hid Hlim.
  specialize (H id' structure' limit Hid Hlim).
  unfold SM_getStructureCount, CS_getQueuedCount in *.
  assert (Hst : structures (state (SM_emit (construction_start (new_item id p structure))
                  (SM_addToQueue (new_item id p structure)
                     (snd (RS_spend (s_cost structure) g))))) = structures (state g)).
  { change (structures (state (snd (RS_spend (s_cost structure) g))) =
            structures (state g)).
    apply (view_spend structures). intros; reflexivity. }
  rewrite Hst.
  change (SM_getQueue (SM_emit ?e (SM_addToQueue ?i ?x))) with (SM_getQueue x ++ [i])%list.
  rewrite getQueue_spend.
  fold (queued_in id' (SM_getQueue g ++ [new_item id p structure])).
  fold (queued_in id' (SM_getQueue g)) in H.
  rewrite queued_in_app, queued_in_cons. simpl structureId.
  change (queued_in id' []) with 0%Z.
  destruct (String.eqb id id') eqn:Eid; [|lia].
  apply String.eqb_eq in Eid. subst id'.
  pose proof (build_below_limit id p g _ _ structure' limit E Hid Hlim) as Hlt.
  unfold SM_getStructureCount, CS_getQueuedCount in Hlt.
  fold (queued_in id (SM_getQueue g)) in Hlt. lia.
Qed.

Lemma WithinLimits_cancel (index : Z) (g : Game) :
  WithinLimits cat g -> WithinLimits cat (snd (CS_cancel cat index g)).
Proof.
  intro H. unfold CS_cancel. cbv zeta. destruct (_ || _); [exact H|].
  destruct (nth_error _ _); [|exact H].
  destruct (structure_of cat _); [|exact H]. simpl snd.
  apply (WithinLimits_fewer cat g); [| |exact H].
  - change (structures (state (SM_removeFromQueue (Z.to_nat index)
              (fold_left (refund (if gtb (progress q) 0 then 1 # 2 else 1)) (s_cost s) g))) =
            structures (state g)).
    etransitivity; [apply (view_removeFromQueue structures); intros; reflexivity|].
    apply (view_refunds structures). intros; reflexivity.
  - intro id.
    change (SM_getQueue (SM_emit ?e ?x)) with (SM_getQueue x).
    rewrite getQueue_removeFromQueue, getQueue_refunds.
    apply queued_in_splice1.
Qed.

Lemma WithinLimits_completed (item : QueueItem) (rest : list QueueItem) (g : Game) :
  SM_getQueue g = item :: rest ->
  WithinLimits cat g ->
  WithinLimits cat (record_structure (structureId item) 1 (SM_removeFromQueue 0 g)).
Proof.
  intros Hq H id structure limit Hid Hlim.
  specialize (H id structure limit Hid Hlim).
  unfold CS_getQueuedCount in *.
  rewrite getQueue_record_structure, getQueue_removeFromQueue, Hq. simpl splice1.
  rewrite Hq in H.
  fold (queued_in id rest). fold (queued_in id (item :: rest)) in H.
  rewrite queued_in_cons in H.
  assert (Hs : structures (state (SM_removeFromQueue 0 g)) = structures (state g))
    by (apply (view_removeFromQueue structures); intros; reflexivity).
  unfold SM_getStructureCount, record_structure in *. cbv zeta.
  cbn [state upd_state set_state set_stats set_structures structures].
  unfold SM_getStructureCount. rewrite Hs.
  destruct (String.eqb (structureId item) id) eqn:E.
  - apply String.eqb_eq in E. subst id. rewrite get_set_same, orZ_Some_0. lia.
  - apply String.eqb_neq in E. rewrite get_set_other by exact E. lia.
Qed.

Lemma WithinLimits_progress (item : QueueItem) (rest : list QueueItem) (p : Q)
      (g : Game) :
  SM_getQueue g = item :: rest ->
  WithinLimits cat g ->
  WithinLimits cat (upd_state (set_constructionQueue (with_progress item p :: rest)) g).
Proof.
  intros Hq H. apply (WithinLimits_fewer cat g); [reflexivity | | exact H].
  intro id. rewrite Hq.
  change (SM_getQueue (upd_state (set_constructionQueue ?q) g)) with q.
  rewrite !queued_in_cons. simpl structureId. lia.
Qed.

(** X9: build limits hold throughout play.  [build] counts the queued
    copies of a structure together with the built ones before accepting
    another, a completion turns one queued copy into one built copy, and a
    cancellation removes one: if built plus queued copies are within the
    limit of every limited structure, they still are after any command
    sequence. *)
Theorem X9_build_limits_hold (cs : list Command) (g : Game) :
  WithinLimits cat g -> WithinLimits cat (run cat cs g).
Proof.
  intro H.
  apply (all_run cat (WithinLimits cat) (fun _ => True));
    try (intros;
         match goal with
         | H0 : WithinLimits cat ?g0 |- WithinLimits cat _ =>
             apply (WithinLimits_same cat g0);
             [same_view structures | same_view constructionQueue | exact H0]
         end).
  - intros item rest g0. apply WithinLimits_completed.
  - intros item rest p g0. apply WithinLimits_progress.
  - intros id p g0. apply WithinLimits_build.
  - intros index g0. apply WithinLimits_cancel.
  - apply ticking_any.
Qed.

End Limits.

Lemma X9_build_limits_hold_witness :
  WithinLimits catalog
    (run catalog [bulkBuild "launch_pad" 7; advance 10] funded_start).
Proof.
  apply X9_build_limits_hold.
  intros id structure limit Hid Hlim.
  change (SM_getStructureCount id funded_start + CS_getQueuedCount id funded_start)%Z
    with (SM_getStructureCount id funded_start + 0)%Z.
  unfold SM_getStructureCount.
  replace (structures (state funded_start)) with (@nil (string * Z))
    by (vm_compute; reflexivity).
  simpl.
  assert (Hpos : forallb (fun s => match s_limit s with
                                   | Some l => (0 <=? l)%Z
                                   | None => true
                                   end) (STRUCTURES catalog) = true)
    by (vm_compute; reflexivity).
  rewrite forallb_forall in Hpos.
  specialize (Hpos structure (structure_of_In _ _ _ Hid)).
  rewrite Hlim in Hpos. apply Z.leb_le in Hpos. exact Hpos.
Defined.

(** *** No balance is negative *)

Lemma floor_nonneg (q : Q) : 0 <= q -> 0 <= JS.floor q.
Proof.
  intro H. unfold JS.floor. change 0 with (inject_Z 0). rewrite <- Zle_Qle.
  exact (Qfloor_resp_le 0 q H).
Qed.

Lemma plus_nonneg (a b : Q) : 0 <= a -> 0 <= b -> 0 <= a + b.
Proof.
  intros Ha Hb. apply (Qle_trans _ (0 + 0)); [apply Qle_refl|].
  now apply Qplus_le_compat.
Qed.

Lemma NonNegative_same (g g' : Game) :
  resources (state g') = resources (state g) -> NonNegative g -> NonNegative g'.
Proof. unfold NonNegative, SM_getResource. intros ->. tauto. Qed.

(** A game whose resource object holds no negative number. *)
Lemma NonNegative_values (g : Game) :
  forallb (fun e => Qle_bool 0 (snd e)) (resources (state g)) = true -> NonNegative g.
Proof.
  intros H k. unfold SM_getResource.
  induction (resources (state g)) as [|[k' v] t IH]; simpl; [apply Qle_refl|].
  simpl in H. apply andb_true_iff in H. destruct H as [Hv Ht].
  destruct (String.eqb k k'); [|now apply IH].
  unfold orQ. destruct (truthy v); [now apply Qle_bool_iff | apply Qle_refl].
Qed.

Lemma NonNegative_addResource (k : string) (a : Q) (g : Game) :
  0 <= a -> NonNegative g -> NonNegative (SM_addResource k a g).
Proof.
  intros Ha H k'. destruct (string_dec k k') as [<- | Hne].
  - rewrite getResource_addResource_same.
    apply plus_nonneg; [apply H | exact Ha].
  - rewrite getResource_addResource_other by exact Hne. apply H.
Qed.

Lemma NonNegative_spendResource (k : string) (a : Q) (g : Game) :
  NonNegative g -> NonNegative (snd (SM_spendResource k a g)).
Proof.
  intro H. destruct (SM_spendResource k a g) as [ok g'] eqn:E. destruct ok; simpl.
  - apply spendResource_true in E. destruct E as (Hle & Hsame & Hother).
    intro k'. destruct (string_dec k k') as [<- | Hne].
    + rewrite Hsame. unfold Qminus. now rewrite <- Qle_minus_iff.
    + rewrite (Hother k' Hne). apply H.
  - apply spendResource_false in E. destruct E as [-> _]. exact H.
Qed.

Lemma NonNegative_spend (costs : Obj Q) :
  forall g, NonNegative g -> NonNegative (snd (RS_spend costs g)).
Proof.
  induction costs as [|[k a] rest IH]; intros g H; simpl; [exact H|].
  pose proof (NonNegative_spendResource k a g H) as H1.
  destruct (SM_spendResource k a g) as [ok g1]. simpl in H1.
  destruct ok; simpl; [now apply IH | exact H1].
Qed.

Lemma NonNegative_refunds (m : Q) (cost : Obj Q) :
  0 <= m -> (forall k a, In (k, a) cost -> 0 <= a) ->
  forall g, NonNegative g -> NonNegative (fold_left (refund m) cost g).
Proof.
  intro Hm. induction cost as [|[k a] rest IH]; intros Hcost g H; simpl; [exact H|].
  apply IH; [intros k' a' Hin; apply (Hcost k' a'); now right|].
  apply NonNegative_addResource; [|exact H].
  apply floor_nonneg, Qmult_le_0_compat; [apply (Hcost k a); now left | exact Hm].
Qed.

Lemma NonNegative_apply_gains (l : Obj Q) :
  forall g, NonNegative g -> NonNegative (fold_left apply_gain l g).
Proof.
  induction l as [|[k a] rest IH]; intros g H; simpl; [exact H|].
  apply IH. destruct (gtb a 0) eqn:E; [|exact H].
  apply NonNegative_addResource; [|exact H].
  apply Qlt_le_weak. now apply gtb_true.
Qed.

Lemma NonNegative_grant_rewards (reward : Obj Q) :
  (forall k a, In (k, a) reward -> 0 <= a) ->
  forall g, NonNegative g -> NonNegative (fold_left grant_reward reward g).
Proof.
  induction reward as [|[k a] rest IH]; intros Hr g H; simpl; [exact H|].
  apply IH; [intros k' a' Hin; apply (Hr k' a'); now right|].
  destruct (String.eqb k "sandbox_mode"); [exact H|].
  apply NonNegative_addResource; [apply (Hr k a); now left | exact H].
Qed.

Lemma NonNegative_RS_update (deltaTime : Q) (g : Game) :
  0 <= deltaTime -> NonNegative g -> NonNegative (RS_update deltaTime g).
Proof.
  intros Hdt H k. rewrite update_credit.
  apply plus_nonneg; [apply H|].
  destruct (gtb _ 0) eqn:E; [|apply Qle_refl].
  apply gtb_true in E. apply Qmult_le_0_compat; [now apply Qlt_le_weak | exact Hdt].
Qed.

Lemma NonNegative_offline (now : Z) (g : Game) :
  NonNegative g -> NonNegative (snd (IA_calculateOfflineProgress now g)).
Proof.
  intro H.
  destruct (calculateOfflineProgress_cases now g) as [-> | (report & gains1 & ->)].
  - exact H.
  - apply (NonNegative_same (fold_left apply_gain gains1 g)); [reflexivity|].
    now apply NonNegative_apply_gains.
Qed.

Section Balances.

Variable cat : Catalog.
Hypothesis costs_fair : fair_costs cat.
Hypothesis rewards_fair : fair_rewards cat.

Lemma NonNegative_claimMilestone (m : Milestone) (g : Game) :
  In m (MILESTONES cat) -> NonNegative g -> NonNegative (PS_claimMilestone m g).
Proof.
  intros Hm H. unfold PS_claimMilestone, SM_claimMilestone.
  destruct (includes _ (m_id m)); [exact H|]. cbn [negb]. cbv zeta.
  set (g1 := SM_emit (milestone_claimed (m_id m)) _).
  assert (H1 : NonNegative g1) by exact H.
  assert (H2 : NonNegative match m_reward m with
                           | Some reward => fold_left grant_reward reward g1
                           | None => g1
                           end).
  { destruct (m_reward m) as [reward|] eqn:Er; [|exact H1].
    apply NonNegative_grant_rewards; [|exact H1].
    intros k a Hin. exact (rewards_fair m reward k a Hm Er Hin). }
  destruct (m_isVictory m); exact H2.
Qed.

Lemma NonNegative_build (id : string) (p : option string) (g : Game) :
  NonNegative g -> NonNegative (snd (CS_build cat id p g)).
Proof.
  intro H.
  destruct (build_cases cat id p g) as [(reason & ->) | (structure & _ & ->)];
    [exact H|]. simpl snd.
  apply (NonNegative_same (snd (RS_spend (s_cost structure) g))); [reflexivity|].
  now apply NonNegative_spend.
Qed.

Lemma NonNegative_cancel (index : Z) (g : Game) :
  NonNegative g -> NonNegative (snd (CS_cancel cat index g)).
Proof.
  intro H. unfold CS_cancel. cbv zeta. destruct (_ || _); [exact H|].
  destruct (nth_error _ _) as [item|]; [|exact H].
  destruct (structure_of cat _) as [structure|] eqn:Hs; [|exact H]. simpl snd.
  set (m := if gtb (progress item) 0 then 1 # 2 else 1).
  apply (NonNegative_same (fold_left (refund m) (s_cost structure) g)).
  - change (resources (state (SM_removeFromQueue (Z.to_nat index)
              (fold_left (refund m) (s_cost structure) g))) =
            resources (state (fold_left (refund m) (s_cost structure) g))).
    apply (view_removeFromQueue resources). intros; reflexivity.
  - apply NonNegative_refunds; [| |exact H].
    + unfold m. destruct (gtb _ 0); discriminate.
    + intros k a Hin. exact (costs_fair structure k a (structure_of_In _ _ _ Hs) Hin).
Qed.

(** Every command sequence whose ticks do not run backwards keeps the
    balances at or above zero. *)
Lemma NonNegative_run (cs : list Command) (g : Game) :
  Forall (ticking (fun deltaTime => 0 <= deltaTime)) cs ->
  NonNegative g -> NonNegative (run cat cs g).
Proof.
  intros Hcs H.
  apply (all_run cat NonNegative (fun deltaTime => 0 <= deltaTime));
    try (intros;
         match goal with
         | H0 : NonNegative ?g0 |- NonNegative _ =>
             apply (NonNegative_same g0); [same_view resources | exact H0]
         end).
  - intros m g0. apply NonNegative_claimMilestone.
  - intros id p g0. apply NonNegative_build.
  - intros index g0. apply NonNegative_cancel.
  - intros deltaTime g0. apply NonNegative_RS_update.
  - intros now g0. apply NonNegative_offline.
  - exact Hcs.
Qed.

Lemma NonNegative_tick (deltaTime : Q) (g : Game) :
  0 <= deltaTime -> NonNegative g -> NonNegative (tick cat deltaTime g).
Proof.
  intros Hdt H. apply (NonNegative_run [advance deltaTime] g); [|exact H].
  repeat constructor. exact Hdt.
Qed.

(** X10: no balance ever goes negative.  When the costs and rewards of the
    catalog are not negative and simulated time does not run backwards,
    every command sequence keeps all balances at or above zero: a spend is
    refused rather than overdrawn, and production, refunds, rewards and
    offline gains only add. *)
Theorem X10_balances_never_negative (cs : list Command) (g : Game) :
  Forall (ticking (fun deltaTime => 0 <= deltaTime)) cs ->
  NonNegative g -> NonNegative (run cat cs g).
Proof. exact (NonNegative_run cs g). Qed.

End Balances.

Lemma catalog_fair_costs : fair_costs catalog.
Proof.
  assert (H : forallb (fun s => forallb (fun e => Qle_bool 0 (snd e)) (s_cost s))
                      (STRUCTURES catalog) = true)
    by (vm_compute; reflexivity).
  intros s k a Hs Hin. rewrite forallb_forall in H. specialize (H s Hs).
  rewrite forallb_forall in H. apply Qle_bool_iff. exact (H (k, a) Hin).
Qed.

Lemma catalog_fair_rewards : fair_rewards catalog.
Proof.
  assert (H : forallb (fun m => match m_reward m with
                                | Some reward => forallb (fun e => Qle_bool 0 (snd e)) reward
                                | None => true
                                end)
                      (MILESTONES catalog) = true)
    by (vm_compute; reflexivity).
  intros m reward k a Hm Hr Hin. rewrite forallb_forall in H. specialize (H m Hm).
  rewrite Hr, forallb_forall in H. apply Qle_bool_iff. exact (H (k, a) Hin).
Qed.

Lemma X10_balances_never_negative_witness :
  NonNegative
    (run catalog [requestBuild "launch_pad" None; advance 10; cancelBuild 0]
         funded_start).
Proof.
  apply (X10_balances_never_negative catalog catalog_fair_costs catalog_fair_rewards).
  - repeat constructor. simpl. discriminate.
  - apply NonNegative_values. vm_compute. reflexivity.
Defined.

(** ** Recomputing production *)

Lemma set_modifiers_same (g : Game) (v : Modifiers) :
  modifiers g = v -> set_modifiers v g = g.
Proof. intros <-. destruct g. reflexivity. Qed.

Lemma set_logistics_same (g : Game) (v : Logistics) :
  logistics g = v -> set_logistics v g = g.
Proof. intros <-. destruct g. reflexivity. Qed.

Lemma set_production_same (g : Game) (v : Rates) :
  production (state g) = v -> upd_state (set_production v) g = g.
Proof. intros <-. destruct g as [s e m l a q p o]. destruct s. reflexivity. Qed.

Lemma set_solarCapture_same (g : Game) (v : Q) :
  solarCapture (state g) = v -> upd_state (set_solarCapture v) g = g.
Proof. intros <-. destruct g as [s e m l a q p o]. destruct s. reflexivity. Qed.

(** The systems' own fields are out of reach of the milestone subscriber. *)
Lemma systems_grant_rewards (reward : Obj Q) (g : Game) :
  modifiers (fold_left grant_reward reward g) = modifiers g /\
  logistics (fold_left grant_reward reward g) = logistics g.
Proof.
  revert g. induction reward as [|[k a] rest IH]; intro g; simpl; [now split|].
  destruct (IH (if String.eqb k "sandbox_mode" then SM_set_sandboxMode g
                else SM_addResource k a g)) as [Hm Hl].
  rewrite Hm, Hl. destruct (String.eqb k "sandbox_mode"); now split.
Qed.

Lemma systems_claimMilestone (m : Milestone) (g : Game) :
  modifiers (PS_claimMilestone m g) = modifiers g /\
  logistics (PS_claimMilestone m g) = logistics g.
Proof.
  unfold PS_claimMilestone, SM_claimMilestone.
  destruct (includes _ (m_id m)); [now split|]. cbn [negb]. cbv zeta.
  set (g1 := SM_emit (milestone_claimed (m_id m)) _).
  assert (H : modifiers match m_reward m with
                        | Some reward => fold_left grant_reward reward g1
                        | None => g1
                        end = modifiers g /\
              logistics match m_reward m with
                        | Some reward => fold_left grant_reward reward g1
                        | None => g1
                        end = logistics g).
  { destruct (m_reward m) as [reward|]; [|now split].
    destruct (systems_grant_rewards reward g1) as [-> ->]. now split. }
  destruct (m_isVictory m); exact H.
Qed.

Section Recalculation.

Variable cat : Catalog.

Lemma systems_checkMilestones (g : Game) :
  modifiers (PS_checkMilestones cat g) = modifiers g /\
  logistics (PS_checkMilestones cat g) = logistics g.
Proof.
  unfold PS_checkMilestones.
  generalize (getNewlyAchievedMilestones cat (state g) (claimedMilestones (state g))).
  intro ms. revert g. induction ms as [|m rest IH]; intro g; simpl; [now split|].
  destruct (IH (PS_claimMilestone m g)) as [-> ->]. apply systems_claimMilestone.
Qed.

Lemma view_checkMilestones {A} (view : State -> A) :
  (forall v s, view (set_resources v s) = view s) ->
  (forall v s, view (set_flags v s) = view s) ->
  (forall v s, view (set_claimedMilestones v s) = view s) ->
  forall g, view (state (PS_checkMilestones cat g)) = view (state g).
Proof.
  intros H1 H2 H3 g. unfold PS_checkMilestones.
  generalize (getNewlyAchievedMilestones cat (state g) (claimedMilestones (state g))).
  intro ms. revert g. induction ms as [|m rest IH]; intro g; simpl; [reflexivity|].
  rewrite IH. now apply view_claimMilestone.
Qed.

(** [setSolarCapture] leaves the clamped value in the state. *)
Lemma solarCapture_setSolarCapture (p : Q) (g : Game) :
  solarCapture (state (SM_setSolarCapture cat p g)) = JS.min 1 (JS.max 0 p).
Proof.
  unfold SM_setSolarCapture. cbv zeta. destruct (negb _); [|reflexivity].
  unfold emit_solar_capture.
  rewrite (view_checkMilestones solarCapture) by (intros; reflexivity).
  reflexivity.
Qed.

Lemma view_setSolarCapture {A} (view : State -> A) :
  (forall v s, view (set_resources v s) = view s) ->
  (forall v s, view (set_flags v s) = view s) ->
  (forall v s, view (set_claimedMilestones v s) = view s) ->
  (forall v s, view (set_solarCapture v s) = view s) ->
  forall p g, view (state (SM_setSolarCapture cat p g)) = view (state g).
Proof.
  intros H1 H2 H3 H4 p g. unfold SM_setSolarCapture. cbv zeta.
  destruct (negb _); [|apply H4].
  unfold emit_solar_capture. rewrite (view_checkMilestones view H1 H2 H3). apply H4.
Qed.

Lemma systems_setSolarCapture (p : Q) (g : Game) :
  modifiers (SM_setSolarCapture cat p g) = modifiers g /\
  logistics (SM_setSolarCapture cat p g) = logistics g.
Proof.
  unfold SM_setSolarCapture. cbv zeta. destruct (negb _); [|now split].
  unfold emit_solar_capture.
  destruct (systems_checkMilestones
              (SM_emit (solar_capture_event (JS.min 1 (JS.max 0 p)))
                       (upd_state (set_solarCapture (JS.min 1 (JS.max 0 p))) g)))
    as [-> ->].
  now split.
Qed.

Lemma recalculate_figures (g : Game) :
  RS_recalculateProduction cat g =
  let '(m, p, capture, l) := figures cat g in
  SM_emit (production_update (energy p) (materials p) (research p) capture)
          (set_logistics l
             (SM_setSolarCapture cat capture
                (upd_state (set_production p) (set_modifiers m g)))).
Proof. reflexivity. Qed.

(** The figures depend on the structures, the completed research and the
    three production modifiers only. *)
Lemma figures_same (g g' : Game) :
  structures (state g') = structures (state g) ->
  completedResearch (state g') = completedResearch (state g) ->
  mod_energy (modifiers g') = mod_energy (modifiers g) ->
  mod_materials (modifiers g') = mod_materials (modifiers g) ->
  mod_research (modifiers g') = mod_research (modifiers g) ->
  figures cat g' = figures cat g.
Proof. unfold figures. intros -> -> -> -> ->. reflexivity. Qed.

(** X11: recomputing production is idempotent.  A second
    [recalculateProduction] right after the first finds the same
    structures, research and modifiers, computes the same figures, finds
    the solar capture unchanged (so no [solar:capture] event and no
    milestone check) and changes nothing: all it does is emit
    [production:update] again, with the rates that are already in place. *)
Theorem X11_recalculate_twice (g : Game) :
  let g' := RS_recalculateProduction cat g in
  exists capture,
    RS_recalculateProduction cat g' =
    SM_emit (production_update (energy (production (state g')))
                               (materials (production (state g')))
                               (research (production (state g'))) capture) g'.
Proof.
  intro g'.
  destruct (figures cat g) as [[[m p] capture] l] eqn:Hf.
  exists capture.
  set (g2 := upd_state (set_production p) (set_modifiers m g)).
  assert (Hg' : g' = SM_emit (production_update (energy p) (materials p) (research p) capture)
                       (set_logistics l (SM_setSolarCapture cat capture g2))).
  { unfold g'. rewrite recalculate_figures, Hf. reflexivity. }
  assert (Hmod : modifiers g' = m).
  { rewrite Hg'. change (modifiers (SM_setSolarCapture cat capture g2) = m).
    now rewrite (proj1 (systems_setSolarCapture capture g2)). }
  assert (Hlog : logistics g' = l) by (rewrite Hg'; reflexivity).
  assert (Hprod : production (state g') = p).
  { rewrite Hg'. change (production (state (SM_setSolarCapture cat capture g2)) = p).
    now rewrite (view_setSolarCapture production) by (intros; reflexivity). }
  assert (Hcap : solarCapture (state g') = JS.min 1 (JS.max 0 capture)).
  { rewrite Hg'. change (solarCapture (state (SM_setSolarCapture cat capture g2)) =
                         JS.min 1 (JS.max 0 capture)).
    apply solarCapture_setSolarCapture. }
  assert (Hm : m = {| mod_energy := mod_energy (modifiers g);
                      mod_materials := mod_materials (modifiers g);
                      mod_research := mod_research (modifiers g);
                      mod_buildSpeed := mod_buildSpeed m |}).
  { unfold figures in Hf. cbv zeta in Hf. injection Hf as <- _ _ _. reflexivity. }
  assert (Hf' : figures cat g' = (m, p, capture, l)).
  { rewrite <- Hf. apply figures_same.
    - apply (cf_structures _ _ (CoreFrame_recalculateProduction cat g g (CoreFrame_refl g))).
    - apply (cf_completedResearch _ _
               (CoreFrame_recalculateProduction cat g g (CoreFrame_refl g))).
    - rewrite Hmod, Hm. reflexivity.
    - rewrite Hmod, Hm. reflexivity.
    - rewrite Hmod, Hm. reflexivity. }
  rewrite recalculate_figures, Hf'. rewrite Hprod.
  rewrite (set_modifiers_same g' m Hmod), (set_production_same g' p Hprod).
  unfold SM_setSolarCapture. cbv zeta. rewrite Hcap.
  assert (Heq : Qeq_bool (JS.min 1 (JS.max 0 capture)) (JS.min 1 (JS.max 0 capture)) = true)
    by (apply Qeq_bool_iff; reflexivity).
  rewrite Heq. cbn [negb].
  rewrite (set_solarCapture_same g' _ Hcap), (set_logistics_same g' l Hlog).
  reflexivity.
Qed.

End Recalculation.

(** ** Checking milestones *)

Lemma includes_app (l1 l2 : list string) (x : string) :
  includes (l1 ++ l2) x = includes l1 x || includes l2 x.
Proof. unfold includes. apply existsb_app. Qed.

Lemma claimed_claimMilestone (m : Milestone) (g : Game) :
  claimedMilestones (state (PS_claimMilestone m g)) =
  if includes (claimedMilestones (state g)) (m_id m)
  then claimedMilestones (state g)
  else (claimedMilestones (state g) ++ [m_id m])%list.
Proof.
  unfold PS_claimMilestone, SM_claimMilestone.
  destruct (includes _ (m_id m)); [reflexivity|]. cbn [negb]. cbv zeta.
  set (g1 := SM_emit (milestone_claimed (m_id m)) _).
  assert (H : claimedMilestones
                (state match m_reward m with
                       | Some reward => fold_left grant_reward reward g1
                       | None => g1
                       end) = claimedMilestones (state g1)).
  { destruct (m_reward m) as [reward|]; [|reflexivity].
    apply (view_grant_rewards claimedMilestones); intros; reflexivity. }
  destruct (m_isVictory m); exact H.
Qed.

Lemma claim_all_claimed (ms : list Milestone) :
  forall g,
  let g' := fold_left (fun g m => PS_claimMilestone m g) ms g in
  (forall id, includes (claimedMilestones (state g)) id = true ->
              includes (claimedMilestones (state g')) id = true) /\
  (forall m, In m ms -> includes (claimedMilestones (state g')) (m_id m) = true).
Proof.
  induction ms as [|m rest IH]; intros g g'; simpl in g'.
  - split; [auto | intros m []].
  - destruct (IH (PS_claimMilestone m g)) as [Hkeep Hnew]. fold g' in Hkeep, Hnew.
    assert (Hstep : forall id, includes (claimedMilestones (state g)) id = true ->
                               includes (claimedMilestones (state (PS_claimMilestone m g))) id
                               = true).
    { intros id Hid. rewrite claimed_claimMilestone.
      destruct (includes _ (m_id m)); [exact Hid|].
      rewrite includes_app, Hid. reflexivity. }
    split.
    + intros id Hid. apply Hkeep, Hstep, Hid.
    + intros m' [<- | Hin]; [|now apply Hnew].
      apply Hkeep. rewrite claimed_claimMilestone.
      destruct (includes (claimedMilestones (state g)) (m_id m)) eqn:E; [exact E|].
      rewrite includes_app. simpl. rewrite String.eqb_refl. apply orb_true_r.
Qed.

Section Milestones.

Variable cat : Catalog.

(** The conditions read the structures, the solar capture, the completed
    research and the era, none of which a claim changes. *)
Lemma condition_same (m : Milestone) (s s' : State) :
  structures s' = structures s -> solarCapture s' = solarCapture s ->
  completedResearch s' = completedResearch s -> currentEra s' = currentEra s ->
  checkMilestoneCondition cat m s' = checkMilestoneCondition cat m s.
Proof.
  unfold checkMilestoneCondition. intros -> -> -> ->. reflexivity.
Qed.

(** X12: one milestone check settles the matter.  After [checkMilestones]
    every milestone of the catalog whose condition holds is claimed, and a
    second check claims nothing, grants nothing and emits nothing: it
    returns the game unchanged. *)
Theorem X12_checkMilestones_settles (g : Game) :
  let g' := PS_checkMilestones cat g in
  (forall m, In m (MILESTONES cat) ->
     checkMilestoneCondition cat m (state g') = true ->
     SM_isMilestoneClaimed (m_id m) g' = true) /\
  PS_checkMilestones cat g' = g'.
Proof.
  intro g'.
  assert (Hcond : forall m, checkMilestoneCondition cat m (state g') =
                            checkMilestoneCondition cat m (state g)).
  { intro m. pose proof (CoreFrame_checkMilestones cat g g (CoreFrame_refl g)) as F.
    apply condition_same.
    - exact (cf_structures _ _ F).
    - apply (view_checkMilestones cat solarCapture); intros; reflexivity.
    - exact (cf_completedResearch _ _ F).
    - exact (cf_currentEra _ _ F). }
  destruct (claim_all_claimed
              (getNewlyAchievedMilestones cat (state g) (claimedMilestones (state g))) g)
    as [Hkeep Hnew].
  fold (PS_checkMilestones cat g) in Hkeep, Hnew. fold g' in Hkeep, Hnew.
  assert (Hall : forall m, In m (MILESTONES cat) ->
                   checkMilestoneCondition cat m (state g') = true ->
                   SM_isMilestoneClaimed (m_id m) g' = true).
  { intros m Hm Hc. unfold SM_isMilestoneClaimed.
    destruct (includes (claimedMilestones (state g)) (m_id m)) eqn:E.
    - now apply Hkeep.
    - apply Hnew. unfold getNewlyAchievedMilestones. apply filter_In.
      split; [exact Hm|]. rewrite E, <- Hcond. exact Hc. }
  split; [exact Hall|].
  unfold PS_checkMilestones at 1.
  replace (getNewlyAchievedMilestones cat (state g') (claimedMilestones (state g')))
    with (@nil Milestone); [reflexivity|].
  symmetry. unfold getNewlyAchievedMilestones.
  induction (MILESTONES cat) as [|m rest IH]; simpl; [reflexivity|].
  assert (Hm : (if includes (claimedMilestones (state g')) (m_id m) then false
                else checkMilestoneCondition cat m (state g')) = false).
  { destruct (includes (claimedMilestones (state g')) (m_id m)) eqn:E; [reflexivity|].
    destruct (checkMilestoneCondition cat m (state g')) eqn:Ec; [|reflexivity].
    specialize (Hall m (or_introl eq_refl) Ec).
    unfold SM_isMilestoneClaimed in Hall. congruence. }
  rewrite Hm. apply IH. intros m' Hm'. apply Hall. now right.
Qed.

End Milestones.

(** ** More on research *)

Lemma remove_first_last (x : string) (l : list string) :
  ~ In x l -> remove_first x (l ++ [x]) = l.
Proof.
  induction l as [|y t IH]; intro H; simpl.
  - now rewrite String.eqb_refl.
  - destruct (String.eqb x y) eqn:E.
    + apply String.eqb_eq in E. subst y. exfalso. apply H. now left.
    + rewrite IH; [reflexivity|]. intro Hin. apply H. now right.
Qed.

Lemma delete_set_fresh {A} (o : Obj A) (k : string) (v : A) :
  get o k = None -> delete k (set k v o) = o.
Proof.
  induction o as [|[k' v'] t IH]; simpl; intro H.
  - now rewrite String.eqb_refl.
  - destruct (String.eqb k k') eqn:E; [discriminate|].
    simpl. rewrite E, IH; [reflexivity | exact H].
Qed.

Lemma hd_filter_find {A} (f : A -> bool) (l : list A) :
  hd_error (filter f l) = find f l.
Proof.
  induction l as [|x t IH]; simpl; [reflexivity|].
  destruct (f x); [reflexivity | exact IH].
Qed.

Lemma filter_same {A} (f h : A -> bool) (l : list A) :
  (forall x, In x l -> f x = h x) -> filter f l = filter h l.
Proof.
  induction l as [|x t IH]; intro H; simpl; [reflexivity|].
  rewrite (H x) by now left. rewrite IH; [reflexivity|].
  intros y Hy. apply H. now right.
Qed.

Lemma tech_of_own_id (cat : Catalog) (tech : Tech) :
  NoDup (map t_id (TECH_TREE cat)) -> In tech (TECH_TREE cat) ->
  tech_of cat (t_id tech) = Some tech.
Proof.
  unfold tech_of. induction (TECH_TREE cat) as [|x t IH]; intros Hnd Hin; [destruct Hin|].
  simpl in Hnd. inversion Hnd as [|? ? Hx Ht]; subst. simpl.
  destruct Hin as [<- | Hin].
  - now rewrite String.eqb_refl.
  - destruct (String.eqb (t_id tech) (t_id x)) eqn:E; [|now apply IH].
    apply String.eqb_eq in E. exfalso. apply Hx. rewrite <- E. now apply in_map.
Qed.

Section MoreResearch.

Variable cat : Catalog.

(** X13: the research queue stays well formed.  Under every command
    sequence it holds distinct technologies of the catalog, none of them
    completed, no more of them than there are research slots, and there is
    always at least one slot. *)
Theorem X13_research_queue_well_formed (cs : list Command) (g : Game) :
  WellFormed cat g -> WellFormed cat (run cat cs g).
Proof. apply WellFormed_run. Qed.

(** What an accepted [startResearch] does. *)
Lemma startResearch_accepted (t : string) (g : Game) :
  fst (PS_startResearch cat t g) = true ->
  includes (ps_researchQueue g) t = false /\
  snd (PS_startResearch cat t g) =
  SM_emit (research_start t)
    (PS_syncStateWithQueue
       (set_ps_researchProgressMap (set t 0 (ps_researchProgressMap g))
          (set_ps_researchQueue (ps_researchQueue g ++ [t]) g))).
Proof.
  unfold PS_startResearch. destruct (tech_of cat t); [|discriminate].
  destruct (SM_isResearched t g); [discriminate|].
  destruct (includes (ps_researchQueue g) t); [discriminate|].
  destruct (negb _); [discriminate|]. cbv zeta.
  destruct (_ >=? _)%Z; [discriminate|].
  intros _. split; reflexivity.
Qed.

(** X14: cancelling a research right after it was accepted undoes it.  The
    technology leaves the queue, its progress entry is deleted, and both
    the working queue and the queue mirrored in the saved state are as
    they were before [startResearch] (the technology had no stale progress
    entry). *)
Theorem X14_start_then_cancel_research (t : string) (g : Game) :
  fst (PS_startResearch cat t g) = true ->
  get (ps_researchProgressMap g) t = None ->
  let r := PS_cancelResearch t (snd (PS_startResearch cat t g)) in
  fst r = true /\
  ps_researchQueue (snd r) = ps_researchQueue g /\
  ps_researchProgressMap (snd r) = ps_researchProgressMap g /\
  researchQueue (state (snd r)) = ps_researchQueue g /\
  researchProgressMap (state (snd r)) = ps_researchProgressMap g.
Proof.
  intros Hacc Hfresh. destruct (startResearch_accepted t g Hacc) as [Hnew ->].
  unfold PS_cancelResearch.
  cbn [ps_researchQueue SM_emit set_events PS_syncStateWithQueue upd_state set_state
       set_ps_researchProgressMap set_ps_researchQueue ps_researchProgressMap].
  assert (Hin : includes (ps_researchQueue g ++ [t]) t = true).
  { rewrite includes_app. simpl. rewrite String.eqb_refl. apply orb_true_r. }
  rewrite Hin. cbn [negb]. cbv zeta.
  cbn [fst snd ps_researchQueue SM_emit set_events PS_syncStateWithQueue upd_state set_state
       set_ps_researchProgressMap set_ps_researchQueue ps_researchProgressMap state
       researchQueue researchProgressMap set_research_mirror].
  assert (Hout : ~ In t (ps_researchQueue g)).
  { intro Hc. apply includes_In in Hc. congruence. }
  rewrite (remove_first_last t _ Hout), (delete_set_fresh _ t 0 Hfresh).
  repeat split; reflexivity.
Qed.

(** [getAvailableTechs] minus the queued technologies is the list of
    startable ones, when identifiers are distinct and a technology marked
    [unlocked] has no prerequisites. *)
Lemma available_startable (g : Game) :
  NoDup (map t_id (TECH_TREE cat)) ->
  (forall tech, In tech (TECH_TREE cat) -> t_unlocked tech = true ->
                t_prerequisites tech = []) ->
  filter (fun tech => negb (includes (ps_researchQueue g) (t_id tech)))
         (PS_getAvailableTechs cat g) =
  filter (startable cat g) (TECH_TREE cat).
Proof.
  intros Hnd Hunl. unfold PS_getAvailableTechs, getAvailableTechs.
  rewrite filter_twice. apply filter_same. intros tech Hin.
  unfold startable, SM_canResearch, SM_isResearched.
  rewrite (tech_of_own_id cat tech Hnd Hin).
  destruct (includes (completedResearch (state g)) (t_id tech)); [reflexivity|].
  destruct (t_unlocked tech) eqn:Eu; [|reflexivity].
  rewrite (Hunl tech Hin Eu). reflexivity.
Qed.

(** X15: the choice of auto-research.  With auto-research on and a free
    slot, [tryAutoResearch] starts the first technology of the catalog that
    is researchable and not already queued, and that start is accepted; if
    there is none it does nothing.  (Identifiers are distinct and a
    technology marked [unlocked] has no prerequisites, as in the game's
    tech tree.) *)
Theorem X15_auto_research_choice (g : Game) :
  NoDup (map t_id (TECH_TREE cat)) ->
  (forall tech, In tech (TECH_TREE cat) -> t_unlocked tech = true ->
                t_prerequisites tech = []) ->
  autoResearch (state g) = true ->
  (Z.of_nat (List.length (ps_researchQueue g)) < maxResearchSlots (state g))%Z ->
  match find (startable cat g) (TECH_TREE cat) with
  | Some tech =>
      PS_tryAutoResearch cat g = snd (PS_startResearch cat (t_id tech) g) /\
      fst (PS_startResearch cat (t_id tech) g) = true /\
      ps_researchQueue (PS_tryAutoResearch cat g) =
        (ps_researchQueue g ++ [t_id tech])%list
  | None => PS_tryAutoResearch cat g = g
  end.
Proof.
  intros Hnd Hunl Hauto Hfree.
  assert (Hslots : orZ (Some (maxResearchSlots (state g))) 1 = maxResearchSlots (state g))
    by (apply orZ_Some_pos; lia).
  assert (Hroom : (Z.of_nat (List.length (ps_researchQueue g)) >=?
                   orZ (Some (maxResearchSlots (state g))) 1)%Z = false).
  { rewrite Hslots, Z.geb_leb. apply Z.leb_gt. exact Hfree. }
  unfold PS_tryAutoResearch. rewrite Hauto. cbn [negb]. cbv zeta.
  rewrite Hroom, (available_startable g Hnd Hunl).
  rewrite <- hd_filter_find.
  destruct (filter (startable cat g) (TECH_TREE cat)) as [|tech rest] eqn:Ef;
    simpl hd_error; [reflexivity|].
  assert (Hin : In tech (filter (startable cat g) (TECH_TREE cat)))
    by (rewrite Ef; now left).
  apply filter_In in Hin. destruct Hin as [Hin Hst].
  unfold startable in Hst. apply andb_true_iff in Hst. destruct Hst as [Hcan Hnq].
  apply negb_true_iff in Hnq.
  assert (Hstart : PS_startResearch cat (t_id tech) g =
                   (true,
                    SM_emit (research_start (t_id tech))
                      (PS_syncStateWithQueue
                         (set_ps_researchProgressMap
                            (set (t_id tech) 0 (ps_researchProgressMap g))
                            (set_ps_researchQueue (ps_researchQueue g ++ [t_id tech]) g))))).
  { unfold PS_startResearch.
    rewrite (tech_of_own_id cat tech Hnd Hin).
    assert (Hres : SM_isResearched (t_id tech) g = false).
    { unfold SM_canResearch in Hcan. rewrite (tech_of_own_id cat tech Hnd Hin) in Hcan.
      destruct (SM_isResearched (t_id tech) g); [discriminate | reflexivity]. }
    rewrite Hres, Hnq, Hcan. cbn [negb]. cbv zeta. rewrite Hroom. reflexivity. }
  rewrite Hstart. split; [reflexivity|]. split; reflexivity.
Qed.

(** X16: the research queue survives a save.  [syncStateWithQueue] mirrors
    the working queue and progress map into the state; a
    [ProgressionSystem.init] on fresh singletons around that state restores
    the same queue, and the same progress map whenever the queue is not
    empty. *)
Theorem X16_research_restored_on_init (g : Game) :
  let saved := state (PS_syncStateWithQueue g) in
  ps_researchQueue (PS_init cat (newGame saved)) = ps_researchQueue g /\
  (ps_researchQueue g <> [] ->
   ps_researchProgressMap (PS_init cat (newGame saved)) = ps_researchProgressMap g).
Proof.
  intro saved. unfold PS_init. cbv zeta.
  set (g1 := match researchQueue (state (newGame saved)) with
             | [] => _
             | _ :: _ => _
             end).
  pose proof (CoreFrame_checkMilestones cat g1 g1 (CoreFrame_refl g1)) as F.
  rewrite (cf_ps_researchQueue _ _ F), (cf_ps_researchProgressMap _ _ F).
  unfold g1, saved, PS_syncStateWithQueue.
  cbn [state newGame upd_state set_state researchQueue researchProgressMap
       set_research_mirror currentResearch].
  destruct (ps_researchQueue g) as [|t rest]; simpl.
  - split; [reflexivity | congruence].
  - split; reflexivity.
Qed.

End MoreResearch.

Lemma X13_research_queue_well_formed_witness :
  WellFormed catalog
    (run catalog [startResearch "orbital_mechanics"; advance 375; setAutoResearch true]
         startingGame).
Proof.
  apply X13_research_queue_well_formed. apply WellFormed_startingGame.
Defined.

Lemma X14_start_then_cancel_research_witness :
  ps_researchQueue
    (snd (PS_cancelResearch "orbital_mechanics"
            (snd (PS_startResearch catalog "orbital_mechanics" startingGame)))) =
  ps_researchQueue startingGame.
Proof.
  apply (X14_start_then_cancel_research catalog "orbital_mechanics" startingGame).
  - vm_compute. reflexivity.
  - vm_compute. reflexivity.
Defined.

Lemma catalog_techs_distinct : NoDup (map t_id (TECH_TREE catalog)).
Proof. apply distinct_NoDup. vm_compute. reflexivity. Qed.

Lemma catalog_unlocked_free :
  forall tech, In tech (TECH_TREE catalog) -> t_unlocked tech = true ->
               t_prerequisites tech = [].
Proof.
  assert (H : forallb (fun tech => negb (t_unlocked tech) ||
                                   match t_prerequisites tech with [] => true | _ => false end)
                      (TECH_TREE catalog) = true)
    by (vm_compute; reflexivity).
  intros tech Hin Hu. rewrite forallb_forall in H. specialize (H tech Hin).
  rewrite Hu in H. simpl in H. destruct (t_prerequisites tech); [reflexivity | discriminate].
Qed.

Lemma X15_auto_research_choice_witness :
  ps_researchQueue
    (PS_tryAutoResearch catalog (upd_state (set_autoResearch true) startingGame)) =
  ["solar_panels"].
Proof.
  pose proof (X15_auto_research_choice catalog
                (upd_state (set_autoResearch true) startingGame)
                catalog_techs_distinct catalog_unlocked_free) as H.
  assert (Hid : option_map t_id
                  (find (startable catalog (upd_state (set_autoResearch true) startingGame))
                        (TECH_TREE catalog)) = Some "solar_panels")
    by (vm_compute; reflexivity).
  revert H Hid.
  destruct (find (startable catalog (upd_state (set_autoResearch true) startingGame))
                 (TECH_TREE catalog)) as [tech|]; [|discriminate].
  intros H Hid. simpl in Hid. injection Hid as Hid.
  destruct H as (_ & _ & H).
  - reflexivity.
  - vm_compute. reflexivity.
  - rewrite H, Hid. vm_compute. reflexivity.
Defined.

(** ** Research that reaches its cost *)

(** A decidable form of [WellFormed]. *)
Lemma WellFormed_check (c : Catalog) (g : Game) :
  distinct (ps_researchQueue g) = true ->
  forallb (fun t => match tech_of c t with Some _ => true | None => false end)
          (ps_researchQueue g) = true ->
  forallb (fun t => negb (includes (completedResearch (state g)) t))
          (ps_researchQueue g) = true ->
  (Z.of_nat (List.length (ps_researchQueue g)) <=? maxResearchSlots (state g))%Z = true ->
  (1 <=? maxResearchSlots (state g))%Z = true ->
  WellFormed c g.
Proof.
  intros H1 H2 H3 H4 H5. constructor.
  - now apply distinct_NoDup.
  - intros t Ht. rewrite forallb_forall in H2. specialize (H2 t Ht).
    destruct (tech_of c t); [discriminate | discriminate].
  - intros t Ht Hc. rewrite forallb_forall in H3. specialize (H3 t Ht).
    apply includes_In in Hc. rewrite Hc in H3. discriminate.
  - now apply Z.leb_le.
  - now apply Z.leb_le.
Qed.

Section Completion.

Variable cat : Catalog.

Lemma recorded_same (x : string) (g g' : Game) :
  completedResearch (state g') = completedResearch (state g) ->
  recorded x g -> recorded x g'.
Proof. unfold recorded. now intros ->. Qed.

Ltac stays_recorded :=
  intros;
  match goal with
  | H0 : recorded ?x ?g0 |- recorded ?x _ =>
      first [ apply (recorded_same x g0); [same_view completedResearch | exact H0]
            | unfold recorded, mark_completed; simpl; apply in_or_app; left; exact H0 ]
  end.

(** Completed research is never forgotten by a completion. *)
Lemma recorded_emit_research_complete (x t : string) (g : Game) :
  recorded x g -> recorded x (emit_research_complete cat t g).
Proof.
  intro H. unfold emit_research_complete, before_autoResearch.
  apply all_tryAutoResearch; [stays_recorded|].
  apply all_checkMilestones; [stays_recorded|].
  apply all_recalculateProduction; stays_recorded.
Qed.

Lemma recorded_completeResearch (x c : string) (g : Game) :
  recorded x g -> recorded x (PS_completeResearch cat c g).
Proof.
  intro H. apply (all_completeResearch cat (recorded x)); stays_recorded.
Qed.

Lemma completeResearch_records (c : string) (g : Game) :
  tech_of cat c <> None -> recorded c (PS_completeResearch cat c g).
Proof.
  intro Hk. unfold PS_completeResearch.
  destruct (tech_of cat c) as [tech|]; [|contradiction].
  apply all_unlock_notice; [stays_recorded|].
  apply all_grantResearchSlots; [stays_recorded|].
  unfold PS_completeResearch_record.
  apply (recorded_same c (SM_completeResearch cat c (leave_queue c g))); [reflexivity|].
  unfold SM_completeResearch.
  destruct (includes (completedResearch (state (leave_queue c g))) c) eqn:E.
  - apply includes_In in E. exact E.
  - apply recorded_emit_research_complete.
    unfold recorded, mark_completed. simpl. apply in_or_app. right. now left.
Qed.

Lemma completeResearch_each_records (cs : list string) :
  (forall c, In c cs -> tech_of cat c <> None) ->
  forall g t, In t cs ->
  recorded t (fold_left (fun g c => PS_completeResearch cat c g) cs g).
Proof.
  induction cs as [|c rest IH]; intros Hk g t Hin; [destruct Hin|]. simpl.
  destruct Hin as [<- | Hin].
  - assert (H : forall l g0, recorded c g0 ->
                  recorded c (fold_left (fun g c => PS_completeResearch cat c g) l g0)).
    { induction l as [|y l IHl]; intros g0 H0; simpl; [exact H0|].
      apply IHl. now apply recorded_completeResearch. }
    apply H. apply completeResearch_records. apply Hk. now left.
  - apply IH; [|exact Hin]. intros c' Hc'. apply Hk. now right.
Qed.

(** X17: research that reaches its cost is completed in the same tick.
    In [progressAllResearch] every queued technology whose progress plus
    its share of the tick reaches its cost is recorded as completed and is
    no longer in the queue afterwards, whether or not auto-research
    refills the freed slot. *)
Theorem X17_finished_research_completes (deltaTime : Q) (g : Game) (t : string) :
  WellFormed cat g ->
  0 < research (production (state g)) ->
  In t (ps_researchQueue g) ->
  finishes cat g deltaTime t = true ->
  let g' := PS_progressAllResearch cat deltaTime g in
  In t (completedResearch (state g')) /\ ~ In t (ps_researchQueue g').
Proof.
  intros Hwf Hrate Hin Hfin g'.
  assert (Hne : ps_researchQueue g <> []) by (intro E; rewrite E in Hin; destruct Hin).
  assert (Hdone : In t (completedResearch (state g'))).
  { unfold g'. rewrite (progressAllResearch_steps cat deltaTime g Hne Hrate).
    destruct (accrue_progress_spec cat (perItemRate g) deltaTime (ps_researchQueue g)
                (wf_distinct _ _ Hwf) (wf_known _ _ Hwf) [] g)
      as (_ & _ & Hfst & _ & _).
    simpl app in Hfst. rewrite Hfst.
    change (recorded t
              (fold_left (fun g0 c => PS_completeResearch cat c g0)
                 (filter (fun t0 => geb (progress_of t0 g + perItemRate g * deltaTime)
                                        (cost_of cat t0))
                         (ps_researchQueue g))
                 (snd (accrue_progress cat (ps_researchQueue g) (perItemRate g)
                         deltaTime [] g)))).
    apply completeResearch_each_records.
    - intros c Hc. apply filter_In in Hc. apply (wf_known _ _ Hwf). tauto.
    - apply filter_In. split; [exact Hin | exact Hfin]. }
  split; [exact Hdone|].
  intro Hq.
  exact (wf_fresh _ _ (WellFormed_progressAllResearch cat deltaTime g Hwf) t Hq Hdone).
Qed.

End Completion.

Lemma X17_finished_research_completes_witness :
  let g := seconds 3 scenario_C in
  In "alpha" (completedResearch (state (PS_progressAllResearch lab_catalog 1 g))) /\
  ~ In "alpha" (ps_researchQueue (PS_progressAllResearch lab_catalog 1 g)).
Proof.
  apply (X17_finished_research_completes lab_catalog 1 (seconds 3 scenario_C) "alpha").
  - apply WellFormed_check; vm_compute; reflexivity.
  - vm_compute. reflexivity.
  - apply (proj1 (includes_In (ps_researchQueue (seconds 3 scenario_C)) "alpha")).
    vm_compute. reflexivity.
  - vm_compute. reflexivity.
Defined.

(** ** The helpers of the structure catalog *)

Lemma covers_canAfford (cost : Obj Q) (g : Game) :
  covers (resources (state g)) cost = SM_canAfford cost g.
Proof.
  induction cost as [|[k a] rest IH]; simpl; [reflexivity|].
  unfold SM_getResource at 1. now rewrite IH.
Qed.

(** X18: what the build menu shows is necessary for a build.  When [build]
    accepts a structure, the structure is in the list that
    [getAvailableStructures] returns (both the ConstructionSystem method and
    the helper of the data file, given the completed research) and the data
    file's [canAfford] accepts it against the current balances. *)
Theorem X18_build_implies_listed_and_affordable
        (cat : Catalog) (id : string) (p : option string) (g g' : Game) (item : QueueItem) :
  CS_build cat id p g = (Success item, g') ->
  exists structure,
    structure_of cat id = Some structure /\
    In structure (CS_getAvailableStructures cat g) /\
    In structure (getAvailableStructures cat (completedResearch (state g))) /\
    checkCanAfford cat id (resources (state g)) = true.
Proof.
  unfold CS_build. intro H.
  destruct (structure_of cat id) as [structure|] eqn:Hs; [|discriminate].
  destruct (CS_isTechUnlocked (s_requiresTech structure) g) eqn:Ht; [|discriminate].
  cbn [negb] in H.
  destruct (match s_limit structure with Some _ => _ | None => _ end); [discriminate|].
  destruct (RS_canAfford (s_cost structure) g) eqn:Ha; [|discriminate].
  exists structure. split; [reflexivity|].
  assert (Hin : In structure (CS_getAvailableStructures cat g)).
  { unfold CS_getAvailableStructures. apply filter_In.
    split; [exact (structure_of_In _ _ _ Hs) | exact Ht]. }
  split; [exact Hin|]. split; [exact Hin|].
  unfold checkCanAfford. rewrite Hs, covers_canAfford. exact Ha.
Qed.

Lemma X18_build_implies_listed_and_affordable_witness :
  exists structure,
    structure_of catalog "launch_pad" = Some structure /\
    In structure (CS_getAvailableStructures catalog funded_start) /\
    In structure (getAvailableStructures catalog (completedResearch (state funded_start))) /\
    checkCanAfford catalog "launch_pad" (resources (state funded_start)) = true.
Proof.
  destruct (build_cases catalog "launch_pad" None funded_start)
    as [(reason & E) | (s & Hs & E)].
  - exfalso.
    assert (H : success (fst (CS_build catalog "launch_pad" None funded_start)) = true)
      by (vm_compute; reflexivity).
    rewrite E in H. discriminate.
  - exact (X18_build_implies_listed_and_affordable catalog "launch_pad" None funded_start
             _ _ E).
Defined.

(** ** Starting a session *)







Section Session.

Variable cat : Catalog.




End Session.


(** ** Technology modifiers *)

Lemma times_if_factor (m x : Q) : times_if m x == m * factor x.
Proof.
  unfold times_if, factor. destruct (truthy x); [reflexivity | now rewrite Qmult_1_r].
Qed.

Lemma tm_eq_refl (a : TechModifiers) : tm_eq a a.
Proof. unfold tm_eq. repeat split; reflexivity. Qed.

Lemma tm_eq_sym (a b : TechModifiers) : tm_eq a b -> tm_eq b a.
Proof. unfold tm_eq. intros (H1 & H2 & H3 & H4 & H5). repeat split; now symmetry. Qed.

Lemma tm_eq_trans (a b c : TechModifiers) : tm_eq a b -> tm_eq b c -> tm_eq a c.
Proof.
  unfold tm_eq. intros (H1 & H2 & H3 & H4 & H5) (K1 & K2 & K3 & K4 & K5).
  repeat split; etransitivity; eassumption.
Qed.

Lemma tm_scale_eq (a a' b b' : TechModifiers) :
  tm_eq a a' -> tm_eq b b' -> tm_eq (tm_scale a b) (tm_scale a' b').
Proof.
  unfold tm_eq, tm_scale. intros (H1 & H2 & H3 & H4 & H5) (K1 & K2 & K3 & K4 & K5).
  simpl. rewrite H1, H2, H3, H4, H5, K1, K2, K3, K4, K5. repeat split; reflexivity.
Qed.

Lemma tm_scale_assoc (a b c : TechModifiers) :
  tm_eq (tm_scale (tm_scale a b) c) (tm_scale a (tm_scale b c)).
Proof. unfold tm_eq, tm_scale. simpl. repeat split; ring. Qed.

Lemma tm_scale_swap (a b c : TechModifiers) :
  tm_eq (tm_scale a (tm_scale b c)) (tm_scale b (tm_scale a c)).
Proof. unfold tm_eq, tm_scale. simpl. repeat split; ring. Qed.

Lemma tm_scale_one (a : TechModifiers) : tm_eq (tm_scale a tm_one) a.
Proof. unfold tm_eq, tm_scale, tm_one. simpl. repeat split; ring. Qed.

Section Modifiers.

Variable cat : Catalog.

(** One step of [getTechModifiers] multiplies by the technology's factors. *)
Lemma apply_effects_scale (m : TechModifiers) (t : string) :
  tm_eq (apply_effects cat m t) (tm_scale m (effect_factors cat t)).
Proof.
  unfold apply_effects, effect_factors.
  destruct (tech_of cat t) as [[id n cost unl unlocks pre [e|]]|];
    try (apply tm_eq_sym, tm_scale_one).
  unfold tm_eq, tm_scale. simpl. rewrite !times_if_factor. repeat split; ring.
Qed.

Lemma apply_effects_eq (m m' : TechModifiers) (t : string) :
  tm_eq m m' -> tm_eq (apply_effects cat m t) (apply_effects cat m' t).
Proof.
  intro H.
  apply (tm_eq_trans _ (tm_scale m (effect_factors cat t))); [apply apply_effects_scale|].
  apply (tm_eq_trans _ (tm_scale m' (effect_factors cat t)));
    [apply tm_scale_eq; [exact H | apply tm_eq_refl] | apply tm_eq_sym, apply_effects_scale].
Qed.

Lemma getTechModifiers_product (completed : list string) :
  forall m,
  tm_eq (fold_left (apply_effects cat) completed m)
        (tm_scale m (tm_product cat completed)).
Proof.
  induction completed as [|t rest IH]; intro m; simpl.
  - apply tm_eq_sym, tm_scale_one.
  - apply (tm_eq_trans _ _ _ (IH (apply_effects cat m t))).
    apply (tm_eq_trans _ (tm_scale (tm_scale m (effect_factors cat t))
                                   (tm_product cat rest))).
    + apply tm_scale_eq; [apply apply_effects_scale | apply tm_eq_refl].
    + apply tm_scale_assoc.
Qed.

Lemma tm_product_permutation (l l' : list string) :
  Permutation l l' -> tm_eq (tm_product cat l) (tm_product cat l').
Proof.
  induction 1 as [|x l l' Hp IH|x y l|l l' l'' H1 IH1 H2 IH2]; simpl.
  - apply tm_eq_refl.
  - apply tm_scale_eq; [apply tm_eq_refl | exact IH].
  - apply tm_scale_swap.
  - exact (tm_eq_trans _ _ _ IH1 IH2).
Qed.

(** X20: the technology modifiers do not depend on the order in which
    research was completed.  [getTechModifiers] multiplies the factors of
    the completed technologies one after the other; any rearrangement of
    the list gives the same five modifiers. *)
Theorem X20_tech_modifiers_order_independent (completed completed' : list string) :
  Permutation completed completed' ->
  tm_eq (RS_getTechModifiers cat completed) (RS_getTechModifiers cat completed').
Proof.
  intro Hp. unfold RS_getTechModifiers.
  apply (tm_eq_trans _ _ _ (getTechModifiers_product completed _)).
  apply (tm_eq_trans _ (tm_scale tm_one (tm_product cat completed'))).
  - apply tm_scale_eq; [apply tm_eq_refl | now apply tm_product_permutation].
  - apply tm_eq_sym. apply (getTechModifiers_product completed').
Qed.

End Modifiers.

Lemma X20_tech_modifiers_order_independent_witness :
  tm_eq (RS_getTechModifiers catalog ["solar_panels"; "asteroid_mining"; "material_science"])
        (RS_getTechModifiers catalog ["material_science"; "solar_panels"; "asteroid_mining"]).
Proof.
  apply X20_tech_modifiers_order_independent.
  apply Permutation_sym.
  apply (Permutation_cons_app ["solar_panels"; "asteroid_mining"] []).
  apply Permutation_refl.
Defined.

(** ** The game loop *)



Section Loop.

Variable cat : Catalog.

(** What the fixed-step loop does: some number [k] of updates, each taking
    one step out of the accumulator, none of them while the accumulator is
    below one step. *)
Lemma fixed_steps_spec (step : Q) (n : nat) :
  forall acc w,
  exists k,
    (k <= n)%nat /\
    snd (fixed_steps cat n step acc w) = Nat.iter k (Game_update cat (step / 1000)) w /\
    fst (fixed_steps cat n step acc w) == acc - inject_Z (Z.of_nat k) * step /\
    (0 <= step -> 0 <= acc -> 0 <= fst (fixed_steps cat n step acc w)) /\
    (acc < (inject_Z (Z.of_nat n) + 1) * step -> fst (fixed_steps cat n step acc w) < step).
Proof.
  induction n as [|n IH]; intros acc w.
  - exists O. simpl. split; [lia|]. split; [reflexivity|]. split; [ring|].
    split; [auto|]. intro H. ring_simplify in H. exact H.
  - cbn [fixed_steps]. destruct (geb acc step) eqn:E.
    + apply geb_true in E.
      destruct (IH (acc - step) (Game_update cat (step / 1000) w))
        as (k & Hk & Hw & Hacc & Hpos & Hexit).
      exists (S k). split; [lia|]. split; [rewrite Hw; apply eq_sym, Nat.iter_succ_r|].
      split.
      * rewrite Hacc, Nat2Z.inj_succ. unfold Z.succ. rewrite inject_Z_plus. ring.
      * split.
        -- intros Hs Ha. apply Hpos; [exact Hs|].
           unfold Qminus. now rewrite <- Qle_minus_iff.
        -- intro H. apply Hexit. rewrite Nat2Z.inj_succ in H. unfold Z.succ in H.
           rewrite inject_Z_plus in H.
           apply (Qplus_lt_l _ _ step). ring_simplify.
           eapply Qlt_le_trans; [exact H|]. ring_simplify. apply Qle_refl.
    + apply geb_false in E. exists O. simpl. split; [lia|]. split; [reflexivity|].
      split; [ring|]. split; auto.
Qed.


End Loop.


(** ** The clock drives the engine forwards *)

Lemma Steady_setTimeScale (scale : Q) (c : Clock) : Steady (TM_setTimeScale scale c).
Proof.
  unfold Steady, TM_setTimeScale. simpl. split; [apply max_ge_l|].
  unfold JS.max. destruct (Qle_bool 0 (JS.min 10 scale)); [|discriminate].
  unfold JS.min. destruct (Qle_bool 10 scale) eqn:E; [apply Qle_refl|].
  apply Qlt_le_weak. now apply (leb_false 10).
Qed.

Lemma Steady_update (deltaTime : Q) (c : Clock) :
  Steady c -> Steady (snd (TM_update deltaTime c)).
Proof. unfold TM_update. destruct (isPaused c); auto. Qed.

Lemma Steady_togglePause (c : Clock) : Steady c -> Steady (snd (TM_togglePause c)).
Proof. unfold TM_togglePause. destruct (isPaused c); auto. Qed.

Section Driven.

Variable cat : Catalog.
Hypothesis costs_fair : fair_costs cat.
Hypothesis rewards_fair : fair_rewards cat.

Lemma Game_update_forwards (deltaTime : Q) (w : Clock * Game) :
  0 <= deltaTime -> Steady (fst w) -> NonNegative (snd w) ->
  Steady (fst (Game_update cat deltaTime w)) /\
  NonNegative (snd (Game_update cat deltaTime w)).
Proof.
  destruct w as [c g]. simpl fst. simpl snd. intros Hdt Hc Hg.
  unfold Game_update, TM_update. destruct (isPaused c) eqn:Ep.
  - cbv beta iota zeta. rewrite Ep. now split.
  - cbv beta iota zeta. cbn [isPaused fst snd]. split; [exact Hc|].
    apply (NonNegative_tick cat costs_fair rewards_fair); [|exact Hg].
    apply Qmult_le_0_compat; [exact Hdt | apply Hc].
Qed.

Lemma updates_forwards (deltaTime : Q) (k : nat) (w : Clock * Game) :
  0 <= deltaTime -> Steady (fst w) -> NonNegative (snd w) ->
  Steady (fst (Nat.iter k (Game_update cat deltaTime) w)) /\
  NonNegative (snd (Nat.iter k (Game_update cat deltaTime) w)).
Proof.
  intros Hdt Hc Hg. induction k as [|k IH]; simpl; [now split|].
  destruct IH as [Hc' Hg']. now apply Game_update_forwards.
Qed.

(** X22: time never runs backwards for the engine.  [setTimeScale] clamps
    the scale to the range from 0 to 10 and the loop only hands out its
    fixed step, so every tick that a frame of the game loop triggers has a
    step that is not negative, whatever the frame times are; with the
    costs and rewards of the catalog not negative, a frame therefore
    leaves every balance at or above zero and the clock's scale in
    range. *)
Theorem X22_frames_keep_balances (currentTime : Q) (l : GameLoop) (c : Clock) (g : Game) :
  0 <= fixedDeltaTime l -> Steady c -> NonNegative g ->
  let r := GL_loop cat currentTime (l, (c, g)) in
  (forall scale, Steady (TM_setTimeScale scale c)) /\
  Steady (fst (snd r)) /\ NonNegative (snd (snd r)).
Proof.
  intros Hstep Hc Hg r. split; [intro scale; apply Steady_setTimeScale|].
  unfold r, GL_loop. destruct (negb (isRunning l)); [now split|]. cbv zeta.
  set (acc0 := accumulator l + _).
  destruct (fixed_steps_spec cat (fixedDeltaTime l)
              (whole_steps (fixedDeltaTime l) acc0) acc0 (c, g))
    as (k & _ & Hw & _).
  destruct (fixed_steps cat _ (fixedDeltaTime l) acc0 (c, g)) as [acc1 w1].
  simpl in Hw. subst w1. cbn [snd].
  apply updates_forwards; [|exact Hc | exact Hg].
  apply Qle_shift_div_l; [reflexivity|]. rewrite Qmult_0_l. exact Hstep.
Qed.

End Driven.

Lemma X22_frames_keep_balances_witness :
  NonNegative
    (snd (snd (GL_loop catalog 100 (GL_start 0 newGameLoop, (newClock, startingGame))))).
Proof.
  apply (X22_frames_keep_balances catalog catalog_fair_costs catalog_fair_rewards 100
           (GL_start 0 newGameLoop) newClock startingGame).
  - discriminate.
  - split; discriminate.
  - apply NonNegative_values. vm_compute. reflexivity.
Defined.

(** ** Recomputed rates are not negative *)

Lemma times_if_nonneg (m x : Q) : 0 <= m -> 0 <= x -> 0 <= times_if m x.
Proof.
  intros Hm Hx. unfold times_if. destruct (truthy x); [|exact Hm].
  now apply Qmult_le_0_compat.
Qed.

Lemma plus_if_nonneg (total x : Q) (count : Z) :
  0 <= total -> 0 <= x -> (0 < count)%Z -> 0 <= plus_if total x count.
Proof.
  intros Ht Hx Hc. unfold plus_if. destruct (truthy x); [|exact Ht].
  apply plus_nonneg; [exact Ht|]. apply Qmult_le_0_compat; [exact Hx|].
  change 0 with (inject_Z 0). rewrite <- Zle_Qle. lia.
Qed.

Ltac split_ok H :=
  repeat match type of H with
         | (_ && _) = true => apply andb_true_iff in H; destruct H as [H ?]
         end;
  repeat match goal with
         | K : Qle_bool _ _ = true |- _ => apply Qle_bool_iff in K
         end.

Section Rates.

Variable cat : Catalog.
Hypothesis structures_sound : sound_structures cat.
Hypothesis effects_sound : sound_effects cat.

Lemma tech_of_In (id : string) (t : Tech) : tech_of cat id = Some t -> In t (TECH_TREE cat).
Proof. intro H. apply find_some in H. tauto. Qed.

Lemma apply_effects_ok (m : TechModifiers) (t : string) :
  tm_ok m -> tm_ok (apply_effects cat m t).
Proof.
  intro Hm. unfold apply_effects.
  destruct (tech_of cat t) as [tech|] eqn:Ht; [|exact Hm].
  destruct tech as [id n cost unl unlocks pre [e|]]; [|exact Hm].
  pose proof (effects_sound _ e (tech_of_In t _ Ht) eq_refl) as He.
  unfold effects_ok in He. split_ok He.
  destruct Hm as (M1 & M2 & M3 & M4 & M5).
  unfold tm_ok. simpl. repeat split; repeat apply times_if_nonneg; assumption.
Qed.

Lemma getTechModifiers_ok (completed : list string) :
  tm_ok (RS_getTechModifiers cat completed).
Proof.
  unfold RS_getTechModifiers.
  set (m := {| tm_energy := 1 |}).
  assert (Hm : tm_ok m) by (unfold tm_ok; simpl; repeat split; discriminate).
  clearbody m. revert m Hm.
  induction completed as [|t rest IH]; intros m Hm; simpl; [exact Hm|].
  apply IH. now apply apply_effects_ok.
Qed.

Lemma add_structure_production_ok (t : Totals) (entry : string * Z) :
  totals_ok t -> totals_ok (add_structure_production cat t entry).
Proof.
  intro Ht. destruct entry as [id count]. unfold add_structure_production.
  destruct (count <=? 0)%Z eqn:Ec; [exact Ht|]. apply Z.leb_gt in Ec.
  destruct (structure_of cat id) as [s|] eqn:Hs; [|exact Ht].
  destruct s as [sid cost time [prod|] lim req place]; [|exact Ht].
  pose proof (structures_sound _ prod (structure_of_In _ _ _ Hs) eq_refl) as Hp.
  unfold production_ok in Hp. split_ok Hp.
  destruct Ht as (T1 & T2 & T3 & T4 & T5 & T6 & T7 & T8 & T9 & T10 & T11 & T12 & T13
                  & T14 & T15 & T16 & T17).
  assert (Hcount : 0 <= inject_Z count)
    by (change 0 with (inject_Z 0); rewrite <- Zle_Qle; lia).
  unfold totals_ok. cbn [tot_energy tot_materials tot_research tot_buildSpeedBonus
                         tot_solarCapture tot_energyFromDyson tot_logistics
                         launchCapacity cargoCapacity population autoConstruction
                         energyEfficiency dysonBonus exoticMaterials antimatter
                         energyStorage solarMatter computation].
  repeat split; try (apply plus_if_nonneg; assumption).
  - destruct (_ && _); [exact T1 | apply plus_if_nonneg; assumption].
  - destruct (_ && _); [|exact T6].
    apply plus_nonneg; [exact T6 | now apply Qmult_le_0_compat].
  - destruct (truthy (pd_dysonBonus prod)) eqn:Ed; [|exact T12].
    match goal with K : (Qeq_bool (pd_dysonBonus prod) 0 || _) = true |- _ =>
      apply orb_true_iff in K; destruct K as [Kz | Kd] end.
    + unfold truthy in Ed. rewrite Kz in Ed. discriminate.
    + apply Qle_bool_iff in Kd.
      apply (Qle_trans _ (dysonBonus (tot_logistics t) + 0));
        [now rewrite Qplus_0_r|].
      apply Qplus_le_r. apply Qmult_le_0_compat; [|exact Hcount].
      unfold Qminus. now rewrite <- Qle_minus_iff.
Qed.

Lemma totals_fold_ok (l : Obj Z) :
  forall t, totals_ok t -> totals_ok (fold_left (add_structure_production cat) l t).
Proof.
  induction l as [|entry rest IH]; intros t Ht; simpl; [exact Ht|].
  apply IH. now apply add_structure_production_ok.
Qed.

Lemma totals0_ok : totals_ok totals0.
Proof. unfold totals_ok, totals0. simpl. repeat split; discriminate. Qed.

(** X23: recomputed rates are not negative.  When the production bundles
    and technology effects of the catalog hold no negative number (and a
    [dysonBonus] is a multiplier of at least one) and the three production
    modifiers are not negative, [recalculateProduction] leaves production
    rates, a build speed and an auto-construction rate that are not
    negative. *)
Theorem X23_recalculated_rates_not_negative (g : Game) :
  0 <= mod_energy (modifiers g) -> 0 <= mod_materials (modifiers g) ->
  0 <= mod_research (modifiers g) ->
  let g' := RS_recalculateProduction cat g in
  0 <= energy (production (state g')) /\
  0 <= materials (production (state g')) /\
  0 <= research (production (state g')) /\
  0 <= RS_getBuildSpeed g' /\
  0 <= RS_getAutoConstructionRate g'.
Proof.
  intros He Hm Hr g'.
  destruct (figures cat g) as [[[m p] capture] l] eqn:Hf.
  set (g2 := upd_state (set_production p) (set_modifiers m g)).
  assert (Hg' : g' = SM_emit (production_update (energy p) (materials p) (research p) capture)
                       (set_logistics l (SM_setSolarCapture cat capture g2))).
  { unfold g'. rewrite recalculate_figures, Hf. reflexivity. }
  assert (Hprod : production (state g') = p).
  { rewrite Hg'. change (production (state (SM_setSolarCapture cat capture g2)) = p).
    now rewrite (view_setSolarCapture cat production) by (intros; reflexivity). }
  assert (Hmod : modifiers g' = m).
  { rewrite Hg'. change (modifiers (SM_setSolarCapture cat capture g2) = m).
    now rewrite (proj1 (systems_setSolarCapture cat capture g2)). }
  assert (Hlog : logistics g' = l) by (rewrite Hg'; reflexivity).
  unfold RS_getBuildSpeed, RS_getAutoConstructionRate. rewrite Hprod, Hmod, Hlog.
  pose proof (totals_fold_ok (structures (state g)) totals0 totals0_ok) as Ht.
  pose proof (getTechModifiers_ok (completedResearch (state g))) as Htm.
  unfold figures in Hf. cbv zeta in Hf.
  set (t := fold_left (add_structure_production cat) (structures (state g)) totals0) in *.
  set (tm := RS_getTechModifiers cat (completedResearch (state g))) in *.
  destruct Ht as (T1 & T2 & T3 & T4 & T5 & T6 & T7 & T8 & T9 & T10 & T11 & T12 & T13
                  & T14 & T15 & T16 & T17).
  destruct Htm as (M1 & M2 & M3 & M4 & M5).
  assert (Hone : forall x y, 0 <= x -> 0 <= y -> 0 <= 1 + x * y).
  { intros x y Hx Hy. apply plus_nonneg; [discriminate | now apply Qmult_le_0_compat]. }
  assert (Hdiv : forall x y, 0 <= x -> 0 < y -> 0 <= 1 + x / y).
  { intros x y Hx Hy. apply plus_nonneg; [discriminate|].
    apply Qle_shift_div_l; [exact Hy | now rewrite Qmult_0_l]. }
  assert (Hdb : 0 <= dysonBonus (tot_logistics t))
    by (apply (Qle_trans _ 1); [discriminate | exact T12]).
  injection Hf as <- <- _ <-. cbn [energy materials research mod_buildSpeed].
  repeat split.
  - apply plus_nonneg; repeat apply Qmult_le_0_compat;
      first [assumption | apply Hone; [assumption | discriminate]
            | apply Hdiv; [assumption | reflexivity]
            | apply plus_nonneg; [discriminate | assumption]].
  - repeat apply Qmult_le_0_compat;
      first [assumption | apply Hone; [assumption | discriminate]
            | apply Hdiv; [assumption | reflexivity]].
  - repeat apply Qmult_le_0_compat;
      first [assumption | apply Hdiv; [assumption | reflexivity]
            | apply Hone; [apply Qle_shift_div_l; [reflexivity | now rewrite Qmult_0_l]
                          | discriminate]].
  - apply Qmult_le_0_compat; [|exact M4].
    apply plus_nonneg; [apply plus_nonneg; [discriminate | exact T4]|].
    apply Qmult_le_0_compat; [exact T7 | discriminate].
  - exact T10.
Qed.

End Rates.

Lemma catalog_sound_structures : sound_structures catalog.
Proof.
  assert (H : forallb (fun s => match s_production s with
                                | Some p => production_ok p
                                | None => true
                                end) (STRUCTURES catalog) = true)
    by (vm_compute; reflexivity).
  intros s p Hs Hp. rewrite forallb_forall in H. specialize (H s Hs).
  now rewrite Hp in H.
Qed.

Lemma catalog_sound_effects : sound_effects catalog.
Proof.
  assert (H : forallb (fun t => match t_effects t with
                                | Some e => effects_ok e
                                | None => true
                                end) (TECH_TREE catalog) = true)
    by (vm_compute; reflexivity).
  intros t e Ht He. rewrite forallb_forall in H. specialize (H t Ht).
  now rewrite He in H.
Qed.

Lemma X23_recalculated_rates_not_negative_witness :
  0 <= energy (production (state (RS_recalculateProduction catalog swarm))) /\
  0 <= RS_getBuildSpeed (RS_recalculateProduction catalog swarm).
Proof.
  destruct (X23_recalculated_rates_not_negative catalog catalog_sound_structures
              catalog_sound_effects swarm)
    as (H1 & _ & _ & H4 & _).
  - vm_compute. discriminate.
  - vm_compute. discriminate.
  - vm_compute. discriminate.
  - split; [exact H1 | exact H4].
Defined.

(** ** Loading a saved state *)

Lemma get_absent {A} (o : Obj A) (k : string) : ~ In k (keys o) -> get o k = None.
Proof.
  induction o as [|[k' v] t IH]; intro H; simpl; [reflexivity|].
  destruct (String.eqb k k') eqn:E.
  - apply String.eqb_eq in E. subst k'. exfalso. apply H. now left.
  - apply IH. intro Hin. apply H. now right.
Qed.

(** The loop of [deepMerge] over the properties of an object. *)
Lemma deepMerge_fields (target : Json) (fields : Obj Json) :
  deepMerge target (JObj fields) =
  fold_left (fun result kv => set (fst kv) (merged_value target (fst kv) (snd kv)) result)
            fields (spread target).
Proof.
  cbn [deepMerge]. generalize (spread target) as result.
  induction fields as [|[key v] rest IH]; intro result; [reflexivity|].
  cbn [fold_left fst snd]. rewrite <- IH. unfold merged_value.
  destruct (truthy_json v && typeof_object v && negb (isArray v)); reflexivity.
Qed.

(** What a lookup finds in a merged object. *)
Lemma get_deepMerge (target : Json) (fields : Obj Json) (k : string) :
  NoDup (keys fields) ->
  get (deepMerge target (JObj fields)) k =
  match get fields k with
  | Some v => Some (merged_value target k v)
  | None => get (spread target) k
  end.
Proof.
  rewrite deepMerge_fields. generalize (spread target) as result.
  induction fields as [|[key v] rest IH]; intros result Hd; [reflexivity|].
  cbn [keys map fst] in Hd. apply NoDup_cons_iff in Hd. destruct Hd as [Hnew Hd].
  cbn [fold_left fst snd get]. rewrite (IH _ Hd).
  destruct (String.eqb k key) eqn:E.
  - apply String.eqb_eq in E. subst key.
    rewrite (get_absent rest k Hnew). now rewrite get_set_same.
  - destruct (get rest k); [reflexivity|].
    apply get_set_other. intro H. subst key. now rewrite String.eqb_refl in E.
Qed.

Lemma at_path_falsy (v : Json) (key : string) (rest : list string) :
  truthy_json v = false -> at_path v (key :: rest) = None.
Proof.
  intro H. destruct v as [|b|n|s|items|fields]; try reflexivity; try discriminate.
  destruct s; [reflexivity | discriminate].
Qed.

(** Below [target[key] || {}] a path finds what it finds below the own
    property [key] of [target]. *)
Lemma at_path_or_empty (target : Json) (key k : string) (rest : list string) :
  at_path (or_empty (prop target key)) (k :: rest) =
  match get (spread target) key with
  | Some v => at_path v (k :: rest)
  | None => None
  end.
Proof.
  assert (Hsome : forall v, at_path (or_empty (Some v)) (k :: rest) = at_path v (k :: rest)).
  { intro v. unfold or_empty. destruct (truthy_json v) eqn:T; [reflexivity|].
    now rewrite (at_path_falsy v k rest T). }
  assert (Hnum : forall n, at_path (or_empty (Some (JNum n))) (k :: rest) = None).
  { intro n. unfold or_empty. destruct (truthy_json (JNum n)); reflexivity. }
  destruct target as [|b|n|s|items|fields]; try reflexivity.
  - cbn [prop spread]. destruct (get (indexed 0 (chars s)) key) as [v|]; [apply Hsome|].
    destruct (String.eqb key "length"); [apply Hnum | reflexivity].
  - cbn [prop spread]. destruct (get (indexed 0 items) key) as [v|]; [apply Hsome|].
    destruct (String.eqb key "length"); [apply Hnum | reflexivity].
  - cbn [prop spread]. destruct (get fields key) as [v|]; [apply Hsome | reflexivity].
Qed.


(** Where the source is silent about a path, the merged object holds what
    the target holds there. *)
Lemma deepMerge_keeps_target (path : list string) :
  forall (target source : Json),
  silent source path ->
  at_path (JObj (deepMerge target source)) path = at_path target path.
Proof.
  induction path as [|key rest IH]; intros target source H; [destruct H|].
  destruct source as [|b|n|s|items|fields]; try (cbn in H; contradiction).
  cbn [silent] in *. destruct H as [Hd H].
  cbn [at_path spread]. rewrite (get_deepMerge target fields key Hd).
  destruct (get fields key) as [v|]; [|reflexivity].
  destruct rest as [|k rest]; [destruct H|].
  destruct v as [|b|n|s|items|inner]; try (cbn in H; contradiction).
  change (merged_value target key (JObj inner))
    with (JObj (deepMerge (or_empty (prop target key)) (JObj inner))).
  rewrite (IH _ _ H). apply at_path_or_empty.
Qed.

Lemma at_path_set_other (o : Obj Json) (k key : string) (v : Json) (rest : list string) :
  key <> k ->
  at_path (JObj (set k v o)) (key :: rest) = at_path (JObj o) (key :: rest).
Proof.
  intro H. cbn [at_path spread]. rewrite get_set_other by (intro E; now apply H).
  reflexivity.
Qed.



(** X25: loading fills the gaps with defaults.  Where the saved state is
    silent about a path (its objects along the path list each key once
    and one of them lacks the next key), the loaded state holds at that
    path what the default state holds there. *)
Theorem X25_loadState_fills_defaults
  (now : Z) (savedState : Json) (m : Saved.Store)
  (key : string) (rest : list string) :
  silent savedState (key :: rest) ->
  key <> "version" ->
  at_path (JObj (Saved.held (Saved.loadState now savedState m))) (key :: rest) =
  at_path (JObj (Saved.getDefaultState now)) (key :: rest).
Proof.
  intros H Hkey. unfold Saved.loadState. cbn [Saved.held].
  rewrite at_path_set_other by exact Hkey.
  now apply deepMerge_keeps_target.
Qed.

Lemma X25_loadState_fills_defaults_witness :
  let saved := JObj [("resources", JObj [("energy", JNum 250)])] in
  at_path (JObj (Saved.held (Saved.loadState 0 saved (Saved.newStore 0))))
          ["resources"; "materials"] = Some (JNum 50).
Proof.
  intro saved.
  rewrite (X25_loadState_fills_defaults 0 saved (Saved.newStore 0) "resources" ["materials"]).
  - reflexivity.
  - simpl. split; [apply distinct_NoDup; reflexivity|].
    split; [apply distinct_NoDup; reflexivity | exact I].
  - discriminate.
Defined.

(** ** The statistics track the state *)

Lemma Tallied_same (built researched : Z) (g g' : Game) :
  totalStructuresBuilt (stats (state g')) = totalStructuresBuilt (stats (state g)) ->
  totalResearchCompleted (stats (state g')) = totalResearchCompleted (stats (state g)) ->
  dysonSatellites (stats (state g')) = dysonSatellites (stats (state g)) ->
  structures (state g') = structures (state g) ->
  completedResearch (state g') = completedResearch (state g) ->
  Tallied built researched g -> Tallied built researched g'.
Proof.
  unfold Tallied, SM_getTotalStructures, SM_getStructureCount.
  intros -> -> -> -> ->. tauto.
Qed.

Lemma stats_add_generated (f : Stats -> Stats) (g : Game) :
  stats (state (add_generated f g)) = f (stats (state g)).
Proof. reflexivity. Qed.

Lemma stats_addResource (type : string) (amount : Q) (g : Game) :
  stats (state (SM_addResource type amount g)) = stats (state g).
Proof. apply (view_addResource stats). intros. reflexivity. Qed.

(** A production tick moves the two production counters only. *)
Lemma counters_RS_update (deltaTime : Q) (g : Game) :
  let st := stats (state (RS_update deltaTime g)) in
  totalStructuresBuilt st = totalStructuresBuilt (stats (state g)) /\
  totalResearchCompleted st = totalResearchCompleted (stats (state g)) /\
  dysonSatellites st = dysonSatellites (stats (state g)).
Proof.
  unfold RS_update. cbv zeta.
  destruct (gtb (energy _) 0); destruct (gtb (materials _) 0);
    destruct (gtb (research _) 0);
    repeat first [rewrite stats_addResource | rewrite stats_add_generated];
    cbn [totalStructuresBuilt totalResearchCompleted dysonSatellites];
    repeat first [rewrite stats_addResource | rewrite stats_add_generated];
    cbn [totalStructuresBuilt totalResearchCompleted dysonSatellites];
    repeat split.
Qed.

Lemma Tallied_RS_update (built researched : Z) (deltaTime : Q) (g : Game) :
  Tallied built researched g -> Tallied built researched (RS_update deltaTime g).
Proof.
  destruct (counters_RS_update deltaTime g) as (H1 & H2 & H3).
  apply Tallied_same; try assumption.
  - apply (view_RS_update structures); intros; reflexivity.
  - apply (view_RS_update completedResearch); intros; reflexivity.
Qed.

Lemma Tallied_mark_completed (built researched : Z) (t : string) (g : Game) :
  Tallied built researched g -> Tallied built researched (mark_completed t g).
Proof.
  unfold Tallied, SM_getTotalStructures, SM_getStructureCount, mark_completed.
  cbn [state upd_state set_state stats set_stats completedResearch set_completedResearch
       clear_currentResearch structures totalStructuresBuilt totalResearchCompleted
       dysonSatellites].
  intros (H1 & H2 & H3). repeat split; try assumption.
  rewrite length_app. cbn [List.length]. lia.
Qed.

Lemma Tallied_record_structure (built researched : Z) (id : string) (g : Game) :
  Tallied built researched g -> Tallied built researched (record_structure id 1 g).
Proof.
  unfold Tallied, SM_getTotalStructures, SM_getStructureCount, record_structure.
  cbn [state upd_state set_state stats set_stats completedResearch structures
       set_structures totalStructuresBuilt totalResearchCompleted dysonSatellites].
  intros (H1 & H2 & H3). repeat split; try assumption.
  - rewrite total_set. unfold SM_getStructureCount. lia.
  - destruct (String.eqb id "dyson_satellite") eqn:E.
    + apply String.eqb_eq in E. subst id.
      rewrite get_set_same. unfold SM_getStructureCount. now rewrite orZ_Some_0.
    + rewrite get_set_other; [exact H3|].
      intro Heq. subst id. now rewrite String.eqb_refl in E.
Qed.

(** X26: the statistics keep track of the state.  Under every command
    sequence [totalStructuresBuilt] grows by exactly as much as the total
    number of structures, [totalResearchCompleted] by exactly as much as
    the list of completed research, and [dysonSatellites] stays the number
    of Dyson satellites: what holds of the three before holds after. *)
Theorem X26_statistics_track_the_state
  (cat : Catalog) (built researched : Z) (cs : list Command) (g : Game) :
  Tallied built researched g -> Tallied built researched (run cat cs g).
Proof.
  intro H.
  apply (all_run cat (Tallied built researched) (fun _ => True));
    try (intros;
         match goal with
         | H0 : Tallied _ _ ?g0 |- Tallied _ _ _ =>
             apply (Tallied_same built researched g0);
             [ same_view (fun s => totalStructuresBuilt (stats s))
             | same_view (fun s => totalResearchCompleted (stats s))
             | same_view (fun s => dysonSatellites (stats s))
             | same_view structures
             | same_view completedResearch
             | exact H0 ]
         end).
  - intros item rest g0 _ H0. apply Tallied_record_structure.
    revert H0. apply Tallied_same.
    + apply (view_removeFromQueue (fun s => totalStructuresBuilt (stats s))).
      intros. reflexivity.
    + apply (view_removeFromQueue (fun s => totalResearchCompleted (stats s))).
      intros. reflexivity.
    + apply (view_removeFromQueue (fun s => dysonSatellites (stats s))).
      intros. reflexivity.
    + apply (view_removeFromQueue structures). intros. reflexivity.
    + apply (view_removeFromQueue completedResearch). intros. reflexivity.
  - intros t g0 _ H0. now apply Tallied_mark_completed.
  - intros deltaTime g0 _ H0. now apply Tallied_RS_update.
  - apply ticking_any.
Qed.

Lemma X26_statistics_track_the_state_witness :
  Tallied 0 (-1)
    (run catalog [requestBuild "solar_collector" None; advance 60;
                  startResearch "orbital_mechanics"; advance 400] startingGame).
Proof.
  apply X26_statistics_track_the_state.
  repeat split.
Defined.
